(** * Wallet login handlers of the grainlify backend

    A shallow embedding of [backend/internal/handlers/auth.go]: the three
    HTTP handlers [Nonce], [Verify] and [Me] of [AuthHandler], written as
    state-passing functions over the relational store, with every call
    into the [auth] and [github] packages recorded in a call log.

    The packages [auth] and [github] are imported by the handlers; they are
    represented as records of functions ([AuthPkg], [GithubPkg]), so that
    [auth.(NormalizeWalletType) raw] reads like the Go call it stands for.
    Results about the handlers hold for every implementation of these
    records; results about nonce consumption and token contents are stated
    for the implementation in [AuthModel]. *)

From Stdlib Require Import ZArith Lia Ascii.
From stdpp Require Import base option list strings gmap fin_maps.

Set Warnings "-register-all".

Local Open Scope Z_scope.
Local Open Scope string_scope.

(** ** Go values *)

(** A Go result [(T, error)]: either the value, or a non-nil error whose
    [Error()] text is [msg]. *)
Inductive result (T : Type) : Type :=
| Ok (v : T)
| Err (msg : string).
Arguments Ok {T} v.
Arguments Err {T} msg.

(** A Go [error]: [None] is [nil], [Some msg] an error with text [msg]. *)
Abbreviation error := (option string) (only parsing).

(** [time.Duration] counts nanoseconds; [time.Time] is an instant on the
    same scale. *)
Abbreviation Duration := Z (only parsing).
Abbreviation Time := Z (only parsing).
Abbreviation UUID := N (only parsing).

Definition Minute : Duration := 60 * 1000000000.

(** HTTP status codes named as in fiber. *)
Definition StatusOK : Z := 200.
Definition StatusBadRequest : Z := 400.
Definition StatusUnauthorized : Z := 401.
Definition StatusInternalServerError : Z := 500.
Definition StatusServiceUnavailable : Z := 503.

(** ** Data model *)

(** Modelled from the spec: the declaration of [auth.WalletType] is not
    among the sources.  The spec (section 3) describes an enumerated chain
    family and names an EVM-style and a Solana-style family. *)
Inductive WalletType : Type := EVM | Solana.

#[global] Instance WalletType_eq_dec : EqDecision WalletType.
Proof. solve_decision. Defined.

#[global] Instance WalletType_countable : Countable WalletType.
Proof.
  refine (inj_countable'
            (fun w => match w with EVM => true | Solana => false end)
            (fun b : bool => if b then EVM else Solana) _).
  intros []; reflexivity.
Defined.

(** Modelled from the spec: the struct declarations of the [auth] package
    ([User], the wallet link, the stored nonce, the login result) are not
    among the sources; the fields follow section 3 of the spec and the field
    names the handlers read ([res.User.ID], [res.User.Role],
    [res.Wallet.WalletType], [res.Wallet.Address], [n.Nonce],
    [n.ExpiresAt]). *)
Record User : Type := mkUser {
  ID : UUID;
  Role : string;
  UserCreatedAt : Time
}.

Record WalletLink : Type := mkWalletLink {
  WalletUserID : UUID;
  WalletType_ : WalletType;
  Address : string;
  PublicKey : string
}.

Record NonceRow : Type := mkNonceRow {
  NonceToken : string;
  NonceWalletType : WalletType;
  NonceAddress : string;
  CreatedAt : Time;
  ExpiresAt : Time;
  Consumed : bool
}.

Record LoginResult : Type := mkLoginResult {
  LoginUser : User;
  Wallet : WalletLink
}.

(** Modelled from the spec: a session token is "a self-contained, signed,
    expiring credential carrying user id, role, WalletType, and Address as
    claims" (section 3).  The signature is the text produced by the signing
    primitive. *)
Record SessionToken : Type := mkSessionToken {
  ClaimUserID : UUID;
  ClaimRole : string;
  ClaimWalletType : WalletType;
  ClaimAddress : string;
  IssuedAt : Time;
  TokenExpiresAt : Time;
  TokenSignature : string
}.

(** The profile returned by the provider ([github.GetUser]) and the
    decrypted linked account ([github.GetLinkedAccount]); the handler reads
    the fields below. *)
Record GitHubUser : Type := mkGitHubUser {
  Login : string;
  AvatarURL : string;
  Name : string;
  Email : string;
  Location : string;
  Bio : string;
  Blog : string
}.

Record LinkedAccount : Type := mkLinkedAccount {
  AccessToken : string;
  LinkedLogin : string
}.

(** Modelled from the spec: one row of [github_accounts]; the handler's
    query selects [login] and [avatar_url], the token column holds the
    ciphertext only. *)
Record GithubAccountRow : Type := mkGithubAccountRow {
  row_login : option string;
  row_avatar_url : option string;
  row_access_token_enc : string
}.

(** Modelled from the spec: one row of the wallet links, "unique per
    (WalletType, Address)": the pair is the key of the table, the row holds
    the owning user and the stored public key. *)
Record WalletRow : Type := mkWalletRow {
  row_user_id : UUID;
  row_public_key : string
}.

(** The relational store reached through [h.db.Pool]: nonces by token,
    users by id, wallet links by wallet identity, linked accounts by user. *)
Record Store : Type := mkStore {
  nonces : gmap string NonceRow;
  users : gmap N User;
  wallets : gmap (WalletType * string) WalletRow;
  github_accounts : gmap N GithubAccountRow
}.

(** ** JSON responses *)

(** What a handler puts in a [fiber.Map]. *)
Inductive Value : Type :=
| VString (s : string)
| VTime (t : Time)
| VUser (u : User)
| VWalletType (w : WalletType)
| VToken (t : SessionToken)
| VMap (m : gmap string Value).

Record Response : Type := mkResponse {
  status : Z;
  body : gmap string Value
}.

(** [c.Status(code).JSON(fiber.Map{"error": msg})]. *)
Definition error_response (code : Z) (msg : string) : Response :=
  {| status := code; body := {[ "error" := VString msg ]} |}.

(** ** Requests, configuration and the ambient environment *)

(** What a call observes of the world outside the store while one request
    is served: the clock ([time.Now()]), the random source the nonce token
    is drawn from, and the generator of fresh user ids.  It is what travels
    with [c.Context()]. *)
Record Env : Type := mkEnv {
  now : Time;
  entropy : string;
  fresh_uuid : UUID
}.

Record nonceRequest : Type := mkNonceRequest {
  nr_WalletType : string;
  nr_Address : string
}.

Record verifyRequest : Type := mkVerifyRequest {
  vr_WalletType : string;
  vr_Address : string;
  vr_Nonce : string;
  vr_Signature : string;
  vr_PublicKey : string
}.

(** The fiber context of one request, for a handler that decodes its body
    into [Req]: the outcome of [c.BodyParser(&req)], the two locals the
    authentication middleware sets ([None] when the local is absent or not
    a string), and [c.Context()]. *)
Record Ctx (Req : Type) : Type := mkCtx {
  BodyParser : result Req;
  LocalUserID : option string;
  LocalRole : option string;
  Context : Env
}.
Arguments mkCtx {Req} _ _ _ _.
Arguments BodyParser {Req} _.
Arguments LocalUserID {Req} _.
Arguments LocalRole {Req} _.
Arguments Context {Req} _.

Record Config : Type := mkConfig {
  JWTSecret : string;
  TokenEncKeyB64 : string
}.

(** [*db.DB] with its [Pool] field; either pointer may be nil. *)
Inductive PoolHandle : Type := pgxpool.
Record DB : Type := mkDB { Pool : option PoolHandle }.

Record AuthHandler : Type := mkAuthHandler {
  cfg : Config;
  db : option DB
}.

Definition NewAuthHandler (cfg : Config) (d : option DB) : AuthHandler :=
  {| cfg := cfg; db := d |}.

(** ** The imported packages *)

(** Package [auth].  The functions that receive the pool take and return
    the store; [IssueJWT] reads the clock and so receives the environment. *)
Record AuthPkg : Type := mkAuthPkg {
  NormalizeWalletType : string -> result WalletType;
  NormalizeAddress : WalletType -> string -> result string;
  CreateNonce :
    Env -> WalletType -> string -> Duration -> Store -> result NonceRow * Store;
  LoginMessage : string -> string;
  LegacyLoginMessage : string -> string;
  VerifySignature : WalletType -> string -> string -> string -> string -> error;
  ConsumeNonceAndUpsertUser :
    Env -> WalletType -> string -> string -> string -> Store ->
    result LoginResult * Store;
  IssueJWT :
    Env -> string -> UUID -> string -> WalletType -> string -> Duration ->
    result SessionToken
}.

(** Package [github]: the vault lookup reads the store, the client calls
    the provider. *)
Record Client : Type := mkClient {
  GetUser : Env -> string -> result GitHubUser
}.

Record GithubPkg : Type := mkGithubPkg {
  GetLinkedAccount : Env -> UUID -> string -> Store -> result LinkedAccount;
  NewClient : Client
}.

(** ** Calls and the handler monad *)

(** One entry per call a handler makes into a package or the pool. *)
Inductive Call : Type :=
| CallCreateNonce (wt : WalletType) (addr : string) (ttl : Duration)
| CallVerifySignature (wt : WalletType) (addr msg sig pk : string)
| CallConsumeNonceAndUpsertUser (wt : WalletType) (addr nonce pk : string)
| CallIssueJWT (secret : string) (uid : UUID) (role : string)
    (wt : WalletType) (addr : string) (ttl : Duration)
| CallGetLinkedAccount (uid : UUID) (key : string)
| CallGetUser (token : string)
| CallQueryRow (uid : UUID).

(** The calls that receive [h.db.Pool], that is, the storage operations. *)
Definition uses_pool (c : Call) : bool :=
  match c with
  | CallCreateNonce _ _ _ => true
  | CallConsumeNonceAndUpsertUser _ _ _ _ => true
  | CallGetLinkedAccount _ _ => true
  | CallQueryRow _ => true
  | CallVerifySignature _ _ _ _ _ => false
  | CallIssueJWT _ _ _ _ _ _ => false
  | CallGetUser _ => false
  end.

Definition is_verify_call (c : Call) : bool :=
  match c with
  | CallVerifySignature _ _ _ _ _ => true
  | _ => false
  end.

Record World : Type := mkWorld {
  store : Store;
  calls : list Call
}.

(** A handler body: it either returns a response early ([inl]) or goes on
    with a value ([inr]), and threads the world. *)
Definition M (A : Type) : Type := World -> (Response + A) * World.

Definition ret {A} (a : A) : M A := fun w => (inr a, w).

Definition bind {A B} (m : M A) (k : A -> M B) : M B :=
  fun w =>
    match m w with
    | (inl r, w') => (inl r, w')
    | (inr a, w') => k a w'
    end.

(** [return c.Status(..).JSON(..)]. *)
Definition Return {A} (r : Response) : M A := fun w => (inl r, w).

(** A call that receives the pool and may write. *)
Definition pool_exec {A} (c : Call) (f : Store -> A * Store) : M A :=
  fun w =>
    let '(a, s) := f (store w) in
    (inr a, {| store := s; calls := calls w ++ [c] |}).

(** A call that receives the pool and only reads. *)
Definition pool_query {A} (c : Call) (f : Store -> A) : M A :=
  fun w => (inr (f (store w)), {| store := store w; calls := calls w ++ [c] |}).

(** A call that does not touch the store. *)
Definition invoke {A} (c : Call) (a : A) : M A :=
  fun w => (inr a, {| store := store w; calls := calls w ++ [c] |}).

Definition run (m : M Response) (w : World) : Response * World :=
  match m w with
  | (inl r, w') => (r, w')
  | (inr r, w') => (r, w')
  end.

Declare Scope handler_scope.
Delimit Scope handler_scope with handler.
Notation "x <- m ;; k" := (bind m (fun x => k))
  (at level 100, m at next level, right associativity) : handler_scope.
Notation "m ;;; k" := (bind m (fun _ => k))
  (at level 100, right associativity) : handler_scope.

(** [if cond { return r }]. *)
Definition when_return (cond : bool) (r : Response) : M unit :=
  if cond then Return r else ret tt.

(** [h.db == nil || h.db.Pool == nil]. *)
Definition db_missing (h : AuthHandler) : bool :=
  match db h with
  | None => true
  | Some d => match Pool d with None => true | Some _ => false end
  end.

(** [x, err := f(..); if err != nil { return resp }]. *)
Definition try_ {A} (r : result A) (resp : Response) : M A :=
  match r with
  | Ok v => ret v
  | Err _ => Return resp
  end.

(** A [fiber.Map{..}] literal. *)
Definition fiber_Map (l : list (string * Value)) : gmap string Value :=
  list_to_map l.

(** [if v != "" { m[k] = v }]. *)
Definition set_if_nonempty (k v : string) (m : gmap string Value)
  : gmap string Value :=
  if String.eqb v "" then m else <[k := VString v]> m.

(** ** The handlers *)

Section Handlers.

Variable auth : AuthPkg.
Variable github : GithubPkg.

(** [uuid.Parse] of google/uuid. *)
Variable uuid_Parse : string -> result UUID.

(** [h.db.Pool.QueryRow(ctx, "SELECT login, avatar_url FROM
    github_accounts WHERE user_id = $1", userID).Scan(&githubLogin,
    &avatarURL)]: the two pointers as the scan leaves them.  The handler
    discards the scan's error, so the pointers are all it observes. *)
Variable QueryRowScan : Env -> UUID -> Store -> option string * option string.

Local Open Scope handler_scope.

Definition Nonce (h : AuthHandler) (c : Ctx nonceRequest) : M Response :=
  when_return (db_missing h)
    (error_response StatusServiceUnavailable "db_not_configured") ;;;
  req <- try_ (BodyParser c) (error_response StatusBadRequest "invalid_json") ;;
  wType <- try_ (auth.(NormalizeWalletType) (nr_WalletType req))
             (error_response StatusBadRequest "invalid_wallet_type") ;;
  addr <- try_ (auth.(NormalizeAddress) wType (nr_Address req))
            (error_response StatusBadRequest "invalid_address") ;;
  created <- pool_exec (CallCreateNonce wType addr (10 * Minute))
               (auth.(CreateNonce) (Context c) wType addr (10 * Minute)) ;;
  n <- try_ created
         (error_response StatusInternalServerError "nonce_create_failed") ;;
  ret {| status := StatusOK;
         body := fiber_Map
           [ ("nonce", VString (NonceToken n));
             ("message", VString (auth.(LoginMessage) (NonceToken n)));
             ("expires_at", VTime (ExpiresAt n)) ] |}.

(** The loop over [msgs]: the first rendering the signature verifies
    against sets [sigOK] and breaks. *)
Fixpoint verify_any (wType : WalletType) (addr sig pk : string)
    (msgs : list string) : M bool :=
  match msgs with
  | [] => ret false
  | msg :: rest =>
      err <- invoke (CallVerifySignature wType addr msg sig pk)
               (auth.(VerifySignature) wType addr msg sig pk) ;;
      match err with
      | None => ret true
      | Some _ => verify_any wType addr sig pk rest
      end
  end.

Definition Verify (h : AuthHandler) (c : Ctx verifyRequest) : M Response :=
  when_return (db_missing h)
    (error_response StatusServiceUnavailable "db_not_configured") ;;;
  when_return (String.eqb (JWTSecret (cfg h)) "")
    (error_response StatusServiceUnavailable "jwt_not_configured") ;;;
  req <- try_ (BodyParser c) (error_response StatusBadRequest "invalid_json") ;;
  wType <- try_ (auth.(NormalizeWalletType) (vr_WalletType req))
             (error_response StatusBadRequest "invalid_wallet_type") ;;
  addr <- try_ (auth.(NormalizeAddress) wType (vr_Address req))
            (error_response StatusBadRequest "invalid_address") ;;
  when_return (String.eqb (vr_Nonce req) "" || String.eqb (vr_Signature req) "")
    (error_response StatusBadRequest "missing_nonce_or_signature") ;;;
  let msgs := [ auth.(LoginMessage) (vr_Nonce req);
                auth.(LegacyLoginMessage) (vr_Nonce req) ] in
  sigOK <- verify_any wType addr (vr_Signature req) (vr_PublicKey req) msgs ;;
  when_return (negb sigOK)
    (error_response StatusUnauthorized "invalid_signature") ;;;
  consumed <- pool_exec
                (CallConsumeNonceAndUpsertUser wType addr (vr_Nonce req)
                   (vr_PublicKey req))
                (auth.(ConsumeNonceAndUpsertUser) (Context c) wType addr
                   (vr_Nonce req) (vr_PublicKey req)) ;;
  res <- match consumed with
         | Ok res => ret res
         | Err msg =>
             if String.eqb msg "invalid_or_expired_nonce"
             then Return (error_response StatusUnauthorized
                            "invalid_or_expired_nonce")
             else Return (error_response StatusInternalServerError
                            "auth_failed")
         end ;;
  issued <- invoke
              (CallIssueJWT (JWTSecret (cfg h)) (ID (LoginUser res))
                 (Role (LoginUser res)) (WalletType_ (Wallet res))
                 (Address (Wallet res)) (15 * Minute))
              (auth.(IssueJWT) (Context c) (JWTSecret (cfg h))
                 (ID (LoginUser res)) (Role (LoginUser res))
                 (WalletType_ (Wallet res)) (Address (Wallet res))
                 (15 * Minute)) ;;
  token <- try_ issued
             (error_response StatusInternalServerError "token_issue_failed") ;;
  ret {| status := StatusOK;
         body := fiber_Map
           [ ("token", VToken token);
             ("user", VUser (LoginUser res));
             ("wallet", VMap (fiber_Map
                [ ("wallet_type", VWalletType (WalletType_ (Wallet res)));
                  ("address", VString (Address (Wallet res))) ])) ] |}.

(** The block both fallback branches of [Me] run: read the cached login
    and avatar, and add a [github] object when a login came back. *)
Definition cached_github (ctx : Env) (userID : UUID)
    (response : gmap string Value) : M (gmap string Value) :=
  scanned <- pool_query (CallQueryRow userID) (QueryRowScan ctx userID) ;;
  let githubLogin := fst scanned in
  let avatarURL := snd scanned in
  match githubLogin with
  | Some login =>
      let githubMap := fiber_Map [ ("login", VString login) ] in
      let githubMap :=
        match avatarURL with
        | Some a => set_if_nonempty "avatar_url" a githubMap
        | None => githubMap
        end in
      ret (<["github" := VMap githubMap]> response)
  | None => ret response
  end.

(** The [github] object built from the provider's answer. *)
Definition provider_github (ghUser : GitHubUser) : gmap string Value :=
  let githubMap := fiber_Map [ ("login", VString (Login ghUser));
                               ("avatar_url", VString (AvatarURL ghUser)) ] in
  let githubMap := set_if_nonempty "name" (Name ghUser) githubMap in
  let githubMap := set_if_nonempty "email" (Email ghUser) githubMap in
  let githubMap := set_if_nonempty "location" (Location ghUser) githubMap in
  let githubMap := set_if_nonempty "bio" (Bio ghUser) githubMap in
  let githubMap := set_if_nonempty "website" (Blog ghUser) githubMap in
  githubMap.

Definition Me {Req} (h : AuthHandler) (c : Ctx Req) : M Response :=
  when_return (db_missing h)
    (error_response StatusServiceUnavailable "db_not_configured") ;;;
  let userIDStr := default "" (LocalUserID c) in
  let role := default "" (LocalRole c) in
  userID <- try_ (uuid_Parse userIDStr)
              (error_response StatusUnauthorized "invalid_user") ;;
  let response := fiber_Map [ ("id", VString userIDStr);
                              ("role", VString role) ] in
  linked <- pool_query
              (CallGetLinkedAccount userID (TokenEncKeyB64 (cfg h)))
              (github.(GetLinkedAccount) (Context c) userID
                 (TokenEncKeyB64 (cfg h))) ;;
  response <-
    match linked with
    | Ok linkedAccount =>
        let gh := github.(NewClient) in
        fetched <- invoke (CallGetUser (AccessToken linkedAccount))
                     (gh.(GetUser) (Context c) (AccessToken linkedAccount)) ;;
        match fetched with
        | Ok ghUser =>
            ret (<["github" := VMap (provider_github ghUser)]> response)
        | Err _ => cached_github (Context c) userID response
        end
    | Err _ => cached_github (Context c) userID response
    end ;;
  ret {| status := StatusOK; body := response |}.

End Handlers.

(** ** The [auth] package, from the specification

    The source files of package [auth] are not available; the functions
    below follow sections 4.1, 4.2, 4.4 and 4.5 of the specification. *)

Module AuthModel.

(** *** 4.1 WalletAddressNormalizer *)

Definition in_range (lo hi : N) (c : ascii) : bool :=
  ((lo <=? N_of_ascii c) && (N_of_ascii c <=? hi))%N.

Definition is_digit (c : ascii) : bool := in_range 48 57 c.
Definition is_upper (c : ascii) : bool := in_range 65 90 c.
Definition is_lower (c : ascii) : bool := in_range 97 122 c.

Definition to_lower (c : ascii) : ascii :=
  if is_upper c then ascii_of_N (N_of_ascii c + 32) else c.

Fixpoint ToLower (s : string) : string :=
  match s with
  | EmptyString => EmptyString
  | String c rest => String (to_lower c) (ToLower rest)
  end.

Fixpoint all_chars (p : ascii -> bool) (s : string) : bool :=
  match s with
  | EmptyString => true
  | String c rest => p c && all_chars p rest
  end.

Definition is_hex (c : ascii) : bool :=
  is_digit c || in_range 97 102 c || in_range 65 70 c.

(** The base58 alphabet: digits and letters without [0], [O], [I], [l]. *)
Definition is_base58 (c : ascii) : bool :=
  (is_digit c || is_upper c || is_lower c)
  && negb (Ascii.eqb c "0" || Ascii.eqb c "O" || Ascii.eqb c "I"
           || Ascii.eqb c "l").

Definition evm_digits : nat := 40.
Definition solana_length : nat := 44.

(** Modelled from the spec: [NormalizeAddress] "applies per-type rules
    (e.g., fixed-length hex with optional checksum casing for one family,
    base58 fixed-length for another); rejects malformed length/charset".
    The hex family takes [0x] and forty hex digits in either case and
    answers the lower-cased spelling; the base58 family is case-sensitive
    and answers the address as given. *)
Definition NormalizeAddress (wt : WalletType) (raw : string) : result string :=
  match wt with
  | EVM =>
      match raw with
      | String z (String x digits) =>
          if Ascii.eqb z "0" && Ascii.eqb (to_lower x) "x"
             && Nat.eqb (String.length digits) evm_digits
             && all_chars is_hex digits
          then Ok (String "0" (String "x" (ToLower digits)))
          else Err "invalid_address"
      | _ => Err "invalid_address"
      end
  | Solana =>
      if Nat.eqb (String.length raw) solana_length && all_chars is_base58 raw
      then Ok raw
      else Err "invalid_address"
  end.

(** Two spellings name the same address of a family: up to letter case
    for the hex family, only when equal for the case-sensitive one. *)
Definition same_address (wt : WalletType) (a b : string) : Prop :=
  match wt with
  | EVM => ToLower a = ToLower b
  | Solana => a = b
  end.

(** *** 4.2 NonceStore *)

Definition set_nonces (s : Store) (m : gmap string NonceRow) : Store :=
  {| nonces := m; users := users s; wallets := wallets s;
     github_accounts := github_accounts s |}.

(** Modelled from the spec: [CreateNonce] "generates a cryptographically
    random token ..., records (token, walletType, address, now, now+ttl)
    in the persistent store, returns it", or fails with a storage error.
    The token is the environment's draw; a token the store already holds
    cannot be recorded again (the token identifies the row, and a nonce is
    "never reused after consumption"), so that write fails. *)
Definition CreateNonce (env : Env) (wt : WalletType) (addr : string)
    (ttl : Duration) (s : Store) : result NonceRow * Store :=
  match nonces s !! entropy env with
  | Some _ => (Err "storage_error", s)
  | None =>
      let n := {| NonceToken := entropy env;
                  NonceWalletType := wt;
                  NonceAddress := addr;
                  CreatedAt := now env;
                  ExpiresAt := now env + ttl;
                  Consumed := false |} in
      (Ok n, set_nonces s (<[entropy env := n]> (nonces s)))
  end.

(** *** 4.4 IdentityUpsertTransaction *)

(** Step (a): the nonce found by token and wallet identity, provided it is
    neither consumed nor past its expiry. *)
Definition live_nonce (env : Env) (wt : WalletType) (addr token : string)
    (s : Store) : option NonceRow :=
  match nonces s !! token with
  | None => None
  | Some n =>
      if bool_decide (NonceWalletType n = wt)
         && String.eqb (NonceAddress n) addr
         && negb (Consumed n)
         && negb (ExpiresAt n <? now env)%Z
      then Some n
      else None
  end.

Definition consume (n : NonceRow) : NonceRow :=
  {| NonceToken := NonceToken n;
     NonceWalletType := NonceWalletType n;
     NonceAddress := NonceAddress n;
     CreatedAt := CreatedAt n;
     ExpiresAt := ExpiresAt n;
     Consumed := true |}.

(** Step (d): the supplied public key, when there is one, replaces the
    stored one. *)
Definition updated_key (pk stored : string) : string :=
  if String.eqb pk "" then stored else pk.

(** Modelled from the spec: [ConsumeNonceAndUpsertUser] runs as one
    transaction: "(a) look up the nonce by token+wallet identity, fail
    with InvalidOrExpiredNonce if absent, already consumed, or past
    expiry; (b) mark it consumed ...; (c) look up existing WalletLink for
    (walletType, address); if found, reuse its User; else create a new
    User and WalletLink atomically; (d) optionally persist the supplied
    public key".  The recommended policy is followed: all or nothing, a
    failed upsert leaves the store as it was.  [role] is the role a new
    user receives. *)
Definition ConsumeNonceAndUpsertUser (role : string) (env : Env)
    (wt : WalletType) (addr token pk : string) (s : Store)
    : result LoginResult * Store :=
  match live_nonce env wt addr token s with
  | None => (Err "invalid_or_expired_nonce", s)
  | Some n =>
      let nonces' := <[token := consume n]> (nonces s) in
      match wallets s !! (wt, addr) with
      | Some row =>
          match users s !! row_user_id row with
          | Some u =>
              let key := updated_key pk (row_public_key row) in
              (Ok {| LoginUser := u;
                     Wallet := {| WalletUserID := row_user_id row;
                                  WalletType_ := wt; Address := addr;
                                  PublicKey := key |} |},
               {| nonces := nonces'; users := users s;
                  wallets := <[(wt, addr) :=
                                 {| row_user_id := row_user_id row;
                                    row_public_key := key |}]> (wallets s);
                  github_accounts := github_accounts s |})
          | None => (Err "storage_error", s)
          end
      | None =>
          match users s !! fresh_uuid env with
          | Some _ => (Err "storage_error", s)
          | None =>
              let u := {| ID := fresh_uuid env; Role := role;
                          UserCreatedAt := now env |} in
              (Ok {| LoginUser := u;
                     Wallet := {| WalletUserID := fresh_uuid env;
                                  WalletType_ := wt; Address := addr;
                                  PublicKey := pk |} |},
               {| nonces := nonces';
                  users := <[fresh_uuid env := u]> (users s);
                  wallets := <[(wt, addr) :=
                                 {| row_user_id := fresh_uuid env;
                                    row_public_key := pk |}]> (wallets s);
                  github_accounts := github_accounts s |})
          end
      end
  end.

(** *** 4.5 TokenIssuer *)

Definition with_signature (sig : string) (t : SessionToken) : SessionToken :=
  {| ClaimUserID := ClaimUserID t; ClaimRole := ClaimRole t;
     ClaimWalletType := ClaimWalletType t; ClaimAddress := ClaimAddress t;
     IssuedAt := IssuedAt t; TokenExpiresAt := TokenExpiresAt t;
     TokenSignature := sig |}.

(** Modelled from the spec: [IssueJWT(secret, userID, role, walletType,
    address, ttl)] "produces a signed, self-contained token with standard
    expiry semantics", or fails with a signing error.  [sign] is the
    keyed signing primitive applied to the unsigned token. *)
Definition IssueJWT (sign : string -> SessionToken -> result string)
    (env : Env) (secret : string) (userID : UUID) (role : string)
    (wt : WalletType) (addr : string) (ttl : Duration)
    : result SessionToken :=
  let unsigned := {| ClaimUserID := userID; ClaimRole := role;
                     ClaimWalletType := wt; ClaimAddress := addr;
                     IssuedAt := now env; TokenExpiresAt := now env + ttl;
                     TokenSignature := "" |} in
  match sign secret unsigned with
  | Ok sig => Ok (with_signature sig unsigned)
  | Err msg => Err msg
  end.

(** What the specification leaves to the deployment: the alias table of
    wallet types, the two message renderings, the signature schemes, the
    signing primitive, and the role of a new user. *)
Record Primitives : Type := mkPrimitives {
  wallet_type_of_alias : string -> result WalletType;
  canonical_message : string -> string;
  legacy_message : string -> string;
  check_signature : WalletType -> string -> string -> string -> string -> error;
  sign : string -> SessionToken -> result string;
  new_user_role : string
}.

End AuthModel.

(** Package [auth] as the specification describes it. *)
Definition auth_model (p : AuthModel.Primitives) : AuthPkg :=
  {| NormalizeWalletType := AuthModel.wallet_type_of_alias p;
     NormalizeAddress := AuthModel.NormalizeAddress;
     CreateNonce := AuthModel.CreateNonce;
     LoginMessage := AuthModel.canonical_message p;
     LegacyLoginMessage := AuthModel.legacy_message p;
     VerifySignature := AuthModel.check_signature p;
     ConsumeNonceAndUpsertUser :=
       AuthModel.ConsumeNonceAndUpsertUser (AuthModel.new_user_role p);
     IssueJWT := AuthModel.IssueJWT (AuthModel.sign p) |}.

(** ** A concrete deployment

    Small stand-ins for what lies outside the handlers, used to run the
    handlers on concrete requests. *)

Module Scenario.

Definition wallet_type_of_alias (raw : string) : result WalletType :=
  if String.eqb (AuthModel.ToLower raw) "evm" then Ok EVM
  else if String.eqb (AuthModel.ToLower raw) "solana" then Ok Solana
  else Err "invalid_wallet_type".

Definition canonical_message (nonce : string) : string :=
  "Sign in, nonce: " ++ nonce.

Definition legacy_message (nonce : string) : string :=
  "Sign in, nonce:\n" ++ nonce.

(** The holder of [addr] signs [msg] as [addr/msg]. *)
Definition check_signature (wt : WalletType) (addr msg sig pk : string)
  : error :=
  if String.eqb sig (addr ++ "/" ++ msg) then None
  else Some "invalid_signature".

Definition sign (secret : string) (t : SessionToken) : result string :=
  Ok ("signed-with:" ++ secret).

Definition failing_sign (secret : string) (t : SessionToken) : result string :=
  Err "signing_error".

Definition primitives : AuthModel.Primitives :=
  {| AuthModel.wallet_type_of_alias := wallet_type_of_alias;
     AuthModel.canonical_message := canonical_message;
     AuthModel.legacy_message := legacy_message;
     AuthModel.check_signature := check_signature;
     AuthModel.sign := sign;
     AuthModel.new_user_role := "contributor" |}.

Definition primitives_failing_sign : AuthModel.Primitives :=
  {| AuthModel.wallet_type_of_alias := wallet_type_of_alias;
     AuthModel.canonical_message := canonical_message;
     AuthModel.legacy_message := legacy_message;
     AuthModel.check_signature := check_signature;
     AuthModel.sign := failing_sign;
     AuthModel.new_user_role := "contributor" |}.

Definition uuid_Parse (s : string) : result UUID :=
  if String.eqb s "00000000-0000-0000-0000-000000000007" then Ok 7%N
  else if String.eqb s "00000000-0000-0000-0000-000000000008" then Ok 8%N
  else Err "invalid UUID".

(** The stored token is readable with the key it was sealed under. *)
Definition linked_account (env : Env) (userID : UUID) (key : string)
    (s : Store) : result LinkedAccount :=
  match github_accounts s !! userID with
  | None => Err "not_linked"
  | Some row =>
      if String.prefix (key ++ ":") (row_access_token_enc row)
      then Ok {| AccessToken :=
                   String.substring (String.length key + 1)
                     (String.length (row_access_token_enc row))
                     (row_access_token_enc row);
                 LinkedLogin := default "" (row_login row) |}
      else Err "decrypt_failed"
  end.

Definition octocat : GitHubUser :=
  {| Login := "octocat"; AvatarURL := "https://a/octocat.png";
     Name := "The Octocat"; Email := ""; Location := "San Francisco";
     Bio := ""; Blog := "https://github.blog" |}.

Definition provider_up : Client :=
  {| GetUser := fun _ token =>
       if String.eqb token "gho_token" then Ok octocat
       else Err "bad credentials" |}.

Definition provider_down : Client :=
  {| GetUser := fun _ _ => Err "upstream unavailable" |}.

Definition github_up : GithubPkg :=
  {| GetLinkedAccount := linked_account; NewClient := provider_up |}.

Definition github_down : GithubPkg :=
  {| GetLinkedAccount := linked_account; NewClient := provider_down |}.

Definition QueryRowScan (env : Env) (userID : UUID) (s : Store)
  : option string * option string :=
  match github_accounts s !! userID with
  | None => (None, None)
  | Some row => (row_login row, row_avatar_url row)
  end.

Definition handler : AuthHandler :=
  NewAuthHandler {| JWTSecret := "s3cret"; TokenEncKeyB64 := "k1" |}
    (Some {| Pool := Some pgxpool |}).

Definition evm_address : string :=
  "0xabcdef0123456789abcdef0123456789abcdef01".

Definition evm_address_mixed : string :=
  "0xABCDEF0123456789abcdef0123456789ABCDEF01".

Definition empty_store : Store :=
  {| nonces := ∅; users := ∅; wallets := ∅; github_accounts := ∅ |}.

Definition start : World := {| store := empty_store; calls := [] |}.

Definition env_at (t : Time) (token : string) (uid : UUID) : Env :=
  {| now := t; entropy := token; fresh_uuid := uid |}.

Definition nonce_request (t : Time) (token : string)
  : Ctx nonceRequest :=
  {| BodyParser := Ok {| nr_WalletType := "EVM";
                         nr_Address := evm_address_mixed |};
     LocalUserID := None; LocalRole := None;
     Context := env_at t token 7%N |}.

Definition verify_request (t : Time) (wt addr nonce sig : string)
  : Ctx verifyRequest :=
  {| BodyParser := Ok {| vr_WalletType := wt; vr_Address := addr;
                         vr_Nonce := nonce; vr_Signature := sig;
                         vr_PublicKey := "" |};
     LocalUserID := None; LocalRole := None;
     Context := env_at t "unused" 7%N |}.

Definition good_signature (nonce : string) : string :=
  evm_address ++ "/" ++ canonical_message nonce.

Definition legacy_signature (nonce : string) : string :=
  evm_address ++ "/" ++ legacy_message nonce.

(** The world after a nonce [n1] was issued at time 0. *)
Definition after_nonce : World :=
  snd (run (Nonce (auth_model primitives) handler (nonce_request 0 "n1"))
         start).

(** The world after that nonce was used to log in at time 1000. *)
Definition after_login : World :=
  snd (run (Verify (auth_model primitives) handler
              (verify_request 1000 "evm" evm_address_mixed "n1"
                 (good_signature "n1")))
         after_nonce).

(** A replay of that login at time 3000. *)
Definition login_request : Ctx verifyRequest :=
  verify_request 1000 "evm" evm_address_mixed "n1" (good_signature "n1").

Definition replay_request : Ctx verifyRequest :=
  verify_request 3000 "evm" evm_address_mixed "n1" (good_signature "n1").

Definition login_body_request : verifyRequest :=
  {| vr_WalletType := "evm"; vr_Address := evm_address_mixed;
     vr_Nonce := "n1"; vr_Signature := good_signature "n1";
     vr_PublicKey := "" |}.

(** User 7 has linked the account [octocat]; the cached avatar is empty. *)
Definition linked_store : Store :=
  {| nonces := nonces (store after_login);
     users := users (store after_login);
     wallets := wallets (store after_login);
     github_accounts :=
       {[ 7%N := {| row_login := Some "octocat";
                    row_avatar_url := Some "";
                    row_access_token_enc := "k1:gho_token" |} ]} |}.

Definition linked : World := {| store := linked_store; calls := [] |}.

Definition me_request : Ctx unit :=
  {| BodyParser := Ok tt;
     LocalUserID := Some "00000000-0000-0000-0000-000000000007";
     LocalRole := Some "contributor";
     Context := env_at 5000 "unused" 9%N |}.

(** The same server started with another encryption key. *)
Definition rekeyed_handler : AuthHandler :=
  NewAuthHandler {| JWTSecret := "s3cret"; TokenEncKeyB64 := "k2" |}
    (Some {| Pool := Some pgxpool |}).

End Scenario.

(** ** Reading the handlers *)

(** The handler has its pool and, for [Verify], its signing secret. *)
Definition has_pool (h : AuthHandler) : Prop := db_missing h = false.

Definition has_secret (h : AuthHandler) : Prop :=
  String.eqb (JWTSecret (cfg h)) "" = false.

(** The signature of [req] verifies over [msg]. *)
Definition signed_over (auth : AuthPkg) (wt : WalletType) (addr : string)
    (req : verifyRequest) (msg : string) : bool :=
  match auth.(VerifySignature) wt addr msg (vr_Signature req)
          (vr_PublicKey req) with
  | None => true
  | Some _ => false
  end.

Definition signed_canonical (auth : AuthPkg) (wt : WalletType) (addr : string)
    (req : verifyRequest) : bool :=
  signed_over auth wt addr req (auth.(LoginMessage) (vr_Nonce req)).

Definition signed_legacy (auth : AuthPkg) (wt : WalletType) (addr : string)
    (req : verifyRequest) : bool :=
  signed_over auth wt addr req (auth.(LegacyLoginMessage) (vr_Nonce req)).

(** The request decodes, its wallet type and address normalize to [wt] and
    [addr], and nonce and signature are present. *)
Definition well_formed (auth : AuthPkg) (c : Ctx verifyRequest)
    (req : verifyRequest) (wt : WalletType) (addr : string) : Prop :=
  BodyParser c = Ok req /\
  auth.(NormalizeWalletType) (vr_WalletType req) = Ok wt /\
  auth.(NormalizeAddress) wt (vr_Address req) = Ok addr /\
  String.eqb (vr_Nonce req) "" = false /\
  String.eqb (vr_Signature req) "" = false.

Definition verify_call (auth : AuthPkg) (wt : WalletType) (addr : string)
    (req : verifyRequest) (msg : string) : Call :=
  CallVerifySignature wt addr msg (vr_Signature req) (vr_PublicKey req).

(** The signature checks [Verify] makes on a well-formed request: the
    canonical rendering, and the legacy one when the canonical failed. *)
Definition renderings_tried (auth : AuthPkg) (wt : WalletType) (addr : string)
    (req : verifyRequest) : list Call :=
  verify_call auth wt addr req (auth.(LoginMessage) (vr_Nonce req))
  :: (if signed_canonical auth wt addr req then []
      else [verify_call auth wt addr req
              (auth.(LegacyLoginMessage) (vr_Nonce req))]).

Definition consume_call (wt : WalletType) (addr : string)
    (req : verifyRequest) : Call :=
  CallConsumeNonceAndUpsertUser wt addr (vr_Nonce req) (vr_PublicKey req).

Definition issue_call (h : AuthHandler) (res : LoginResult) : Call :=
  CallIssueJWT (JWTSecret (cfg h)) (ID (LoginUser res)) (Role (LoginUser res))
    (WalletType_ (Wallet res)) (Address (Wallet res)) (15 * Minute).

Definition login_body (token : SessionToken) (res : LoginResult)
  : gmap string Value :=
  fiber_Map
    [ ("token", VToken token);
      ("user", VUser (LoginUser res));
      ("wallet", VMap (fiber_Map
         [ ("wallet_type", VWalletType (WalletType_ (Wallet res)));
           ("address", VString (Address (Wallet res))) ])) ].

(** The response carries a bearer token. *)
Definition bearer_token (r : Response) : option Value := body r !! "token".

(** A decoded issue-nonce request fails validation, with the code the
    handler reports: the wallet type does not normalize, or it does and the
    address does not. *)
Inductive invalid_nonce_request (auth : AuthPkg) (req : nonceRequest)
  : string -> Prop :=
| nonce_bad_wallet_type e :
    auth.(NormalizeWalletType) (nr_WalletType req) = Err e ->
    invalid_nonce_request auth req "invalid_wallet_type"
| nonce_bad_address wt e :
    auth.(NormalizeWalletType) (nr_WalletType req) = Ok wt ->
    auth.(NormalizeAddress) wt (nr_Address req) = Err e ->
    invalid_nonce_request auth req "invalid_address".

(** A decoded verify-and-login request fails validation: as above, or both
    normalize and the nonce or the signature is empty. *)
Inductive invalid_verify_request (auth : AuthPkg) (req : verifyRequest)
  : string -> Prop :=
| verify_bad_wallet_type e :
    auth.(NormalizeWalletType) (vr_WalletType req) = Err e ->
    invalid_verify_request auth req "invalid_wallet_type"
| verify_bad_address wt e :
    auth.(NormalizeWalletType) (vr_WalletType req) = Ok wt ->
    auth.(NormalizeAddress) wt (vr_Address req) = Err e ->
    invalid_verify_request auth req "invalid_address"
| verify_missing_credential wt addr :
    auth.(NormalizeWalletType) (vr_WalletType req) = Ok wt ->
    auth.(NormalizeAddress) wt (vr_Address req) = Ok addr ->
    vr_Nonce req = "" \/ vr_Signature req = "" ->
    invalid_verify_request auth req "missing_nonce_or_signature".


(** The [id] and [role] entries every answer of [Me] starts from. *)
Definition identity_fields {Req} (c : Ctx Req) : gmap string Value :=
  fiber_Map [ ("id", VString (default "" (LocalUserID c)));
              ("role", VString (default "" (LocalRole c))) ].

(** The [github] object built from the cached row. *)
Definition cached_object (login : string) (avatar : option string)
  : gmap string Value :=
  match avatar with
  | Some a => set_if_nonempty "avatar_url" a (fiber_Map [ ("login", VString login) ])
  | None => fiber_Map [ ("login", VString login) ]
  end.

(** The vault lookup failed, or it succeeded and the provider call failed. *)
Definition github_unavailable (github : GithubPkg) (env : Env) (userID : UUID)
    (key : string) (s : Store) : Prop :=
  (exists e, github.(GetLinkedAccount) env userID key s = Err e)
  \/ (exists la e,
        github.(GetLinkedAccount) env userID key s = Ok la
        /\ (github.(NewClient)).(GetUser) env (AccessToken la) = Err e).

(** The nonce presented for a wallet identity cannot be used: the store has
    no nonce with this token for this identity, or has it consumed, or has
    it past its expiry. *)
Inductive unusable (env : Env) (wt : WalletType) (addr token : string)
    (s : Store) : Prop :=
| nonce_absent :
    (forall n, nonces s !! token = Some n ->
               NonceWalletType n = wt -> NonceAddress n = addr -> False) ->
    unusable env wt addr token s
| nonce_consumed n :
    nonces s !! token = Some n -> Consumed n = true ->
    unusable env wt addr token s
| nonce_expired n :
    nonces s !! token = Some n -> ExpiresAt n < now env ->
    unusable env wt addr token s.

(** The token was consumed. *)
Definition spent (token : string) (s : Store) : Prop :=
  exists n, nonces s !! token = Some n /\ Consumed n = true.

(** ** The server as a sequence of requests *)

Inductive Request : Type :=
| NonceRequest (h : AuthHandler) (c : Ctx nonceRequest)
| VerifyRequest (h : AuthHandler) (c : Ctx verifyRequest)
| MeRequest (h : AuthHandler) (c : Ctx unit).

Section Server.

Variable auth : AuthPkg.
Variable github : GithubPkg.
Variable uuid_Parse : string -> result UUID.
Variable QueryRowScan : Env -> UUID -> Store -> option string * option string.

Definition serve (r : Request) (w : World) : Response * World :=
  match r with
  | NonceRequest h c => run (Nonce auth h c) w
  | VerifyRequest h c => run (Verify auth h c) w
  | MeRequest h c => run (Me github uuid_Parse QueryRowScan h c) w
  end.

Fixpoint serve_all (rs : list Request) (w : World) : World :=
  match rs with
  | [] => w
  | r :: rest => serve_all rest (snd (serve r w))
  end.

End Server.

(** ** The front end: friendly error messages

    [frontend/src/shared/utils/errorHandler.ts]. *)

Module errorHandler.

(** The argument [error: unknown], as far as the function observes it.
    A string stands for its sequence of characters; the function only
    searches it for ASCII substrings.
    - [Falsy]: [!error] holds (undefined, null, false, 0, NaN, the empty
      string).
    - [ErrorObject message]: an instance of [Error] whose [message] is the
      string [message].
    - [ErrorWith answers]: an instance of [Error] whose [message] is not a
      string; nothing makes it one at run time.  The function does nothing
      with the message but call [message.includes(k)], at most once for
      each of twenty distinct literals [k] and in a fixed order, so all it
      observes is, for each [k], that the call throws ([None]: the message
      is undefined or null, or has no callable [includes], as a number) or
      the truth value of what the call returns (an array answers by
      membership).
    - [Thrown text]: any other truthy value, [text] being what
      [String(error)] gives for it.
    - [Unreadable]: a truthy value the function cannot read:
      [error instanceof Error] throws (a proxy whose [getPrototypeOf] trap
      throws), reading [error.message] throws (a getter), or
      [String(error)] throws (an object with neither [toString] nor
      [valueOf], as [Object.create(null)]). *)
Inductive JsValue : Type :=
| Falsy
| ErrorObject (message : string)
| ErrorWith (answers : string -> option bool)
| Thrown (text : string)
| Unreadable.

(** How a call ends: with the text it returns, or with an exception. *)
Inductive Completion : Type :=
| Returns (text : string)
| Throws.

(** What [errorMessage] is bound to: a string, or a value that answers
    [includes] in its own way. *)
Inductive Message : Type :=
| Text (s : string)
| Other (answers : string -> option bool).

(** [s.includes(searchString)]. *)
Fixpoint includes (s searchString : string) : bool :=
  String.prefix searchString s
  || match s with
     | EmptyString => false
     | String _ rest => includes rest searchString
     end.

(** [error instanceof Error ? error.message : String(error)] for a truthy
    [error]; [None] when evaluating it throws.  A falsy [error] does not
    reach it. *)
Definition errorMessage_of (error : JsValue) : option Message :=
  match error with
  | ErrorObject message => Some (Text message)
  | ErrorWith answers => Some (Other answers)
  | Thrown text => Some (Text text)
  | Falsy => Some (Text "")
  | Unreadable => None
  end.

(** The condition [errorMessage.includes(k)]: its truth value, or [None]
    when evaluating it throws. *)
Definition test (errorMessage : Message) (k : string) : option bool :=
  match errorMessage with
  | Text s => Some (includes s k)
  | Other answers => answers k
  end.

(** [a || b] in a condition: [b] is evaluated only when [a] is falsy. *)
Definition or_else (a b : option bool) : option bool :=
  match a with
  | Some false => b
  | _ => a
  end.

(** [if (condition) { return answer; }], followed by [rest]. *)
Definition if_return (condition : option bool) (answer : string)
    (rest : Completion) : Completion :=
  match condition with
  | Some true => Returns answer
  | Some false => rest
  | None => Throws
  end.

Local Infix "|||" := or_else (at level 50, left associativity).

Definition getUserFriendlyError (error : JsValue) : Completion :=
  match error with
  | Falsy => Returns "Something went wrong. Please try again."
  | _ =>
      match errorMessage_of error with
      | None => Throws
      | Some errorMessage =>
          let errorMessage_includes := test errorMessage in
          if_return
            (errorMessage_includes "Network error"
             ||| errorMessage_includes "fetch"
             ||| errorMessage_includes "Failed to fetch"
             ||| errorMessage_includes "Unable to connect")
            "Unable to connect to the server. Please check your internet connection and try again."
          (if_return
            (errorMessage_includes "Authentication failed"
             ||| errorMessage_includes "Unauthorized"
             ||| errorMessage_includes "401")
            "Your session has expired. Please sign in again."
          (if_return
            (errorMessage_includes "500"
             ||| errorMessage_includes "Internal Server Error"
             ||| errorMessage_includes "server error")
            "Our servers are experiencing issues. Please try again in a few moments."
          (if_return
            (errorMessage_includes "404"
             ||| errorMessage_includes "Not Found"
             ||| errorMessage_includes "not found")
            "The requested resource could not be found."
          (if_return
            (errorMessage_includes "timeout"
             ||| errorMessage_includes "Timeout"
             ||| errorMessage_includes "timed out")
            "The request took too long. Please try again."
          (if_return
            (errorMessage_includes "Invalid response"
             ||| errorMessage_includes "Invalid response format")
            "We received an unexpected response from the server. Please try again."
          (if_return
            (errorMessage_includes "API request failed"
             ||| errorMessage_includes "request failed")
            "Unable to complete your request. Please try again."
          (Returns "Something went wrong. Please try again later.")))))))
      end
  end.

(** The text the function classifies, for a truthy argument whose message
    is a string. *)
Definition message_of (error : JsValue) : option string :=
  match error with
  | ErrorObject message => Some message
  | Thrown text => Some text
  | Falsy | ErrorWith _ | Unreadable => None
  end.

(** The answer to the first of [keys] that is not answered [false], asking
    them in order; [Some false] when all are. *)
Fixpoint first_answer (answers : string -> option bool) (keys : list string)
    : option bool :=
  match keys with
  | [] => Some false
  | k :: rest =>
      match answers k with
      | Some false => first_answer answers rest
      | a => a
      end
  end.

(** Asking [keys] in order, some key throws after all the keys before it
    were answered [false]. *)
Definition throws_at (answers : string -> option bool) (keys : list string)
    : Prop :=
  exists before k after,
    keys = (before ++ k :: after)%list
    /\ Forall (fun k' => answers k' = Some false) before
    /\ answers k = None.

(** [sub] occurs somewhere in [text]. *)
Definition occurs_in (sub text : string) : Prop :=
  exists before after, text = before ++ sub ++ after.

(** The substrings the function looks for, in the order of its tests. *)
Definition network_keywords : list string :=
  [ "Network error"; "fetch"; "Failed to fetch"; "Unable to connect" ].

Definition other_keywords : list string :=
  [ "Authentication failed"; "Unauthorized"; "401";
    "500"; "Internal Server Error"; "server error";
    "404"; "Not Found"; "not found";
    "timeout"; "Timeout"; "timed out";
    "Invalid response"; "Invalid response format";
    "API request failed"; "request failed" ].

(** Every text the function can answer. *)
Definition friendly_messages : list string :=
  [ "Something went wrong. Please try again.";
    "Unable to connect to the server. Please check your internet connection and try again.";
    "Your session has expired. Please sign in again.";
    "Our servers are experiencing issues. Please try again in a few moments.";
    "The requested resource could not be found.";
    "The request took too long. Please try again.";
    "We received an unexpected response from the server. Please try again.";
    "Unable to complete your request. Please try again.";
    "Something went wrong. Please try again later." ].

End errorHandler.

(** ** The front end: the profile form

    The data flow of [ProfileTab] in
    [frontend/src/features/settings/components/profile/ProfileTab.tsx]:
    the state of the component, the effect that fetches the current user
    and prefills the form, and the text of the account line.  A JavaScript
    string is the list of its UTF-16 code units. *)

Module ProfileTab.

(** The code units [String.prototype.trim] strips and [\s] matches. *)
Definition is_space (u : N) : bool :=
  ((u =? 9) || (u =? 10) || (u =? 11) || (u =? 12) || (u =? 13) || (u =? 32)
   || (u =? 160) || (u =? 5760) || ((8192 <=? u) && (u <=? 8202))
   || (u =? 8232) || (u =? 8233) || (u =? 8239) || (u =? 8287)
   || (u =? 12288) || (u =? 65279))%N.

(** The code units of an ASCII literal. *)
Definition units (s : string) : list N :=
  map N_of_ascii (String.list_ascii_of_string s).

Fixpoint trimStart (s : list N) : list N :=
  match s with
  | [] => []
  | u :: rest => if is_space u then trimStart rest else s
  end.

(** [s.trim()]. *)
Definition trim (s : list N) : list N :=
  rev (trimStart (rev (trimStart s))).

(** [s.split(/\s+/)], read from a position that is ([in_separator]) or is
    not inside a run of white space: every maximal run separates two
    parts, so a string that starts or ends with white space has an empty
    first or last part, and the empty string has the one part [""]. *)
Fixpoint split_from (in_separator : bool) (s : list N) : list (list N) :=
  match s with
  | [] => [[]]
  | u :: rest =>
      if is_space u
      then if in_separator then split_from true rest
           else [] :: split_from true rest
      else match split_from false rest with
           | part :: parts => (u :: part) :: parts
           | [] => [[u]]
           end
  end.

Definition split (s : list N) : list (list N) := split_from false s.

(** [parts.join(separator)]. *)
Fixpoint join (separator : list N) (parts : list (list N)) : list N :=
  match parts with
  | [] => []
  | [part] => part
  | part :: rest => part ++ separator ++ join separator rest
  end.

(** The [github] object of [CurrentUser]; an optional field is [None]
    when it is undefined. *)
Record Github : Type := mkGithub {
  login : list N;
  avatar_url : list N;
  name : option (list N);
  email : option (list N);
  location : option (list N);
  bio : option (list N);
  website : option (list N)
}.

Record CurrentUser : Type := mkCurrentUser {
  id : list N;
  role : list N;
  github : option Github
}.

(** The state of the component: [useState] cells with their names. *)
Record State : Type := mkState {
  currentUser : option CurrentUser;
  isLoading : bool;
  firstName : list N;
  lastName : list N;
  formLocation : list N;
  formWebsite : list N;
  formBio : list N
}.

Definition initial : State :=
  {| currentUser := None; isLoading := true; firstName := [];
     lastName := []; formLocation := []; formWebsite := []; formBio := [] |}.

Definition setCurrentUser (v : option CurrentUser) (st : State) : State :=
  {| currentUser := v; isLoading := isLoading st; firstName := firstName st;
     lastName := lastName st; formLocation := formLocation st;
     formWebsite := formWebsite st; formBio := formBio st |}.

Definition setIsLoading (v : bool) (st : State) : State :=
  {| currentUser := currentUser st; isLoading := v; firstName := firstName st;
     lastName := lastName st; formLocation := formLocation st;
     formWebsite := formWebsite st; formBio := formBio st |}.

Definition setFirstName (v : list N) (st : State) : State :=
  {| currentUser := currentUser st; isLoading := isLoading st; firstName := v;
     lastName := lastName st; formLocation := formLocation st;
     formWebsite := formWebsite st; formBio := formBio st |}.

Definition setLastName (v : list N) (st : State) : State :=
  {| currentUser := currentUser st; isLoading := isLoading st;
     firstName := firstName st; lastName := v;
     formLocation := formLocation st; formWebsite := formWebsite st;
     formBio := formBio st |}.

Definition setLocation (v : list N) (st : State) : State :=
  {| currentUser := currentUser st; isLoading := isLoading st;
     firstName := firstName st; lastName := lastName st; formLocation := v;
     formWebsite := formWebsite st; formBio := formBio st |}.

Definition setWebsite (v : list N) (st : State) : State :=
  {| currentUser := currentUser st; isLoading := isLoading st;
     firstName := firstName st; lastName := lastName st;
     formLocation := formLocation st; formWebsite := v;
     formBio := formBio st |}.

Definition setBio (v : list N) (st : State) : State :=
  {| currentUser := currentUser st; isLoading := isLoading st;
     firstName := firstName st; lastName := lastName st;
     formLocation := formLocation st; formWebsite := formWebsite st;
     formBio := v |}.

(** [if (field) { set(field) }]: an optional string is truthy when it is
    defined and not empty. *)
Definition set_if_truthy (set : list N -> State -> State)
    (field : option (list N)) (st : State) : State :=
  match field with
  | Some (u :: rest) => set (u :: rest) st
  | Some [] | None => st
  end.

(** The block under [if (user.github.name)]. *)
Definition prefill_name (name : list N) (st : State) : State :=
  let nameParts := split (trim name) in
  match nameParts with
  | [] => st
  | first :: rest =>
      let st := setFirstName first st in
      match rest with
      | [] => st
      | _ :: _ => setLastName (join (units " ") rest) st
      end
  end.

(** The body of the [try] after [setCurrentUser(user)]. *)
Definition prefill (user : CurrentUser) (st : State) : State :=
  match github user with
  | None => st
  | Some g =>
      let st := set_if_truthy prefill_name (name g) st in
      let st := set_if_truthy setLocation (location g) st in
      let st := set_if_truthy setWebsite (website g) st in
      let st := set_if_truthy setBio (bio g) st in
      st
  end.

(** [fetchUser], given how [getCurrentUser()] settled. *)
Definition fetchUser (fetched : result CurrentUser) (st : State) : State :=
  let st := setIsLoading true st in
  let st :=
    match fetched with
    | Ok user => prefill user (setCurrentUser (Some user) st)
    | Err _ => st
    end in
  setIsLoading false st.

(** The text of the account line; [None] while the placeholder shows. *)
Definition accountLine (st : State) : option (list N) :=
  if isLoading st then None
  else
    match currentUser st with
    | Some {| github := Some g |} =>
        let shown :=
          match email g with
          | Some (u :: rest) => u :: rest
          | Some [] | None =>
              (login g ++ units "@users.noreply.github.com")%list
          end in
        Some (login g ++ units " / " ++ shown)%list
    | _ => Some (units "Not connected / Not connected")
    end.

(** No code unit of [s] is white space. *)
Definition spaceless (s : list N) : Prop :=
  Forall (fun u => is_space u = false) s.

(** Every code unit of [s] is white space. *)
Definition blank (s : list N) : Prop :=
  Forall (fun u => is_space u = true) s.

(** [s] starts, respectively ends, with a code unit that is not white
    space. *)
Definition starts_with_text (s : list N) : bool :=
  match s with
  | [] => false
  | u :: _ => negb (is_space u)
  end.

Fixpoint ends_with_text (s : list N) : bool :=
  match s with
  | [] => false
  | [u] => negb (is_space u)
  | _ :: rest => ends_with_text rest
  end.

(** A word: not empty and without white space. *)
Definition word (p : list N) : Prop := p <> [] /\ spaceless p.

End ProfileTab.

(** ** Tables for the handlers *)

(** The error responses each handler can give, as (status, code). *)
Definition Nonce_errors : list (Z * string) :=
  [ (StatusServiceUnavailable, "db_not_configured");
    (StatusBadRequest, "invalid_json");
    (StatusBadRequest, "invalid_wallet_type");
    (StatusBadRequest, "invalid_address");
    (StatusInternalServerError, "nonce_create_failed") ].

Definition Verify_errors : list (Z * string) :=
  [ (StatusServiceUnavailable, "db_not_configured");
    (StatusServiceUnavailable, "jwt_not_configured");
    (StatusBadRequest, "invalid_json");
    (StatusBadRequest, "invalid_wallet_type");
    (StatusBadRequest, "invalid_address");
    (StatusBadRequest, "missing_nonce_or_signature");
    (StatusUnauthorized, "invalid_signature");
    (StatusUnauthorized, "invalid_or_expired_nonce");
    (StatusInternalServerError, "auth_failed");
    (StatusInternalServerError, "token_issue_failed") ].

Definition Me_errors : list (Z * string) :=
  [ (StatusServiceUnavailable, "db_not_configured");
    (StatusUnauthorized, "invalid_user") ].

(** The handler [h] with another signing secret. *)
Definition with_secret (secret : string) (h : AuthHandler) : AuthHandler :=
  {| cfg := {| JWTSecret := secret;
               TokenEncKeyB64 := TokenEncKeyB64 (cfg h) |};
     db := db h |}.

(** A decoded issue-nonce request whose wallet type and address normalize
    to [wt] and [addr]. *)
Definition nonce_well_formed (auth : AuthPkg) (c : Ctx nonceRequest)
    (req : nonceRequest) (wt : WalletType) (addr : string) : Prop :=
  BodyParser c = Ok req /\
  auth.(NormalizeWalletType) (nr_WalletType req) = Ok wt /\
  auth.(NormalizeAddress) wt (nr_Address req) = Ok addr.

(** The calls [Me] makes for user [userID]: the vault lookup; then the
    provider, with the token the vault returned; and the cache query when
    the vault or the provider failed. *)
Definition Me_calls (github : GithubPkg) (env : Env) (userID : UUID)
    (key : string) (s : Store) : list Call :=
  CallGetLinkedAccount userID key
  :: match github.(GetLinkedAccount) env userID key s with
     | Err _ => [ CallQueryRow userID ]
     | Ok la =>
         CallGetUser (AccessToken la)
         :: match (github.(NewClient)).(GetUser) env (AccessToken la) with
            | Ok _ => []
            | Err _ => [ CallQueryRow userID ]
            end
     end.

(** More stand-ins for concrete runs. *)
Module Cases.

Definition no_database : AuthHandler :=
  NewAuthHandler {| JWTSecret := "s3cret"; TokenEncKeyB64 := "k1" |} None.

Definition no_secret : AuthHandler :=
  NewAuthHandler {| JWTSecret := ""; TokenEncKeyB64 := "k1" |}
    (Some {| Pool := Some pgxpool |}).

Definition garbled : Ctx verifyRequest :=
  {| BodyParser := Err "unexpected end of JSON input";
     LocalUserID := None; LocalRole := None;
     Context := Scenario.env_at 1000 "unused" 7%N |}.

Definition garbled_nonce : Ctx nonceRequest :=
  {| BodyParser := Err "unexpected end of JSON input";
     LocalUserID := None; LocalRole := None;
     Context := Scenario.env_at 1000 "unused" 7%N |}.

Definition anonymous : Ctx unit :=
  {| BodyParser := Ok tt; LocalUserID := None; LocalRole := None;
     Context := Scenario.env_at 5000 "unused" 9%N |}.

Definition evm_request : nonceRequest :=
  {| nr_WalletType := "EVM"; nr_Address := Scenario.evm_address_mixed |}.

(** "  Ada   Lovelace King " and "Ada", as code units. *)
Definition spaced_name : list N :=
  ProfileTab.units "  Ada   Lovelace King ".

Definition ada : ProfileTab.CurrentUser :=
  {| ProfileTab.id := ProfileTab.units "7";
     ProfileTab.role := ProfileTab.units "contributor";
     ProfileTab.github :=
       Some {| ProfileTab.login := ProfileTab.units "ada";
               ProfileTab.avatar_url := [];
               ProfileTab.name := Some spaced_name;
               ProfileTab.email := None;
               ProfileTab.location := Some (ProfileTab.units "London");
               ProfileTab.bio := Some [];
               ProfileTab.website := None |} |}.

Definition typed_state : ProfileTab.State :=
  {| ProfileTab.currentUser := None; ProfileTab.isLoading := true;
     ProfileTab.firstName := ProfileTab.units "A";
     ProfileTab.lastName := ProfileTab.units "B";
     ProfileTab.formLocation := []; ProfileTab.formWebsite := [];
     ProfileTab.formBio := ProfileTab.units "typed before the fetch" |}.

(** User 7 has linked [octocat], with a cached avatar. *)
Definition cached_store : Store :=
  {| nonces := ∅; users := ∅; wallets := ∅;
     github_accounts :=
       {[ 7%N := {| row_login := Some "octocat";
                    row_avatar_url := Some "https://a/cached.png";
                    row_access_token_enc := "k1:gho_token" |} ]} |}.

Definition cached : World := {| store := cached_store; calls := [] |}.

(** [new Error()] with its [message] set to undefined: every call of
    [includes] on it throws. *)
Definition undefined_message : errorHandler.JsValue :=
  errorHandler.ErrorWith (fun _ => None).

End Cases.

Ltac split_tests :=
  repeat match goal with
         | |- context [if ?b then _ else _] => destruct b eqn:?
         end.

(** The twenty tests of [getUserFriendlyError], in order: [ask k] splits on
    the answer to key [k]; [finish] closes a goal in which the answer is
    decided. *)
Ltac ask_keys ask finish keys :=
  lazymatch keys with
  | nil => finish
  | cons ?k ?rest =>
      ask k; cbv beta iota;
      first [ finish | ask_keys ask finish rest ]
  end.

Ltac ask_in_order ask finish :=
  let keys :=
    eval cbv delta [errorHandler.network_keywords errorHandler.other_keywords
                    app] iota beta
    in (errorHandler.network_keywords ++ errorHandler.other_keywords)%list in
  ask_keys ask finish keys.

Ltac open_handler :=
  unfold Nonce, Verify, Me, cached_github, run, bind, when_return, try_,
    Return, ret, pool_exec, pool_query, invoke;
  cbn [verify_any];
  unfold bind, invoke, ret.

(** ** What a run of a handler is *)

Section HandlerLemmas.

Variable auth : AuthPkg.

Lemma error_response_no_token code msg :
  bearer_token (error_response code msg) = None.
Proof. reflexivity. Qed.

Lemma error_response_status code msg :
  status (error_response code msg) = code.
Proof. reflexivity. Qed.

(** Neither rendering verifies: the handler answers [invalid_signature]
    after the two checks and nothing else. *)
Lemma Verify_unsigned h c req wt addr w :
  has_pool h -> has_secret h -> well_formed auth c req wt addr ->
  signed_canonical auth wt addr req = false ->
  signed_legacy auth wt addr req = false ->
  run (Verify auth h c) w =
    (error_response StatusUnauthorized "invalid_signature",
     {| store := store w;
        calls := calls w ++ renderings_tried auth wt addr req |}).
Proof.
  intros Hp Hs (Hb & Hw & Ha & Hn & Hg) Hc Hl.
  unfold renderings_tried. rewrite Hc.
  unfold signed_canonical, signed_legacy, signed_over in Hc, Hl.
  unfold has_pool, has_secret in *.
  open_handler. rewrite Hp, Hs, Hb, Hw, Ha, Hn, Hg. cbn.
  destruct (VerifySignature auth wt addr (LoginMessage auth (vr_Nonce req)) _ _);
    [|discriminate].
  destruct (VerifySignature auth wt addr (LegacyLoginMessage auth (vr_Nonce req)) _ _);
    [|discriminate].
  cbn. rewrite <- app_assoc. reflexivity.
Qed.

(** Some rendering verifies: the handler runs the transaction, and on its
    success issues the token. *)
Lemma Verify_signed h c req wt addr w :
  has_pool h -> has_secret h -> well_formed auth c req wt addr ->
  signed_canonical auth wt addr req || signed_legacy auth wt addr req = true ->
  run (Verify auth h c) w =
    let tried := renderings_tried auth wt addr req in
    match auth.(ConsumeNonceAndUpsertUser) (Context c) wt addr (vr_Nonce req)
            (vr_PublicKey req) (store w) with
    | (Err msg, s) =>
        (if String.eqb msg "invalid_or_expired_nonce"
         then error_response StatusUnauthorized "invalid_or_expired_nonce"
         else error_response StatusInternalServerError "auth_failed",
         {| store := s;
            calls := calls w ++ tried ++ [consume_call wt addr req] |})
    | (Ok res, s) =>
        match auth.(IssueJWT) (Context c) (JWTSecret (cfg h))
                (ID (LoginUser res)) (Role (LoginUser res))
                (WalletType_ (Wallet res)) (Address (Wallet res))
                (15 * Minute) with
        | Err _ =>
            (error_response StatusInternalServerError "token_issue_failed",
             {| store := s;
                calls := calls w ++ tried
                         ++ [consume_call wt addr req; issue_call h res] |})
        | Ok token =>
            ({| status := StatusOK; body := login_body token res |},
             {| store := s;
                calls := calls w ++ tried
                         ++ [consume_call wt addr req; issue_call h res] |})
        end
    end.
Proof.
  intros Hp Hs (Hb & Hw & Ha & Hn & Hg) Hsig.
  unfold renderings_tried.
  unfold signed_canonical, signed_legacy, signed_over in *.
  unfold has_pool, has_secret in *.
  open_handler. rewrite Hp, Hs, Hb, Hw, Ha, Hn, Hg. cbn.
  destruct (VerifySignature auth wt addr (LoginMessage auth (vr_Nonce req)) _ _);
    [ destruct (VerifySignature auth wt addr
                  (LegacyLoginMessage auth (vr_Nonce req)) _ _);
      [discriminate|] |];
    cbn;
    (destruct (ConsumeNonceAndUpsertUser auth _ _ _ _ _ _) as [r s'];
     destruct r as [res|msg]; cbn;
     [ destruct (IssueJWT auth _ _ _ _ _ _ _); cbn
     | destruct (String.eqb msg _); cbn ]);
    rewrite <- ?app_assoc; reflexivity.
Qed.

End HandlerLemmas.

Section HandlerInversion.

Variable auth : AuthPkg.

Lemma world_eta (w : World) :
  {| store := store w; calls := calls w ++ [] |} = w.
Proof. destruct w; cbn. rewrite app_nil_r. reflexivity. Qed.

(** A run of [Verify] either stops before the transaction, with an error
    response, the store as it was and signature checks as its only calls,
    or serves a well-formed request whose signature verifies. *)
Lemma Verify_inv h c w :
  (exists code msg extra,
      run (Verify auth h c) w =
        (error_response code msg,
         {| store := store w; calls := calls w ++ extra |})
      /\ code <> StatusOK
      /\ forallb is_verify_call extra = true)
  \/ (exists req wt addr,
        has_pool h /\ has_secret h /\ well_formed auth c req wt addr
        /\ signed_canonical auth wt addr req
           || signed_legacy auth wt addr req = true).
Proof.
  destruct (db_missing h) eqn:Hp.
  { left. exists StatusServiceUnavailable, "db_not_configured", [].
    rewrite world_eta. open_handler. rewrite Hp. split; [reflexivity|].
    split; [discriminate|reflexivity]. }
  destruct (String.eqb (JWTSecret (cfg h)) "") eqn:Hs.
  { left. exists StatusServiceUnavailable, "jwt_not_configured", [].
    rewrite world_eta. open_handler. rewrite Hp, Hs. split; [reflexivity|].
    split; [discriminate|reflexivity]. }
  destruct (BodyParser c) as [req|e] eqn:Hb.
  2:{ left. exists StatusBadRequest, "invalid_json", [].
      rewrite world_eta. open_handler. rewrite Hp, Hs, Hb.
      split; [reflexivity|]. split; [discriminate|reflexivity]. }
  destruct (NormalizeWalletType auth (vr_WalletType req)) as [wt|e] eqn:Hw.
  2:{ left. exists StatusBadRequest, "invalid_wallet_type", [].
      rewrite world_eta. open_handler. rewrite Hp, Hs, Hb, Hw.
      split; [reflexivity|]. split; [discriminate|reflexivity]. }
  destruct (NormalizeAddress auth wt (vr_Address req)) as [addr|e] eqn:Ha.
  2:{ left. exists StatusBadRequest, "invalid_address", [].
      rewrite world_eta. open_handler. rewrite Hp, Hs, Hb, Hw, Ha.
      split; [reflexivity|]. split; [discriminate|reflexivity]. }
  destruct (String.eqb (vr_Nonce req) "") eqn:Hn.
  { left. exists StatusBadRequest, "missing_nonce_or_signature", [].
    rewrite world_eta. open_handler. rewrite Hp, Hs, Hb, Hw, Ha, Hn.
    split; [reflexivity|]. split; [discriminate|reflexivity]. }
  destruct (String.eqb (vr_Signature req) "") eqn:Hg.
  { left. exists StatusBadRequest, "missing_nonce_or_signature", [].
    rewrite world_eta. open_handler. rewrite Hp, Hs, Hb, Hw, Ha, Hn, Hg.
    split; [reflexivity|]. split; [discriminate|reflexivity]. }
  assert (Hwf : well_formed auth c req wt addr) by (repeat split; assumption).
  destruct (signed_canonical auth wt addr req
            || signed_legacy auth wt addr req) eqn:Hsig.
  - right. exists req, wt, addr. repeat split; assumption.
  - left. apply orb_false_iff in Hsig as [Hc Hl].
    exists StatusUnauthorized, "invalid_signature",
      (renderings_tried auth wt addr req).
    split; [apply Verify_unsigned; assumption|].
    split; [discriminate|].
    unfold renderings_tried. rewrite Hc. reflexivity.
Qed.

(** [Nonce] leaves the store as it was or as [CreateNonce] left it. *)
Lemma Nonce_store h c w :
  store (snd (run (Nonce auth h c) w)) = store w
  \/ exists wt addr,
       store (snd (run (Nonce auth h c) w)) =
         snd (auth.(CreateNonce) (Context c) wt addr (10 * Minute) (store w)).
Proof.
  open_handler.
  destruct (db_missing h); [left; reflexivity|].
  destruct (BodyParser c) as [req|e]; [|left; reflexivity].
  destruct (NormalizeWalletType auth _) as [wt|e]; [|left; reflexivity].
  destruct (NormalizeAddress auth wt _) as [addr|e]; [|left; reflexivity].
  right. exists wt, addr. cbn.
  destruct (CreateNonce auth _ _ _ _ _) as [r s]. destruct r; reflexivity.
Qed.

(** [Verify] leaves the store as it was or as the transaction left it. *)
Lemma Verify_store h c w :
  store (snd (run (Verify auth h c) w)) = store w
  \/ exists req wt addr,
       BodyParser c = Ok req /\
       store (snd (run (Verify auth h c) w)) =
         snd (auth.(ConsumeNonceAndUpsertUser) (Context c) wt addr
                (vr_Nonce req) (vr_PublicKey req) (store w)).
Proof.
  destruct (Verify_inv h c w)
    as [(code & msg & extra & Hrun & _) | (req & wt & addr & Hp & Hs & Hwf & Hsig)].
  - left. rewrite Hrun. reflexivity.
  - right. exists req, wt, addr. split; [apply Hwf|].
    rewrite (Verify_signed auth h c req wt addr w Hp Hs Hwf Hsig). cbn zeta.
    destruct (ConsumeNonceAndUpsertUser auth _ _ _ _ _ _) as [r s].
    destruct r as [res|msg]; [|reflexivity].
    destruct (IssueJWT auth _ _ _ _ _ _ _); reflexivity.
Qed.

End HandlerInversion.

(** [Me] only reads. *)
Lemma Me_store github uuid_Parse QueryRowScan {Req} h (c : Ctx Req) w :
  store (snd (run (Me github uuid_Parse QueryRowScan h c) w)) = store w.
Proof.
  open_handler.
  destruct (db_missing h); [reflexivity|].
  destruct (uuid_Parse _) as [userID|e]; [|reflexivity].
  cbn.
  destruct (GetLinkedAccount github _ _ _ _) as [la|e]; cbn.
  - destruct (GetUser _ _ _) as [u|e]; cbn; [reflexivity|].
    destruct (QueryRowScan _ _ _) as [[login|] avatar]; reflexivity.
  - destruct (QueryRowScan _ _ _) as [[login|] avatar]; reflexivity.
Qed.

(** ** Validation, signature check and their order *)

(** C4.  A decoded issue-nonce or verify-and-login request with an invalid
    wallet type, an invalid address or (for [Verify]) an empty nonce or
    signature leaves the world exactly as it was: the store is untouched
    and the call log has no new entry, so no storage operation, read or
    write, was performed.  On a handler that has its pool (and, for
    [Verify], its secret) the answer is 400 with the code of that
    failure. *)
Theorem validation_precedes_storage (auth : AuthPkg) (h : AuthHandler)
    (w : World) :
  (forall (c : Ctx nonceRequest) (req : nonceRequest) (code : string),
      BodyParser c = Ok req ->
      invalid_nonce_request auth req code ->
      snd (run (Nonce auth h c) w) = w
      /\ (has_pool h ->
          fst (run (Nonce auth h c) w) = error_response StatusBadRequest code))
  /\ (forall (c : Ctx verifyRequest) (req : verifyRequest) (code : string),
        BodyParser c = Ok req ->
        invalid_verify_request auth req code ->
        snd (run (Verify auth h c) w) = w
        /\ (has_pool h -> has_secret h ->
            fst (run (Verify auth h c) w) =
              error_response StatusBadRequest code)).
Proof.
  unfold has_pool, has_secret. split.
  - intros c req code Hb Hinv. open_handler.
    destruct (db_missing h); [split; [reflexivity | discriminate]|].
    rewrite Hb.
    destruct Hinv as [e Hw | wt e Hw Ha]; rewrite Hw; [|rewrite Ha];
      split; reflexivity.
  - intros c req code Hb Hinv. open_handler.
    destruct (db_missing h); [split; [reflexivity | discriminate]|].
    destruct (String.eqb (JWTSecret (cfg h)) "");
      [split; [reflexivity | discriminate]|].
    rewrite Hb.
    destruct Hinv as [e Hw | wt e Hw Ha | wt addr Hw Ha Hempty]; rewrite Hw;
      [|rewrite Ha|rewrite Ha]; try (split; reflexivity).
    assert (String.eqb (vr_Nonce req) "" || String.eqb (vr_Signature req) ""
            = true) as ->.
    { apply orb_true_iff.
      destruct Hempty as [-> | ->]; [left|right]; reflexivity. }
    split; reflexivity.
Qed.

(** C3.  When the signature of a well-formed request verifies over neither
    rendering, [Verify] answers [invalid_signature] (401) without a token;
    its only calls are the two signature checks, so the transaction is not
    invoked, no call receives the pool, and the store (nonces, users and
    wallet links) is as before. *)
Theorem signature_failure_precedes_consumption (auth : AuthPkg)
    (h : AuthHandler) (c : Ctx verifyRequest) (req : verifyRequest)
    (wt : WalletType) (addr : string) (w : World) :
  has_pool h -> has_secret h -> well_formed auth c req wt addr ->
  signed_canonical auth wt addr req = false ->
  signed_legacy auth wt addr req = false ->
  let out := run (Verify auth h c) w in
  fst out = error_response StatusUnauthorized "invalid_signature"
  /\ bearer_token (fst out) = None
  /\ store (snd out) = store w
  /\ calls (snd out) =
       (calls w
        ++ [ verify_call auth wt addr req (auth.(LoginMessage) (vr_Nonce req));
             verify_call auth wt addr req
               (auth.(LegacyLoginMessage) (vr_Nonce req)) ])%list
  /\ ~ In (consume_call wt addr req)
         (drop (length (calls w)) (calls (snd out)))
  /\ filter (fun k => uses_pool k = true) (calls (snd out)) =
       filter (fun k => uses_pool k = true) (calls w).
Proof.
  intros Hp Hs Hwf Hc Hl out. subst out.
  rewrite (Verify_unsigned auth h c req wt addr w Hp Hs Hwf Hc Hl).
  unfold renderings_tried. rewrite Hc. cbn [fst snd store calls].
  repeat split.
  - rewrite drop_app_length. cbn. unfold verify_call, consume_call.
    intros [H | [H | []]]; discriminate H.
  - rewrite filter_app. cbn. rewrite app_nil_r. reflexivity.
Qed.

Lemma error_response_inj code1 msg1 code2 msg2 :
  error_response code1 msg1 = error_response code2 msg2 ->
  code1 = code2 /\ msg1 = msg2.
Proof.
  intros H. split.
  - exact (f_equal status H).
  - assert (Hb := f_equal (fun r => body r !! "error") H). cbn in Hb.
    unfold error_response in Hb. cbn in Hb.
    rewrite !lookup_singleton_eq in Hb. congruence.
Qed.

(** C2.  On a well-formed request [Verify] checks the signature against the
    canonical rendering first and against the legacy rendering only when
    the canonical one failed, and against nothing else; it goes on to the
    transaction exactly when one of the two verified, and answers
    [invalid_signature] exactly when neither did, whatever other message
    the signature may be valid over. *)
Theorem two_renderings_first_match (auth : AuthPkg) (h : AuthHandler)
    (c : Ctx verifyRequest) (req : verifyRequest) (wt : WalletType)
    (addr : string) (w : World) :
  has_pool h -> has_secret h -> well_formed auth c req wt addr ->
  let out := run (Verify auth h c) w in
  let canonical := auth.(LoginMessage) (vr_Nonce req) in
  let legacy := auth.(LegacyLoginMessage) (vr_Nonce req) in
  (exists rest,
      calls (snd out) =
        (calls w
         ++ (verify_call auth wt addr req canonical
             :: (if signed_over auth wt addr req canonical then []
                 else [verify_call auth wt addr req legacy]))
         ++ rest)%list
      /\ forallb (fun k => negb (is_verify_call k)) rest = true
      /\ (head rest = Some (consume_call wt addr req) <->
          signed_over auth wt addr req canonical = true
          \/ signed_over auth wt addr req legacy = true))
  /\ (fst out = error_response StatusUnauthorized "invalid_signature" <->
      signed_over auth wt addr req canonical = false
      /\ signed_over auth wt addr req legacy = false)
  /\ (forall third,
        signed_over auth wt addr req third = true ->
        signed_over auth wt addr req canonical = false ->
        signed_over auth wt addr req legacy = false ->
        fst out = error_response StatusUnauthorized "invalid_signature").
Proof.
  intros Hp Hs Hwf out canonical legacy. subst canonical legacy.
  unfold signed_canonical, signed_legacy in *.
  assert (Hno : signed_over auth wt addr req (LoginMessage auth (vr_Nonce req)) = false ->
                signed_over auth wt addr req (LegacyLoginMessage auth (vr_Nonce req)) = false ->
                out = (error_response StatusUnauthorized "invalid_signature",
                       {| store := store w;
                          calls := calls w ++ renderings_tried auth wt addr req |})).
  { intros Hc Hl. apply Verify_unsigned; assumption. }
  destruct (signed_over auth wt addr req (LoginMessage auth (vr_Nonce req))
            || signed_over auth wt addr req (LegacyLoginMessage auth (vr_Nonce req))) eqn:Hsig.
  - (* one rendering verifies *)
    assert (Hrun := Verify_signed auth h c req wt addr w Hp Hs Hwf Hsig).
    fold out in Hrun. cbn zeta in Hrun.
    assert (Hany : signed_over auth wt addr req (LoginMessage auth (vr_Nonce req)) = true
                   \/ signed_over auth wt addr req (LegacyLoginMessage auth (vr_Nonce req)) = true)
      by (apply orb_true_iff; exact Hsig).
    assert (Hnot : ~ (signed_over auth wt addr req (LoginMessage auth (vr_Nonce req)) = false
                      /\ signed_over auth wt addr req (LegacyLoginMessage auth (vr_Nonce req)) = false)).
    { intros [Hc Hl]. rewrite Hc, Hl in Hsig. discriminate. }
    unfold renderings_tried, signed_canonical in Hrun.
    destruct (ConsumeNonceAndUpsertUser auth _ _ _ _ _ _) as [r s].
    destruct r as [res|msg].
    + destruct (IssueJWT auth _ _ _ _ _ _ _) as [token|e]; rewrite Hrun;
        cbn [fst snd calls]; (split; [|split]).
      * exists [consume_call wt addr req; issue_call h res].
        split; [reflexivity|]. split; [reflexivity|].
        cbn. split; [intros _; exact Hany | reflexivity].
      * split; [|intros H; destruct (Hnot H)].
        intros H. apply (f_equal status) in H. discriminate H.
      * intros third _ Hc Hl. destruct (Hnot (conj Hc Hl)).
      * exists [consume_call wt addr req; issue_call h res].
        split; [reflexivity|]. split; [reflexivity|].
        cbn. split; [intros _; exact Hany | reflexivity].
      * split; [|intros H; destruct (Hnot H)].
        intros H. apply error_response_inj in H as [H _]. discriminate H.
      * intros third _ Hc Hl. destruct (Hnot (conj Hc Hl)).
    + rewrite Hrun. cbn [fst snd calls]. split; [|split].
      * exists [consume_call wt addr req].
        split; [reflexivity|]. split; [reflexivity|].
        cbn. split; [intros _; exact Hany | reflexivity].
      * split; [|intros H; destruct (Hnot H)].
        intros H. destruct (String.eqb msg "invalid_or_expired_nonce");
          apply error_response_inj in H as [H1 H2]; discriminate.
      * intros third _ Hc Hl. destruct (Hnot (conj Hc Hl)).
  - (* neither verifies *)
    apply orb_false_iff in Hsig as [Hc Hl].
    rewrite (Hno Hc Hl). cbn [fst snd calls].
    unfold renderings_tried, signed_canonical.
    rewrite Hc. split; [|split].
    + exists []. split; [rewrite app_nil_r; reflexivity|].
      split; [reflexivity|]. cbn. split; [discriminate|].
      rewrite ?Hc, ?Hl. intros [H|H]; discriminate H.
    + split; [intros _; split; [reflexivity | exact Hl] | reflexivity].
    + reflexivity.
Qed.

(** ** The identity handler *)




Section MeLemmas.

Variable github : GithubPkg.
Variable uuid_Parse : string -> result UUID.
Variable QueryRowScan : Env -> UUID -> Store -> option string * option string.

Context {Req : Type}.

(** The fallback: status 200, and the identity fields with the cached
    [github] object when the scan returned a login. *)
Lemma Me_fallback h (c : Ctx Req) userID w :
  has_pool h ->
  uuid_Parse (default "" (LocalUserID c)) = Ok userID ->
  github_unavailable github (Context c) userID (TokenEncKeyB64 (cfg h))
    (store w) ->
  let scanned := QueryRowScan (Context c) userID (store w) in
  let out := run (Me github uuid_Parse QueryRowScan h c) w in
  fst out =
    {| status := StatusOK;
       body := match fst scanned with
               | Some login =>
                   <["github" := VMap (cached_object login (snd scanned))]>
                     (identity_fields c)
               | None => identity_fields c
               end |}
  /\ store (snd out) = store w.
Proof.
  intros Hp Hu Hfail scanned out. subst scanned out. unfold has_pool in Hp.
  split; [|apply Me_store].
  open_handler. rewrite Hp, Hu. cbn.
  destruct Hfail as [[e He] | (la & e & Hla & He)].
  - rewrite He. cbn.
    destruct (QueryRowScan _ _ _) as [[login|] avatar]; reflexivity.
  - rewrite Hla. cbn. rewrite He. cbn.
    destruct (QueryRowScan _ _ _) as [[login|] avatar]; reflexivity.
Qed.


End MeLemmas.

(** The [github] object of the fallback, written out: the login alone, or
    the login and the avatar when the cached avatar is present and not
    empty. *)
Lemma cached_object_explicit (login : string) (avatar : option string) :
  cached_object login avatar =
    match avatar with
    | None => <["login" := VString login]> ∅
    | Some a =>
        if String.eqb a "" then <["login" := VString login]> ∅
        else <["avatar_url" := VString a]> (<["login" := VString login]> ∅)
    end.
Proof.
  unfold cached_object, set_if_nonempty, fiber_Map.
  destruct avatar as [a|]; [destruct (String.eqb a "")|]; reflexivity.
Qed.

(** C8.  On a handler with its pool and a request whose user id parses,
    when the vault lookup fails (for whatever reason, a decryption failure
    included) or the provider call fails, [Me] still answers 200 with the
    user id and role and no error entry, and the store is not changed.
    The [github] entry comes from the cached row: it is absent when the
    scan returned no login; otherwise it is the object with exactly the
    cached login under [login] and, when the cached avatar is present and
    not empty, that avatar under [avatar_url]. *)
Theorem identity_survives_github_failure (github : GithubPkg)
    (uuid_Parse : string -> result UUID)
    (QueryRowScan : Env -> UUID -> Store -> option string * option string)
    {Req : Type} (h : AuthHandler) (c : Ctx Req) (userID : UUID) (w : World) :
  has_pool h ->
  uuid_Parse (default "" (LocalUserID c)) = Ok userID ->
  github_unavailable github (Context c) userID (TokenEncKeyB64 (cfg h))
    (store w) ->
  let scanned := QueryRowScan (Context c) userID (store w) in
  let out := run (Me github uuid_Parse QueryRowScan h c) w in
  status (fst out) = StatusOK
  /\ body (fst out) !! "id" = Some (VString (default "" (LocalUserID c)))
  /\ body (fst out) !! "role" = Some (VString (default "" (LocalRole c)))
  /\ body (fst out) !! "error" = None
  /\ body (fst out) !! "github" =
       match scanned with
       | (None, _) => None
       | (Some login, None) =>
           Some (VMap (<["login" := VString login]> ∅))
       | (Some login, Some avatar) =>
           if String.eqb avatar ""
           then Some (VMap (<["login" := VString login]> ∅))
           else Some (VMap (<["avatar_url" := VString avatar]>
                              (<["login" := VString login]> ∅)))
       end
  /\ (forall m, body (fst out) !! "github" = Some (VMap m) ->
        exists login,
          fst scanned = Some login
          /\ m !! "login" = Some (VString login)
          /\ m !! "avatar_url" =
               match snd scanned with
               | Some avatar =>
                   if String.eqb avatar "" then None
                   else Some (VString avatar)
               | None => None
               end
          /\ (forall k, is_Some (m !! k) -> k = "login" \/ k = "avatar_url"))
  /\ store (snd out) = store w.
Proof.
  intros Hp Hu Hfail scanned out.
  destruct (Me_fallback github uuid_Parse QueryRowScan h c userID w Hp Hu Hfail)
    as [Hresp Hstore].
  fold scanned out in Hresp, Hstore. rewrite Hresp. cbn [status body].
  split; [reflexivity|].
  assert (Hgithub :
            (match fst scanned with
             | Some login =>
                 <["github" := VMap (cached_object login (snd scanned))]>
                   (identity_fields c)
             | None => identity_fields c
             end) !! "github" =
            match scanned with
            | (None, _) => None
            | (Some login, None) =>
                Some (VMap (<["login" := VString login]> ∅))
            | (Some login, Some avatar) =>
                if String.eqb avatar ""
                then Some (VMap (<["login" := VString login]> ∅))
                else Some (VMap (<["avatar_url" := VString avatar]>
                                   (<["login" := VString login]> ∅)))
            end).
  { destruct scanned as [[login|] avatar]; cbn [fst snd]; [|reflexivity].
    rewrite lookup_insert_eq, cached_object_explicit.
    destruct avatar as [a|]; [destruct (String.eqb a "")|]; reflexivity. }
  split; [|split; [|split; [|split; [exact Hgithub|split; [|exact Hstore]]]]].
  - destruct (fst scanned);
      [rewrite lookup_insert_ne by discriminate|]; reflexivity.
  - destruct (fst scanned);
      [rewrite lookup_insert_ne by discriminate|]; reflexivity.
  - destruct (fst scanned);
      [rewrite lookup_insert_ne by discriminate|]; reflexivity.
  - intros m Hm. rewrite Hgithub in Hm.
    assert (Hkeys : forall (login : string) (v : option Value) k,
               is_Some ((match v with
                         | Some a => <["avatar_url" := a]>
                                       (<["login" := VString login]> ∅)
                         | None => <["login" := VString login]> ∅
                         end : gmap string Value) !! k) ->
               k = "login" \/ k = "avatar_url").
    { intros login v k [x Hx].
      destruct (decide (k = "login")) as [->|Hne1]; [tauto|].
      destruct (decide (k = "avatar_url")) as [->|Hne2]; [tauto|].
      destruct v as [a|].
      - rewrite lookup_insert_ne in Hx by congruence.
        rewrite lookup_insert_ne in Hx by congruence.
        rewrite lookup_empty in Hx. discriminate Hx.
      - rewrite lookup_insert_ne in Hx by congruence.
        rewrite lookup_empty in Hx. discriminate Hx. }
    destruct scanned as [[login|] avatar]; [|discriminate Hm].
    exists login. cbn [fst snd]. split; [reflexivity|].
    destruct avatar as [a|]; [destruct (String.eqb a "") eqn:Ha|];
      injection Hm as <-.
    + split; [reflexivity|]. split; [reflexivity|].
      intros k Hk. exact (Hkeys login None k Hk).
    + split; [rewrite lookup_insert_ne by discriminate; apply lookup_insert_eq|].
      split; [apply lookup_insert_eq|].
      intros k Hk. exact (Hkeys login (Some (VString a)) k Hk).
    + split; [reflexivity|]. split; [reflexivity|].
      intros k Hk. exact (Hkeys login None k Hk).
Qed.



(** ** Nonce consumption *)

Lemma live_nonce_unusable env wt addr token s :
  unusable env wt addr token s ->
  AuthModel.live_nonce env wt addr token s = None.
Proof.
  intros Hu. unfold AuthModel.live_nonce.
  destruct (nonces s !! token) as [n|] eqn:Hn; [|reflexivity].
  destruct (bool_decide (NonceWalletType n = wt)) eqn:Hw; [|reflexivity].
  destruct (String.eqb (NonceAddress n) addr) eqn:Ha; [|reflexivity].
  destruct (Consumed n) eqn:Hc; [reflexivity|].
  destruct (ExpiresAt n <? now env)%Z eqn:He; [reflexivity|].
  exfalso. apply bool_decide_eq_true in Hw. apply String.eqb_eq in Ha.
  apply Z.ltb_ge in He.
  destruct Hu as [Habs | n' Hn' Hc' | n' Hn' He'].
  - exact (Habs n Hn Hw Ha).
  - congruence.
  - assert (n' = n) by congruence. subst n'. lia.
Qed.

Lemma live_nonce_usable env wt addr token s n :
  AuthModel.live_nonce env wt addr token s = Some n ->
  nonces s !! token = Some n /\ NonceWalletType n = wt
  /\ NonceAddress n = addr /\ Consumed n = false
  /\ now env <= ExpiresAt n.
Proof.
  unfold AuthModel.live_nonce.
  destruct (nonces s !! token) as [m|] eqn:Hn; [|discriminate].
  destruct (bool_decide (NonceWalletType m = wt)) eqn:Hw; [|discriminate].
  destruct (String.eqb (NonceAddress m) addr) eqn:Ha; [|discriminate].
  destruct (Consumed m) eqn:Hc; [discriminate|].
  destruct (ExpiresAt m <? now env)%Z eqn:He; [discriminate|].
  cbn. intros [= <-].
  apply bool_decide_eq_true in Hw. apply String.eqb_eq in Ha.
  apply Z.ltb_ge in He. repeat split; assumption.
Qed.

Lemma consume_unusable role env wt addr token pk s :
  unusable env wt addr token s ->
  AuthModel.ConsumeNonceAndUpsertUser role env wt addr token pk s =
    (Err "invalid_or_expired_nonce", s).
Proof.
  intros Hu. unfold AuthModel.ConsumeNonceAndUpsertUser.
  rewrite (live_nonce_unusable _ _ _ _ _ Hu). reflexivity.
Qed.

Lemma spent_unusable env wt addr token s :
  spent token s -> unusable env wt addr token s.
Proof. intros (n & Hn & Hc). exact (nonce_consumed _ _ _ _ _ n Hn Hc). Qed.

(** The transaction changes the store only when it succeeds, and then the
    token it was given is spent and the wallet of the result is the wallet
    identity it was given. *)
Lemma consume_outcome role env wt addr token pk s :
  match AuthModel.ConsumeNonceAndUpsertUser role env wt addr token pk s with
  | (Err _, s') => s' = s
  | (Ok res, s') =>
      (exists n, AuthModel.live_nonce env wt addr token s = Some n
                 /\ nonces s' = <[token := AuthModel.consume n]> (nonces s))
      /\ WalletType_ (Wallet res) = wt
      /\ Address (Wallet res) = addr
  end.
Proof.
  unfold AuthModel.ConsumeNonceAndUpsertUser.
  destruct (AuthModel.live_nonce env wt addr token s) as [n|]; [|reflexivity].
  destruct (wallets s !! (wt, addr)) as [row|].
  - destruct (users s !! row_user_id row) as [u|]; [|reflexivity].
    cbn. split; [exists n; split; reflexivity|]. split; reflexivity.
  - destruct (users s !! fresh_uuid env) as [u|]; [reflexivity|].
    cbn. split; [exists n; split; reflexivity|]. split; reflexivity.
Qed.

Lemma consume_keeps_spent role env wt addr token pk s spent_token :
  spent spent_token s ->
  spent spent_token
    (snd (AuthModel.ConsumeNonceAndUpsertUser role env wt addr token pk s)).
Proof.
  intros Hsp.
  pose proof (consume_outcome role env wt addr token pk s) as H.
  destruct (AuthModel.ConsumeNonceAndUpsertUser role env wt addr token pk s)
    as [r s'].
  destruct r as [res|msg]; cbn [snd]; [|subst s'; exact Hsp].
  destruct H as [(n & _ & Hn) _]. destruct Hsp as (m & Hm & Hc).
  unfold spent. rewrite Hn.
  destruct (decide (token = spent_token)) as [->|Hne].
  - exists (AuthModel.consume n). rewrite lookup_insert_eq. split; reflexivity.
  - exists m. rewrite lookup_insert_ne by exact Hne. split; assumption.
Qed.

Lemma consume_spends role env wt addr token pk s res s' :
  AuthModel.ConsumeNonceAndUpsertUser role env wt addr token pk s = (Ok res, s') ->
  spent token s'.
Proof.
  intros Hrun.
  pose proof (consume_outcome role env wt addr token pk s) as H.
  rewrite Hrun in H. destruct H as [(n & _ & Hn) _].
  exists (AuthModel.consume n). rewrite Hn, lookup_insert_eq.
  split; reflexivity.
Qed.

Lemma create_keeps_spent env wt addr ttl s spent_token :
  spent spent_token s ->
  spent spent_token (snd (AuthModel.CreateNonce env wt addr ttl s)).
Proof.
  intros (m & Hm & Hc). unfold AuthModel.CreateNonce.
  destruct (nonces s !! entropy env) as [old|] eqn:Hold; cbn [snd].
  - exists m. split; assumption.
  - exists m. split; [|exact Hc]. cbn.
    rewrite lookup_insert_ne; [exact Hm|]. congruence.
Qed.

Section ModelServer.

Variable p : AuthModel.Primitives.
Variable github : GithubPkg.
Variable uuid_Parse : string -> result UUID.
Variable QueryRowScan : Env -> UUID -> Store -> option string * option string.

Lemma serve_keeps_spent r w token :
  spent token (store w) ->
  spent token
    (store (snd (serve (auth_model p) github uuid_Parse QueryRowScan r w))).
Proof.
  intros Hsp. destruct r as [h c | h c | h c]; cbn [serve].
  - destruct (Nonce_store (auth_model p) h c w) as [-> | (wt & addr & ->)];
      [exact Hsp|].
    apply create_keeps_spent. exact Hsp.
  - destruct (Verify_store (auth_model p) h c w)
      as [-> | (req & wt & addr & _ & ->)]; [exact Hsp|].
    apply consume_keeps_spent. exact Hsp.
  - rewrite Me_store. exact Hsp.
Qed.

Lemma serve_all_keeps_spent rs w token :
  spent token (store w) ->
  spent token
    (store (serve_all (auth_model p) github uuid_Parse QueryRowScan rs w)).
Proof.
  revert w. induction rs as [|r rest IH]; intros w Hsp; cbn [serve_all].
  - exact Hsp.
  - apply IH, serve_keeps_spent, Hsp.
Qed.

(** A login that succeeded spent the nonce it presented. *)
Lemma Verify_ok_spends h c req w :
  BodyParser c = Ok req ->
  status (fst (run (Verify (auth_model p) h c) w)) = StatusOK ->
  spent (vr_Nonce req) (store (snd (run (Verify (auth_model p) h c) w))).
Proof.
  intros Hb Hok.
  destruct (Verify_inv (auth_model p) h c w)
    as [(code & msg & extra & Hrun & Hcode & _)
       | (req' & wt & addr & Hp & Hs & Hwf & Hsig)].
  - rewrite Hrun in Hok. cbn in Hok. congruence.
  - assert (req' = req) by (destruct Hwf as [Hb' _]; congruence). subst req'.
    rewrite (Verify_signed (auth_model p) h c req wt addr w Hp Hs Hwf Hsig) in *.
    cbn zeta in *. cbn [auth_model ConsumeNonceAndUpsertUser] in *.
    destruct (AuthModel.ConsumeNonceAndUpsertUser _ _ _ _ _ _ _)
      as [r s'] eqn:Hc.
    destruct r as [res|msg].
    + apply consume_spends in Hc.
      destruct (IssueJWT (auth_model p) _ _ _ _ _ _ _); exact Hc.
    + cbn in Hok. destruct (String.eqb msg _); discriminate Hok.
Qed.

(** A request that presents a spent token is turned down, with the store
    as it was; when it is well-formed and signed, because of the nonce. *)
Lemma Verify_spent h c req w :
  BodyParser c = Ok req ->
  spent (vr_Nonce req) (store w) ->
  let out := run (Verify (auth_model p) h c) w in
  status (fst out) <> StatusOK
  /\ bearer_token (fst out) = None
  /\ store (snd out) = store w
  /\ (forall wt addr,
        has_pool h -> has_secret h ->
        well_formed (auth_model p) c req wt addr ->
        signed_canonical (auth_model p) wt addr req
        || signed_legacy (auth_model p) wt addr req = true ->
        fst out =
          error_response StatusUnauthorized "invalid_or_expired_nonce").
Proof.
  intros Hb Hsp out. subst out.
  assert (Hsigned : forall wt addr,
             has_pool h -> has_secret h ->
             well_formed (auth_model p) c req wt addr ->
             signed_canonical (auth_model p) wt addr req
             || signed_legacy (auth_model p) wt addr req = true ->
             run (Verify (auth_model p) h c) w =
               (error_response StatusUnauthorized "invalid_or_expired_nonce",
                {| store := store w;
                   calls := calls w
                            ++ renderings_tried (auth_model p) wt addr req
                            ++ [consume_call wt addr req] |})).
  { intros wt addr Hp Hs Hwf Hsig.
    rewrite (Verify_signed (auth_model p) h c req wt addr w Hp Hs Hwf Hsig).
    cbn zeta. cbn [auth_model ConsumeNonceAndUpsertUser].
    rewrite consume_unusable by (apply spent_unusable; exact Hsp).
    reflexivity. }
  destruct (Verify_inv (auth_model p) h c w)
    as [(code & msg & extra & Hrun & Hcode & _)
       | (req' & wt & addr & Hp & Hs & Hwf & Hsig)].
  - rewrite Hrun. cbn [fst snd store]. repeat split.
    + exact Hcode.
    + intros wt addr Hp Hs Hwf Hsig.
      rewrite (Hsigned wt addr Hp Hs Hwf Hsig) in Hrun.
      apply (f_equal fst) in Hrun. cbn [fst] in Hrun. symmetry. exact Hrun.
  - assert (req' = req) by (destruct Hwf as [Hb' _]; congruence). subst req'.
    rewrite (Hsigned wt addr Hp Hs Hwf Hsig). cbn [fst snd store].
    repeat split. discriminate.
Qed.

End ModelServer.

Lemma live_nonce_none env wt addr token s :
  AuthModel.live_nonce env wt addr token s = None ->
  unusable env wt addr token s.
Proof.
  unfold AuthModel.live_nonce.
  destruct (nonces s !! token) as [n|] eqn:Hn.
  2:{ intros _. apply nonce_absent. intros m Hm. congruence. }
  destruct (bool_decide (NonceWalletType n = wt)) eqn:Hw.
  2:{ intros _. apply nonce_absent. intros m Hm Hwm _.
      apply bool_decide_eq_false in Hw. congruence. }
  destruct (String.eqb (NonceAddress n) addr) eqn:Ha.
  2:{ intros _. apply nonce_absent. intros m Hm _ Ham.
      apply String.eqb_neq in Ha. congruence. }
  destruct (Consumed n) eqn:Hc.
  { intros _. exact (nonce_consumed _ _ _ _ _ n Hn Hc). }
  destruct (ExpiresAt n <? now env)%Z eqn:He.
  { intros _. apply Z.ltb_lt in He. exact (nonce_expired _ _ _ _ _ n Hn He). }
  discriminate.
Qed.

(** C1.  After a login that succeeded with some nonce token, and after any
    further requests of any kind, every [Verify] request that presents the
    same token is turned down: its status is not 200, its response carries
    no bearer token, and the store is left as it was.  When that request is
    well-formed and its signature verifies (so that the nonce is what
    decides), the answer is [invalid_or_expired_nonce] (401). *)
Theorem consumed_nonce_is_rejected (p : AuthModel.Primitives)
    (github : GithubPkg) (uuid_Parse : string -> result UUID)
    (QueryRowScan : Env -> UUID -> Store -> option string * option string)
    (h1 : AuthHandler) (c1 : Ctx verifyRequest) (req1 : verifyRequest)
    (w : World) (later : list Request)
    (h2 : AuthHandler) (c2 : Ctx verifyRequest) (req2 : verifyRequest) :
  BodyParser c1 = Ok req1 ->
  status (fst (run (Verify (auth_model p) h1 c1) w)) = StatusOK ->
  BodyParser c2 = Ok req2 ->
  vr_Nonce req2 = vr_Nonce req1 ->
  let w1 := snd (run (Verify (auth_model p) h1 c1) w) in
  let w2 := serve_all (auth_model p) github uuid_Parse QueryRowScan later w1 in
  let out := run (Verify (auth_model p) h2 c2) w2 in
  status (fst out) <> StatusOK
  /\ bearer_token (fst out) = None
  /\ store (snd out) = store w2
  /\ (forall wt addr,
        has_pool h2 -> has_secret h2 ->
        well_formed (auth_model p) c2 req2 wt addr ->
        signed_canonical (auth_model p) wt addr req2
        || signed_legacy (auth_model p) wt addr req2 = true ->
        fst out =
          error_response StatusUnauthorized "invalid_or_expired_nonce").
Proof.
  intros Hb1 Hok Hb2 Hsame w1 w2 out.
  apply (Verify_spent p h2 c2 req2 w2 Hb2).
  rewrite Hsame. subst w2. apply serve_all_keeps_spent.
  subst w1. apply Verify_ok_spends; assumption.
Qed.

(** C5.  For a well-formed request whose signature verifies, the answer is
    [invalid_or_expired_nonce] (401) exactly when the nonce it presents is
    absent for its wallet identity, already consumed, or past its expiry;
    then the response carries no bearer token and the store is unchanged.
    Any other failure of the transaction is answered [auth_failed] (500),
    a different response, also without a token. *)
Theorem unusable_nonce_is_rejected (p : AuthModel.Primitives)
    (h : AuthHandler) (c : Ctx verifyRequest) (req : verifyRequest)
    (wt : WalletType) (addr : string) (w : World) :
  has_pool h -> has_secret h ->
  well_formed (auth_model p) c req wt addr ->
  signed_canonical (auth_model p) wt addr req
  || signed_legacy (auth_model p) wt addr req = true ->
  let out := run (Verify (auth_model p) h c) w in
  let rejected := error_response StatusUnauthorized "invalid_or_expired_nonce" in
  (unusable (Context c) wt addr (vr_Nonce req) (store w) ->
     fst out = rejected
     /\ bearer_token (fst out) = None
     /\ store (snd out) = store w)
  /\ (fst out = rejected ->
      unusable (Context c) wt addr (vr_Nonce req) (store w))
  /\ (forall msg s',
        (auth_model p).(ConsumeNonceAndUpsertUser) (Context c) wt addr
          (vr_Nonce req) (vr_PublicKey req) (store w) = (Err msg, s') ->
        msg <> "invalid_or_expired_nonce" ->
        fst out = error_response StatusInternalServerError "auth_failed"
        /\ fst out <> rejected
        /\ bearer_token (fst out) = None).
Proof.
  intros Hp Hs Hwf Hsig out rejected. subst out rejected.
  rewrite (Verify_signed (auth_model p) h c req wt addr w Hp Hs Hwf Hsig).
  cbn zeta. cbn [auth_model ConsumeNonceAndUpsertUser].
  split; [|split].
  - intros Hu. rewrite consume_unusable by exact Hu. cbn.
    repeat split.
  - unfold AuthModel.ConsumeNonceAndUpsertUser.
    destruct (AuthModel.live_nonce (Context c) wt addr (vr_Nonce req) (store w))
      as [n|] eqn:Hlive; [|intros _; apply live_nonce_none; exact Hlive].
    destruct (wallets (store w) !! (wt, addr)) as [row|].
    + destruct (users (store w) !! row_user_id row) as [u|].
      * cbn [IssueJWT auth_model].
        destruct (AuthModel.IssueJWT _ _ _ _ _ _ _ _); cbn; intros H;
          [apply (f_equal status) in H|apply error_response_inj in H as [H _]];
          discriminate H.
      * cbn. intros H. apply error_response_inj in H as [H _]. discriminate H.
    + destruct (users (store w) !! fresh_uuid (Context c)) as [u|].
      * cbn. intros H. apply error_response_inj in H as [H _]. discriminate H.
      * cbn [IssueJWT auth_model].
        destruct (AuthModel.IssueJWT _ _ _ _ _ _ _ _); cbn; intros H;
          [apply (f_equal status) in H|apply error_response_inj in H as [H _]];
          discriminate H.
  - intros msg s' Hrun Hmsg. rewrite Hrun.
    apply String.eqb_neq in Hmsg. rewrite Hmsg. cbn [fst].
    repeat split.
    intros H. apply error_response_inj in H as [H _]. discriminate H.
Qed.

(** A transaction that succeeded returns the wallet identity it was given. *)
Lemma consume_wallet role env wt addr token pk s res s' :
  AuthModel.ConsumeNonceAndUpsertUser role env wt addr token pk s = (Ok res, s') ->
  WalletType_ (Wallet res) = wt /\ Address (Wallet res) = addr.
Proof.
  intros Hrun.
  pose proof (consume_outcome role env wt addr token pk s) as H.
  rewrite Hrun in H. destruct H as (_ & Hw & Ha). split; assumption.
Qed.

Lemma issue_claims sign env secret userID role wt addr ttl token :
  AuthModel.IssueJWT sign env secret userID role wt addr ttl = Ok token ->
  ClaimUserID token = userID /\ ClaimRole token = role
  /\ ClaimWalletType token = wt /\ ClaimAddress token = addr
  /\ IssuedAt token = now env /\ TokenExpiresAt token = now env + ttl.
Proof.
  unfold AuthModel.IssueJWT. destruct (sign secret _) as [sig|e];
    [|discriminate].
  intros [= <-]. cbn. repeat split.
Qed.

(** An issued token bears the signature the signing primitive gave for
    its claims under the secret. *)
Lemma issue_signed sign env secret userID role wt addr ttl token :
  AuthModel.IssueJWT sign env secret userID role wt addr ttl = Ok token ->
  sign secret (AuthModel.with_signature "" token) = Ok (TokenSignature token).
Proof.
  unfold AuthModel.IssueJWT.
  destruct (sign secret _) as [sig|e] eqn:Hsign; [|discriminate].
  intros [= <-]. cbn. exact Hsign.
Qed.

(** C6, as the code has it.  For a well-formed request whose signature
    verifies and whose transaction succeeds with result [res], the store
    is as the transaction left it and the answer depends on [IssueJWT]
    alone.  When it returns a token, the answer is 200 with exactly the
    token, the user and the wallet identity; the token carries the id and
    role of the user of [res] and the normalized wallet type and address,
    is issued at the time of the request, expires fifteen minutes (900
    seconds, in nanoseconds) later, and bears the signature of its claims
    under the handler's secret.  When it fails, the answer is
    [token_issue_failed] (500) and carries no token. *)
Theorem login_issues_token (p : AuthModel.Primitives) (h : AuthHandler)
    (c : Ctx verifyRequest) (req : verifyRequest) (wt : WalletType)
    (addr : string) (w : World) (res : LoginResult) (s' : Store) :
  has_pool h -> has_secret h ->
  well_formed (auth_model p) c req wt addr ->
  signed_canonical (auth_model p) wt addr req
  || signed_legacy (auth_model p) wt addr req = true ->
  (auth_model p).(ConsumeNonceAndUpsertUser) (Context c) wt addr
    (vr_Nonce req) (vr_PublicKey req) (store w) = (Ok res, s') ->
  let out := run (Verify (auth_model p) h c) w in
  store (snd out) = s'
  /\ match (auth_model p).(IssueJWT) (Context c) (JWTSecret (cfg h))
             (ID (LoginUser res)) (Role (LoginUser res)) wt addr
             (15 * Minute) with
     | Ok token =>
         fst out =
           {| status := StatusOK;
              body := fiber_Map
                [ ("token", VToken token);
                  ("user", VUser (LoginUser res));
                  ("wallet", VMap (fiber_Map
                     [ ("wallet_type", VWalletType wt);
                       ("address", VString addr) ])) ] |}
         /\ bearer_token (fst out) = Some (VToken token)
         /\ ClaimUserID token = ID (LoginUser res)
         /\ ClaimRole token = Role (LoginUser res)
         /\ ClaimWalletType token = wt
         /\ ClaimAddress token = addr
         /\ IssuedAt token = now (Context c)
         /\ TokenExpiresAt token = IssuedAt token + 900 * 1000000000
         /\ AuthModel.sign p (JWTSecret (cfg h))
              (AuthModel.with_signature "" token)
            = Ok (TokenSignature token)
     | Err _ =>
         fst out =
           error_response StatusInternalServerError "token_issue_failed"
         /\ status (fst out) <> StatusOK
         /\ bearer_token (fst out) = None
     end.
Proof.
  intros Hp Hs Hwf Hsig Hcons out. subst out.
  rewrite (Verify_signed (auth_model p) h c req wt addr w Hp Hs Hwf Hsig).
  cbn zeta. rewrite Hcons.
  cbn [auth_model ConsumeNonceAndUpsertUser IssueJWT] in Hcons |- *.
  destruct (consume_wallet _ _ _ _ _ _ _ _ _ Hcons) as [Hwt Haddr].
  rewrite Hwt, Haddr.
  destruct (AuthModel.IssueJWT (AuthModel.sign p) (Context c)
              (JWTSecret (cfg h)) (ID (LoginUser res)) (Role (LoginUser res))
              wt addr (15 * Minute)) as [token|e] eqn:Hissue;
    cbn [fst snd store].
  - destruct (issue_claims _ _ _ _ _ _ _ _ _ Hissue)
      as (Hu & Hr & Hw & Ha & Hi & He).
    pose proof (issue_signed _ _ _ _ _ _ _ _ _ Hissue) as Hsigned.
    unfold login_body. rewrite Hwt, Haddr.
    split; [reflexivity|]. split; [reflexivity|]. split; [reflexivity|].
    split; [exact Hu|]. split; [exact Hr|]. split; [exact Hw|].
    split; [exact Ha|]. split; [exact Hi|].
    split; [rewrite He, Hi; reflexivity | exact Hsigned].
  - split; [reflexivity|]. split; [reflexivity|].
    split; [discriminate | reflexivity].
Qed.

(** ** Address normalization *)

Lemma to_lower_idem (c : ascii) :
  AuthModel.to_lower (AuthModel.to_lower c) = AuthModel.to_lower c.
Proof. destruct c as [[] [] [] [] [] [] [] []]; reflexivity. Qed.

Lemma is_hex_to_lower (c : ascii) :
  AuthModel.is_hex (AuthModel.to_lower c) = AuthModel.is_hex c.
Proof. destruct c as [[] [] [] [] [] [] [] []]; reflexivity. Qed.

Lemma zero_to_lower (c : ascii) :
  Ascii.eqb (AuthModel.to_lower c) "0" = Ascii.eqb c "0".
Proof. destruct c as [[] [] [] [] [] [] [] []]; reflexivity. Qed.

Lemma ToLower_idem (s : string) :
  AuthModel.ToLower (AuthModel.ToLower s) = AuthModel.ToLower s.
Proof.
  induction s as [|c s IH]; cbn; [reflexivity|].
  rewrite to_lower_idem, IH. reflexivity.
Qed.

Lemma ToLower_length (s : string) :
  String.length (AuthModel.ToLower s) = String.length s.
Proof. induction s as [|c s IH]; cbn; [reflexivity|]. rewrite IH. reflexivity. Qed.

Lemma ToLower_hex (s : string) :
  AuthModel.all_chars AuthModel.is_hex (AuthModel.ToLower s) =
  AuthModel.all_chars AuthModel.is_hex s.
Proof.
  induction s as [|c s IH]; cbn; [reflexivity|].
  rewrite is_hex_to_lower, IH. reflexivity.
Qed.

(** The hex family reads an address through its lower-cased spelling. *)
Lemma NormalizeAddress_evm_lower (raw : string) :
  AuthModel.NormalizeAddress EVM (AuthModel.ToLower raw) =
  AuthModel.NormalizeAddress EVM raw.
Proof.
  destruct raw as [|z [|x digits]]; cbn; try reflexivity.
  rewrite zero_to_lower, to_lower_idem, ToLower_length, ToLower_hex,
    ToLower_idem.
  reflexivity.
Qed.

Lemma NormalizeAddress_evm_ok (raw a : string) :
  AuthModel.NormalizeAddress EVM raw = Ok a -> a = AuthModel.ToLower raw.
Proof.
  unfold AuthModel.NormalizeAddress.
  destruct raw as [|z [|x digits]]; try discriminate.
  destruct (_ && _) eqn:Hcond; [|discriminate].
  apply andb_true_iff in Hcond as [Hcond _].
  apply andb_true_iff in Hcond as [Hcond _].
  apply andb_true_iff in Hcond as [Hz Hx].
  intros [= <-]. apply Ascii.eqb_eq in Hz, Hx. subst z. cbn. rewrite Hx.
  reflexivity.
Qed.

(** C9.  For every wallet type and every address [raw] that normalizes, to
    [a] say: normalizing [a] again gives [a]; every other spelling of the
    same address (for the hex family, any spelling that differs from [raw]
    in letter case only) normalizes to the same [a]; and [a] is itself a
    spelling of that address.  The function is a function of its two
    arguments alone. *)
Theorem NormalizeAddress_idempotent (wt : WalletType) (raw a : string) :
  AuthModel.NormalizeAddress wt raw = Ok a ->
  AuthModel.NormalizeAddress wt a = Ok a
  /\ (forall other,
        AuthModel.same_address wt raw other ->
        AuthModel.NormalizeAddress wt other = Ok a)
  /\ AuthModel.same_address wt raw a.
Proof.
  destruct wt; intros Hok.
  - pose proof (NormalizeAddress_evm_ok raw a Hok) as Ha.
    split; [|split].
    + rewrite Ha, NormalizeAddress_evm_lower, Hok, Ha. reflexivity.
    + intros other Hsame. cbn in Hsame.
      rewrite <- NormalizeAddress_evm_lower, <- Hsame,
        NormalizeAddress_evm_lower.
      exact Hok.
    + cbn. rewrite Ha, ToLower_idem. reflexivity.
  - assert (a = raw) as ->.
    { unfold AuthModel.NormalizeAddress in Hok.
      destruct (_ && _); [|discriminate]. congruence. }
    split; [exact Hok|]. split; [|reflexivity].
    intros other <-. exact Hok.
Qed.

(** ** The results on the concrete deployment *)

(** Replay: the login succeeds, a new nonce is issued and the identity is
    fetched, and the replayed login is then answered
    [invalid_or_expired_nonce]. *)
Lemma consumed_nonce_is_rejected_witness :
  status (fst (run (Verify (auth_model Scenario.primitives) Scenario.handler
                      Scenario.login_request) Scenario.after_nonce))
    = StatusOK
  /\ fst (run (Verify (auth_model Scenario.primitives) Scenario.handler
                 Scenario.replay_request)
            (serve_all (auth_model Scenario.primitives) Scenario.github_up
               Scenario.uuid_Parse Scenario.QueryRowScan
               [ NonceRequest Scenario.handler
                   (Scenario.nonce_request 2000 "n2");
                 MeRequest Scenario.handler Scenario.me_request ]
               Scenario.after_login))
     = error_response StatusUnauthorized "invalid_or_expired_nonce".
Proof.
  assert (Hok : status (fst (run (Verify (auth_model Scenario.primitives)
                   Scenario.handler Scenario.login_request)
                   Scenario.after_nonce)) = StatusOK)
    by (vm_compute; reflexivity).
  split; [exact Hok|].
  pose proof (consumed_nonce_is_rejected Scenario.primitives
                Scenario.github_up Scenario.uuid_Parse Scenario.QueryRowScan
                Scenario.handler Scenario.login_request
                Scenario.login_body_request Scenario.after_nonce
                [ NonceRequest Scenario.handler
                    (Scenario.nonce_request 2000 "n2");
                  MeRequest Scenario.handler Scenario.me_request ]
                Scenario.handler Scenario.replay_request
                Scenario.login_body_request
                eq_refl Hok eq_refl eq_refl) as H.
  cbn zeta in H. destruct H as (_ & _ & _ & H).
  apply (H EVM Scenario.evm_address).
  - reflexivity.
  - reflexivity.
  - repeat split; vm_compute; reflexivity.
  - vm_compute; reflexivity.
Defined.

(** A signature over the legacy rendering: the canonical check fails, the
    legacy check follows, and the transaction is invoked. *)
Lemma two_renderings_first_match_witness :
  signed_canonical (auth_model Scenario.primitives) EVM Scenario.evm_address
    {| vr_WalletType := "evm"; vr_Address := Scenario.evm_address_mixed;
       vr_Nonce := "n1"; vr_Signature := Scenario.legacy_signature "n1";
       vr_PublicKey := "" |} = false
  /\ fst (run (Verify (auth_model Scenario.primitives) Scenario.handler
                 (Scenario.verify_request 1000 "evm"
                    Scenario.evm_address_mixed "n1"
                    (Scenario.legacy_signature "n1")))
            Scenario.after_nonce)
     <> error_response StatusUnauthorized "invalid_signature".
Proof.
  split; [vm_compute; reflexivity|].
  pose proof (two_renderings_first_match (auth_model Scenario.primitives)
                Scenario.handler
                (Scenario.verify_request 1000 "evm"
                   Scenario.evm_address_mixed "n1"
                   (Scenario.legacy_signature "n1"))
                {| vr_WalletType := "evm";
                   vr_Address := Scenario.evm_address_mixed;
                   vr_Nonce := "n1";
                   vr_Signature := Scenario.legacy_signature "n1";
                   vr_PublicKey := "" |}
                EVM Scenario.evm_address Scenario.after_nonce) as H.
  assert (Hp : has_pool Scenario.handler) by reflexivity.
  assert (Hs : has_secret Scenario.handler) by reflexivity.
  specialize (H Hp Hs).
  assert (Hwf : well_formed (auth_model Scenario.primitives)
                  (Scenario.verify_request 1000 "evm"
                     Scenario.evm_address_mixed "n1"
                     (Scenario.legacy_signature "n1"))
                  {| vr_WalletType := "evm";
                     vr_Address := Scenario.evm_address_mixed;
                     vr_Nonce := "n1";
                     vr_Signature := Scenario.legacy_signature "n1";
                     vr_PublicKey := "" |}
                  EVM Scenario.evm_address)
    by (repeat split; vm_compute; reflexivity).
  specialize (H Hwf). cbn zeta in H. destruct H as (_ & [Hiff _] & _).
  intros Hresp. destruct (Hiff Hresp) as [_ Hl].
  vm_compute in Hl. discriminate Hl.
Defined.

(** A forged signature: [invalid_signature], and the nonce is still
    unconsumed in the store. *)
Lemma signature_failure_precedes_consumption_witness :
  fst (run (Verify (auth_model Scenario.primitives) Scenario.handler
              (Scenario.verify_request 1000 "evm" Scenario.evm_address_mixed
                 "n1" "forged"))
         Scenario.after_nonce)
    = error_response StatusUnauthorized "invalid_signature"
  /\ store (snd (run (Verify (auth_model Scenario.primitives)
                        Scenario.handler
                        (Scenario.verify_request 1000 "evm"
                           Scenario.evm_address_mixed "n1" "forged"))
                   Scenario.after_nonce))
     = store Scenario.after_nonce.
Proof.
  assert (Hp : has_pool Scenario.handler) by reflexivity.
  assert (Hs : has_secret Scenario.handler) by reflexivity.
  assert (Hwf : well_formed (auth_model Scenario.primitives)
                  (Scenario.verify_request 1000 "evm"
                     Scenario.evm_address_mixed "n1" "forged")
                  {| vr_WalletType := "evm";
                     vr_Address := Scenario.evm_address_mixed;
                     vr_Nonce := "n1"; vr_Signature := "forged";
                     vr_PublicKey := "" |}
                  EVM Scenario.evm_address)
    by (repeat split; vm_compute; reflexivity).
  assert (Hc : signed_canonical (auth_model Scenario.primitives) EVM
                 Scenario.evm_address
                 {| vr_WalletType := "evm";
                    vr_Address := Scenario.evm_address_mixed;
                    vr_Nonce := "n1"; vr_Signature := "forged";
                    vr_PublicKey := "" |} = false)
    by (vm_compute; reflexivity).
  assert (Hl : signed_legacy (auth_model Scenario.primitives) EVM
                 Scenario.evm_address
                 {| vr_WalletType := "evm";
                    vr_Address := Scenario.evm_address_mixed;
                    vr_Nonce := "n1"; vr_Signature := "forged";
                    vr_PublicKey := "" |} = false)
    by (vm_compute; reflexivity).
  pose proof (signature_failure_precedes_consumption
                (auth_model Scenario.primitives) Scenario.handler
                _ _ EVM Scenario.evm_address Scenario.after_nonce
                Hp Hs Hwf Hc Hl) as H.
  cbn zeta in H. destruct H as (Hresp & _ & Hstore & _).
  split; assumption.
Defined.

(** An unknown wallet type: [invalid_wallet_type], and the world is the
    world before the request. *)
Lemma validation_precedes_storage_witness :
  invalid_verify_request (auth_model Scenario.primitives)
    {| vr_WalletType := "dogecoin"; vr_Address := Scenario.evm_address_mixed;
       vr_Nonce := "n1"; vr_Signature := Scenario.good_signature "n1";
       vr_PublicKey := "" |} "invalid_wallet_type"
  /\ run (Verify (auth_model Scenario.primitives) Scenario.handler
            (Scenario.verify_request 1000 "dogecoin"
               Scenario.evm_address_mixed "n1" (Scenario.good_signature "n1")))
       Scenario.after_nonce
     = (error_response StatusBadRequest "invalid_wallet_type",
        Scenario.after_nonce).
Proof.
  assert (Hinv : invalid_verify_request (auth_model Scenario.primitives)
                   {| vr_WalletType := "dogecoin";
                      vr_Address := Scenario.evm_address_mixed;
                      vr_Nonce := "n1";
                      vr_Signature := Scenario.good_signature "n1";
                      vr_PublicKey := "" |} "invalid_wallet_type").
  { apply (verify_bad_wallet_type _ _ "invalid_wallet_type").
    vm_compute. reflexivity. }
  split; [exact Hinv|].
  destruct (validation_precedes_storage (auth_model Scenario.primitives)
              Scenario.handler Scenario.after_nonce) as [_ HV].
  destruct (HV (Scenario.verify_request 1000 "dogecoin"
                  Scenario.evm_address_mixed "n1"
                  (Scenario.good_signature "n1")) _ _ eq_refl Hinv)
    as [Hworld Hresp].
  assert (Hp : has_pool Scenario.handler) by reflexivity.
  assert (Hs : has_secret Scenario.handler) by reflexivity.
  specialize (Hresp Hp Hs).
  rewrite (surjective_pairing (run _ _)), Hworld, Hresp. reflexivity.
Defined.

(** A nonce presented one nanosecond after its ten minutes: the signature
    verifies, the answer is [invalid_or_expired_nonce]. *)
Lemma unusable_nonce_is_rejected_witness :
  unusable (Scenario.env_at 600000000001 "unused" 7%N) EVM
    Scenario.evm_address "n1" (store Scenario.after_nonce)
  /\ fst (run (Verify (auth_model Scenario.primitives) Scenario.handler
                 (Scenario.verify_request 600000000001 "evm"
                    Scenario.evm_address_mixed "n1"
                    (Scenario.good_signature "n1")))
            Scenario.after_nonce)
     = error_response StatusUnauthorized "invalid_or_expired_nonce".
Proof.
  assert (Hu : unusable (Scenario.env_at 600000000001 "unused" 7%N) EVM
                 Scenario.evm_address "n1" (store Scenario.after_nonce)).
  { apply (nonce_expired _ _ _ _ _
             {| NonceToken := "n1"; NonceWalletType := EVM;
                NonceAddress := Scenario.evm_address; CreatedAt := 0;
                ExpiresAt := 600000000000; Consumed := false |}).
    - vm_compute. reflexivity.
    - vm_compute. reflexivity. }
  split; [exact Hu|].
  assert (Hp : has_pool Scenario.handler) by reflexivity.
  assert (Hs : has_secret Scenario.handler) by reflexivity.
  assert (Hwf : well_formed (auth_model Scenario.primitives)
                  (Scenario.verify_request 600000000001 "evm"
                     Scenario.evm_address_mixed "n1"
                     (Scenario.good_signature "n1"))
                  Scenario.login_body_request EVM Scenario.evm_address)
    by (repeat split; vm_compute; reflexivity).
  assert (Hsig : signed_canonical (auth_model Scenario.primitives) EVM
                   Scenario.evm_address Scenario.login_body_request
                 || signed_legacy (auth_model Scenario.primitives) EVM
                      Scenario.evm_address Scenario.login_body_request
                 = true)
    by (vm_compute; reflexivity).
  pose proof (unusable_nonce_is_rejected Scenario.primitives Scenario.handler
                _ _ EVM Scenario.evm_address Scenario.after_nonce
                Hp Hs Hwf Hsig) as H.
  cbn zeta in H. destruct H as (H & _ & _).
  destruct (H Hu) as (Hresp & _). exact Hresp.
Defined.

(** The login of the scenario: a token for user 7 that expires at
    1000 + 900000000000, signed with the handler's secret. *)
Lemma login_issues_token_witness :
  bearer_token
    (fst (run (Verify (auth_model Scenario.primitives) Scenario.handler
                 Scenario.login_request) Scenario.after_nonce))
  = Some (VToken
            {| ClaimUserID := 7%N; ClaimRole := "contributor";
               ClaimWalletType := EVM;
               ClaimAddress := Scenario.evm_address;
               IssuedAt := 1000; TokenExpiresAt := 900000001000;
               TokenSignature := "signed-with:s3cret" |}).
Proof.
  assert (Hp : has_pool Scenario.handler) by reflexivity.
  assert (Hs : has_secret Scenario.handler) by reflexivity.
  assert (Hwf : well_formed (auth_model Scenario.primitives)
                  Scenario.login_request Scenario.login_body_request EVM
                  Scenario.evm_address)
    by (repeat split; vm_compute; reflexivity).
  assert (Hsig : signed_canonical (auth_model Scenario.primitives) EVM
                   Scenario.evm_address Scenario.login_body_request
                 || signed_legacy (auth_model Scenario.primitives) EVM
                      Scenario.evm_address Scenario.login_body_request
                 = true)
    by (vm_compute; reflexivity).
  assert (Hcons : ConsumeNonceAndUpsertUser (auth_model Scenario.primitives)
                    (Context Scenario.login_request) EVM Scenario.evm_address
                    (vr_Nonce Scenario.login_body_request)
                    (vr_PublicKey Scenario.login_body_request)
                    (store Scenario.after_nonce)
                  = (Ok {| LoginUser := {| ID := 7%N; Role := "contributor";
                                           UserCreatedAt := 1000 |};
                           Wallet := {| WalletUserID := 7%N;
                                        WalletType_ := EVM;
                                        Address := Scenario.evm_address;
                                        PublicKey := "" |} |},
                     store Scenario.after_login))
    by (vm_compute; reflexivity).
  pose proof (login_issues_token Scenario.primitives Scenario.handler
                Scenario.login_request Scenario.login_body_request EVM
                Scenario.evm_address Scenario.after_nonce _ _
                Hp Hs Hwf Hsig Hcons) as H.
  cbn zeta in H. destruct H as [_ H].
  assert (Hissue : IssueJWT (auth_model Scenario.primitives)
                     (Context Scenario.login_request)
                     (JWTSecret (cfg Scenario.handler))
                     (ID (LoginUser
                            {| LoginUser := {| ID := 7%N;
                                               Role := "contributor";
                                               UserCreatedAt := 1000 |};
                               Wallet := {| WalletUserID := 7%N;
                                            WalletType_ := EVM;
                                            Address := Scenario.evm_address;
                                            PublicKey := "" |} |}))
                     (Role (LoginUser
                              {| LoginUser := {| ID := 7%N;
                                                 Role := "contributor";
                                                 UserCreatedAt := 1000 |};
                                 Wallet := {| WalletUserID := 7%N;
                                              WalletType_ := EVM;
                                              Address := Scenario.evm_address;
                                              PublicKey := "" |} |}))
                     EVM Scenario.evm_address (15 * Minute)
                   = Ok {| ClaimUserID := 7%N; ClaimRole := "contributor";
                           ClaimWalletType := EVM;
                           ClaimAddress := Scenario.evm_address;
                           IssuedAt := 1000; TokenExpiresAt := 900000001000;
                           TokenSignature := "signed-with:s3cret" |})
    by (vm_compute; reflexivity).
  rewrite Hissue in H. destruct H as (_ & Htoken & _). exact Htoken.
Defined.

(** C6, as stated, fails: with a signing primitive that fails, the request
    is well-formed, its signature verifies and its nonce is consumed by
    the transaction, yet the answer is [token_issue_failed] (500) and no
    token is issued. *)
Lemma login_without_token :
  well_formed (auth_model Scenario.primitives_failing_sign)
    Scenario.login_request Scenario.login_body_request EVM
    Scenario.evm_address
  /\ signed_canonical (auth_model Scenario.primitives_failing_sign) EVM
       Scenario.evm_address Scenario.login_body_request = true
  /\ (exists res,
        ConsumeNonceAndUpsertUser
          (auth_model Scenario.primitives_failing_sign)
          (Context Scenario.login_request) EVM Scenario.evm_address "n1" ""
          (store Scenario.after_nonce)
        = (Ok res, store Scenario.after_login))
  /\ run (Verify (auth_model Scenario.primitives_failing_sign)
            Scenario.handler Scenario.login_request) Scenario.after_nonce
     = (error_response StatusInternalServerError "token_issue_failed",
        {| store := store Scenario.after_login;
           calls := calls Scenario.after_login |})
  /\ bearer_token
       (fst (run (Verify (auth_model Scenario.primitives_failing_sign)
                    Scenario.handler Scenario.login_request)
               Scenario.after_nonce)) = None.
Proof.
  split; [repeat split; vm_compute; reflexivity|].
  split; [vm_compute; reflexivity|].
  split; [eexists; vm_compute; reflexivity|].
  split; vm_compute; reflexivity.
Qed.

(** The stored token cannot be read with the new key: the answer is still
    200, and the [github] entry holds the cached login and the cached
    avatar. *)
Lemma identity_survives_github_failure_witness :
  github_unavailable Scenario.github_up (Context Scenario.me_request) 7%N
    "k2" (store Cases.cached)
  /\ status (fst (run (Me Scenario.github_up Scenario.uuid_Parse
                         Scenario.QueryRowScan Scenario.rekeyed_handler
                         Scenario.me_request) Cases.cached)) = StatusOK
  /\ body (fst (run (Me Scenario.github_up Scenario.uuid_Parse
                       Scenario.QueryRowScan Scenario.rekeyed_handler
                       Scenario.me_request) Cases.cached)) !! "github"
     = Some (VMap (<["avatar_url" := VString "https://a/cached.png"]>
                     (<["login" := VString "octocat"]> ∅))).
Proof.
  assert (Hfail : github_unavailable Scenario.github_up
                    (Context Scenario.me_request) 7%N "k2"
                    (store Cases.cached)).
  { left. exists "decrypt_failed". vm_compute. reflexivity. }
  split; [exact Hfail|].
  assert (Hp : has_pool Scenario.rekeyed_handler) by reflexivity.
  assert (Hu : Scenario.uuid_Parse
                 (default "" (LocalUserID Scenario.me_request)) = Ok 7%N)
    by (vm_compute; reflexivity).
  pose proof (identity_survives_github_failure Scenario.github_up
                Scenario.uuid_Parse Scenario.QueryRowScan
                Scenario.rekeyed_handler Scenario.me_request 7%N
                Cases.cached Hp Hu Hfail) as H.
  cbn zeta in H. destruct H as (Hst & _ & _ & _ & Hgh & _).
  split; [exact Hst|]. exact Hgh.
Defined.


(** A mixed-case address: its normal form is a fixed point, and the
    upper-case prefix spelling normalizes to it as well. *)
Lemma NormalizeAddress_idempotent_witness :
  AuthModel.NormalizeAddress EVM Scenario.evm_address_mixed
    = Ok Scenario.evm_address
  /\ AuthModel.NormalizeAddress EVM Scenario.evm_address
     = Ok Scenario.evm_address
  /\ AuthModel.NormalizeAddress EVM
       "0XABCDEF0123456789ABCDEF0123456789ABCDEF01"
     = Ok Scenario.evm_address.
Proof.
  assert (Hok : AuthModel.NormalizeAddress EVM Scenario.evm_address_mixed
                = Ok Scenario.evm_address)
    by (vm_compute; reflexivity).
  split; [exact Hok|].
  destruct (NormalizeAddress_idempotent EVM Scenario.evm_address_mixed
              Scenario.evm_address Hok) as (Hidem & Hother & _).
  split; [exact Hidem|].
  apply Hother. vm_compute. reflexivity.
Defined.

(** ** Further properties of the handlers *)

(** The outcome of [Nonce] on a well-formed request. *)
Lemma Nonce_run auth h c req wt addr w :
  has_pool h -> nonce_well_formed auth c req wt addr ->
  run (Nonce auth h c) w =
    match auth.(CreateNonce) (Context c) wt addr (10 * Minute) (store w) with
    | (Ok n, s) =>
        ({| status := StatusOK;
            body := fiber_Map
              [ ("nonce", VString (NonceToken n));
                ("message", VString (auth.(LoginMessage) (NonceToken n)));
                ("expires_at", VTime (ExpiresAt n)) ] |},
         {| store := s;
            calls := calls w ++ [CallCreateNonce wt addr (10 * Minute)] |})
    | (Err _, s) =>
        (error_response StatusInternalServerError "nonce_create_failed",
         {| store := s;
            calls := calls w ++ [CallCreateNonce wt addr (10 * Minute)] |})
    end.
Proof.
  unfold has_pool. intros Hp (Hb & Hw & Ha).
  open_handler. rewrite Hp, Hb, Hw, Ha. cbn.
  destruct (CreateNonce auth _ _ _ _ _) as [r s]. destruct r; reflexivity.
Qed.

(** Every run of [Nonce] stops with one of its first four errors and the
    world as it was, or serves a well-formed request. *)
Lemma Nonce_inv auth h c w :
  (exists code msg,
      run (Nonce auth h c) w = (error_response code msg, w)
      /\ In (code, msg) (firstn 4 Nonce_errors))
  \/ (exists req wt addr,
        has_pool h /\ nonce_well_formed auth c req wt addr).
Proof.
  destruct (db_missing h) eqn:Hp.
  { left. exists StatusServiceUnavailable, "db_not_configured".
    open_handler. rewrite Hp. split; [reflexivity | cbn; tauto]. }
  destruct (BodyParser c) as [req|e] eqn:Hb.
  2:{ left. exists StatusBadRequest, "invalid_json".
      open_handler. rewrite Hp, Hb. split; [reflexivity | cbn; tauto]. }
  destruct (NormalizeWalletType auth (nr_WalletType req)) as [wt|e] eqn:Hw.
  2:{ left. exists StatusBadRequest, "invalid_wallet_type".
      open_handler. rewrite Hp, Hb, Hw. split; [reflexivity | cbn; tauto]. }
  destruct (NormalizeAddress auth wt (nr_Address req)) as [addr|e] eqn:Ha.
  2:{ left. exists StatusBadRequest, "invalid_address".
      open_handler. rewrite Hp, Hb, Hw, Ha.
      split; [reflexivity | cbn; tauto]. }
  right. exists req, wt, addr. repeat split; assumption.
Qed.

(** The calls of [Me] once the user id parsed, and its answer on each
    path. *)
Lemma Me_run github uuid_Parse QueryRowScan {Req} h (c : Ctx Req) userID w :
  has_pool h ->
  uuid_Parse (default "" (LocalUserID c)) = Ok userID ->
  let key := TokenEncKeyB64 (cfg h) in
  let out := run (Me github uuid_Parse QueryRowScan h c) w in
  snd out =
    {| store := store w;
       calls := calls w ++ Me_calls github (Context c) userID key (store w) |}
  /\ status (fst out) = StatusOK
  /\ exists profile : option Value,
       body (fst out) =
         match profile with
         | Some v => <["github" := v]> (identity_fields c)
         | None => identity_fields c
         end.
Proof.
  intros Hp Hu key out. subst key out. unfold has_pool in Hp.
  unfold Me_calls. open_handler. rewrite Hp, Hu. cbn.
  destruct (GetLinkedAccount github _ _ _ _) as [la|e]; cbn.
  - destruct (GetUser _ _ _) as [u|e]; cbn.
    + rewrite <- app_assoc. split; [reflexivity|]. split; [reflexivity|].
      exists (Some (VMap (provider_github u))). reflexivity.
    + destruct (QueryRowScan _ _ _) as [[login|] avatar]; cbn;
        rewrite <- !app_assoc; (split; [reflexivity|]);
        (split; [reflexivity|]).
      * eexists (Some _). reflexivity.
      * exists None. reflexivity.
  - destruct (QueryRowScan _ _ _) as [[login|] avatar]; cbn;
      rewrite <- !app_assoc; (split; [reflexivity|]);
      (split; [reflexivity|]).
    + eexists (Some _). reflexivity.
    + exists None. reflexivity.
Qed.

(** X1.  A handler without a database (nil [db] or nil [Pool]) answers
    [db_not_configured] (503) to every request of every kind, whatever
    the request holds and whether or not the secret is set, and leaves the
    world as it was. *)
Theorem missing_pool_answers_503 (auth : AuthPkg) (github : GithubPkg)
    (uuid_Parse : string -> result UUID)
    (QueryRowScan : Env -> UUID -> Store -> option string * option string)
    {Req : Type} (h : AuthHandler) (cn : Ctx nonceRequest)
    (cv : Ctx verifyRequest) (cm : Ctx Req) (w : World) :
  db_missing h = true ->
  run (Nonce auth h cn) w =
    (error_response StatusServiceUnavailable "db_not_configured", w)
  /\ run (Verify auth h cv) w =
       (error_response StatusServiceUnavailable "db_not_configured", w)
  /\ run (Me github uuid_Parse QueryRowScan h cm) w =
       (error_response StatusServiceUnavailable "db_not_configured", w).
Proof.
  intros Hp. repeat split; open_handler; rewrite Hp; reflexivity.
Qed.

(** X2.  With a pool but an empty signing secret, [Verify] answers
    [jwt_not_configured] (503) before it reads the request, and leaves the
    world as it was; [Nonce] and [Me] never read the secret: their outcome
    is the same under any other secret. *)
Theorem missing_secret_stops_verify_only (auth : AuthPkg)
    (github : GithubPkg) (uuid_Parse : string -> result UUID)
    (QueryRowScan : Env -> UUID -> Store -> option string * option string)
    {Req : Type} (h : AuthHandler) (cn : Ctx nonceRequest)
    (cv : Ctx verifyRequest) (cm : Ctx Req) (w : World) :
  has_pool h -> JWTSecret (cfg h) = "" ->
  run (Verify auth h cv) w =
    (error_response StatusServiceUnavailable "jwt_not_configured", w)
  /\ (forall secret,
        run (Nonce auth (with_secret secret h) cn) w = run (Nonce auth h cn) w
        /\ run (Me github uuid_Parse QueryRowScan (with_secret secret h) cm) w
           = run (Me github uuid_Parse QueryRowScan h cm) w).
Proof.
  unfold has_pool. intros Hp Hs. split.
  - open_handler. rewrite Hp, Hs. reflexivity.
  - intros secret. split; reflexivity.
Qed.

(** X3.  On a configured handler a body that does not decode is answered
    [invalid_json] (400) by [Nonce] and by [Verify], before anything is
    normalized or stored; [Me] does not read the body: two requests with
    the same locals and context get the same outcome. *)
Theorem undecodable_body_is_invalid_json (auth : AuthPkg)
    (github : GithubPkg) (uuid_Parse : string -> result UUID)
    (QueryRowScan : Env -> UUID -> Store -> option string * option string)
    (h : AuthHandler) (w : World) :
  has_pool h ->
  (forall (c : Ctx nonceRequest) e,
      BodyParser c = Err e ->
      run (Nonce auth h c) w =
        (error_response StatusBadRequest "invalid_json", w))
  /\ (forall (c : Ctx verifyRequest) e,
        has_secret h -> BodyParser c = Err e ->
        run (Verify auth h c) w =
          (error_response StatusBadRequest "invalid_json", w))
  /\ (forall (Req Req' : Type) (c : Ctx Req) (c' : Ctx Req'),
        LocalUserID c = LocalUserID c' -> LocalRole c = LocalRole c' ->
        Context c = Context c' ->
        run (Me github uuid_Parse QueryRowScan h c) w =
        run (Me github uuid_Parse QueryRowScan h c') w).
Proof.
  unfold has_pool, has_secret. intros Hp. repeat split.
  - intros c e Hb. open_handler. rewrite Hp, Hb. reflexivity.
  - intros c e Hs Hb. open_handler. rewrite Hp, Hs, Hb. reflexivity.
  - intros Req Req' c c' Hu Hr Hc. unfold Me, cached_github, identity_fields.
    rewrite Hu, Hr, Hc. reflexivity.
Qed.

(** X4.  On a well-formed issue-nonce request [Nonce] makes exactly one
    call, [CreateNonce] for the normalized wallet identity with a lifetime
    of ten minutes (600 seconds in nanoseconds), and the store is as that
    call left it.  When the call returns a nonce the answer is 200 with the
    nonce's token, the canonical message for that token and the nonce's
    expiry; when it fails the answer is [nonce_create_failed] (500). *)
Theorem nonce_issued_with_ten_minutes (auth : AuthPkg) (h : AuthHandler)
    (c : Ctx nonceRequest) (req : nonceRequest) (wt : WalletType)
    (addr : string) (w : World) :
  has_pool h -> nonce_well_formed auth c req wt addr ->
  let out := run (Nonce auth h c) w in
  let created :=
    auth.(CreateNonce) (Context c) wt addr 600000000000 (store w) in
  calls (snd out) = (calls w ++ [CallCreateNonce wt addr 600000000000])%list
  /\ store (snd out) = snd created
  /\ match fst created with
     | Ok n =>
         status (fst out) = StatusOK
         /\ body (fst out) !! "nonce" = Some (VString (NonceToken n))
         /\ body (fst out) !! "message" =
              Some (VString (auth.(LoginMessage) (NonceToken n)))
         /\ body (fst out) !! "expires_at" = Some (VTime (ExpiresAt n))
         /\ body (fst out) !! "error" = None
     | Err _ =>
         fst out =
           error_response StatusInternalServerError "nonce_create_failed"
     end.
Proof.
  intros Hp Hwf out created. subst out created.
  rewrite (Nonce_run auth h c req wt addr w Hp Hwf).
  change (10 * Minute) with 600000000000.
  destruct (CreateNonce auth _ _ _ _ _) as [r s].
  destruct r as [n|e]; cbn [fst snd store calls status body];
    repeat split.
Qed.

(** A 200 answer of [Nonce] carries the canonical message of the token it
    carries. *)
Lemma Nonce_ok_message auth h c w n m :
  status (fst (run (Nonce auth h c) w)) = StatusOK ->
  body (fst (run (Nonce auth h c) w)) !! "nonce" = Some (VString n) ->
  body (fst (run (Nonce auth h c) w)) !! "message" = Some (VString m) ->
  m = auth.(LoginMessage) n.
Proof.
  destruct (Nonce_inv auth h c w)
    as [(code & msg & Hrun & Hin) | (req & wt & addr & Hp & Hwf)].
  - rewrite Hrun. cbn [fst status error_response]. intros Hst.
    cbn in Hin. destruct Hin as [H|[H|[H|[H|[]]]]];
      injection H as <- _; discriminate Hst.
  - rewrite (Nonce_run auth h c req wt addr w Hp Hwf).
    destruct (CreateNonce auth _ _ _ _ _) as [r s].
    destruct r as [n0|e]; cbn [fst status body].
    + intros _ Hn Hm.
      assert (Hn' : Some (VString (NonceToken n0)) = Some (VString n))
        by exact Hn.
      assert (Hm' : Some (VString (LoginMessage auth (NonceToken n0)))
                    = Some (VString m)) by exact Hm.
      congruence.
    + intros Hst. discriminate Hst.
Qed.

(** X5.  The message [Nonce] hands out is the rendering [Verify] checks
    first: when [Nonce] answered 200 with nonce [n] and message [m], a
    well-formed [Verify] request that presents [n] with a signature valid
    over [m] passes the signature check at the first attempt, so that its
    calls are that one check followed by the transaction, and its answer is
    not [invalid_signature]. *)
Theorem issued_message_is_checked_first (auth : AuthPkg)
    (h : AuthHandler) (c : Ctx nonceRequest) (w : World) (n m : string)
    (h' : AuthHandler) (c' : Ctx verifyRequest) (req : verifyRequest)
    (wt : WalletType) (addr : string) (w' : World) :
  status (fst (run (Nonce auth h c) w)) = StatusOK ->
  body (fst (run (Nonce auth h c) w)) !! "nonce" = Some (VString n) ->
  body (fst (run (Nonce auth h c) w)) !! "message" = Some (VString m) ->
  has_pool h' -> has_secret h' -> well_formed auth c' req wt addr ->
  vr_Nonce req = n ->
  signed_over auth wt addr req m = true ->
  let out := run (Verify auth h' c') w' in
  (exists rest,
      calls (snd out) =
        (calls w'
         ++ [ verify_call auth wt addr req m; consume_call wt addr req ]
         ++ rest)%list)
  /\ fst out <> error_response StatusUnauthorized "invalid_signature".
Proof.
  intros Hst Hn Hm Hp Hs Hwf Hreq Hsig out. subst out.
  pose proof (Nonce_ok_message auth h c w n m Hst Hn Hm) as ->.
  subst n.
  assert (Hc : signed_canonical auth wt addr req = true) by exact Hsig.
  assert (Hany : signed_canonical auth wt addr req
                 || signed_legacy auth wt addr req = true)
    by (rewrite Hc; reflexivity).
  rewrite (Verify_signed auth h' c' req wt addr w' Hp Hs Hwf Hany).
  cbn zeta. unfold renderings_tried. rewrite Hc.
  destruct (ConsumeNonceAndUpsertUser auth _ _ _ _ _ _) as [r s].
  destruct r as [res|msg].
  - destruct (IssueJWT auth _ _ _ _ _ _ _) as [token|e];
      cbn [fst snd calls]; (split; [exists [issue_call h' res]; reflexivity|]).
    + intros H. apply (f_equal status) in H. discriminate H.
    + intros H. apply error_response_inj in H as [H _]. discriminate H.
  - cbn [fst snd calls]. split; [exists []; reflexivity|].
    intros H. destruct (String.eqb msg "invalid_or_expired_nonce");
      apply error_response_inj in H as [H1 H2]; discriminate.
Qed.

(** X6.  Every answer of [Verify], for every handler, request and world, is
    one of its ten error responses, or is a 200 whose body is exactly the
    token, the user and the wallet; a bearer token appears in no error
    response. *)
Theorem Verify_answers_enumerated (auth : AuthPkg) (h : AuthHandler)
    (c : Ctx verifyRequest) (w : World) :
  let r := fst (run (Verify auth h c) w) in
  (exists code msg,
      r = error_response code msg /\ In (code, msg) Verify_errors
      /\ code <> StatusOK /\ bearer_token r = None)
  \/ (exists token res,
        r = {| status := StatusOK; body := login_body token res |}
        /\ bearer_token r = Some (VToken token)).
Proof.
  cbn zeta.
  destruct (db_missing h) eqn:Hp.
  { left. exists StatusServiceUnavailable, "db_not_configured".
    open_handler. rewrite Hp. cbn. repeat split; [tauto | discriminate]. }
  destruct (String.eqb (JWTSecret (cfg h)) "") eqn:Hs.
  { left. exists StatusServiceUnavailable, "jwt_not_configured".
    open_handler. rewrite Hp, Hs. cbn.
    repeat split; [tauto | discriminate]. }
  destruct (BodyParser c) as [req|e] eqn:Hb.
  2:{ left. exists StatusBadRequest, "invalid_json".
      open_handler. rewrite Hp, Hs, Hb. cbn.
      repeat split; [tauto | discriminate]. }
  destruct (NormalizeWalletType auth (vr_WalletType req)) as [wt|e] eqn:Hw.
  2:{ left. exists StatusBadRequest, "invalid_wallet_type".
      open_handler. rewrite Hp, Hs, Hb, Hw. cbn.
      repeat split; [tauto | discriminate]. }
  destruct (NormalizeAddress auth wt (vr_Address req)) as [addr|e] eqn:Ha.
  2:{ left. exists StatusBadRequest, "invalid_address".
      open_handler. rewrite Hp, Hs, Hb, Hw, Ha. cbn.
      repeat split; [tauto | discriminate]. }
  destruct (String.eqb (vr_Nonce req) "") eqn:Hn.
  { left. exists StatusBadRequest, "missing_nonce_or_signature".
    open_handler. rewrite Hp, Hs, Hb, Hw, Ha, Hn. cbn.
    repeat split; [tauto | discriminate]. }
  destruct (String.eqb (vr_Signature req) "") eqn:Hg.
  { left. exists StatusBadRequest, "missing_nonce_or_signature".
    open_handler. rewrite Hp, Hs, Hb, Hw, Ha, Hn, Hg. cbn.
    repeat split; [tauto | discriminate]. }
  assert (Hwf : well_formed auth c req wt addr) by (repeat split; assumption).
  destruct (signed_canonical auth wt addr req
            || signed_legacy auth wt addr req) eqn:Hsig.
  - rewrite (Verify_signed auth h c req wt addr w Hp Hs Hwf Hsig). cbn zeta.
    destruct (ConsumeNonceAndUpsertUser auth _ _ _ _ _ _) as [r s].
    destruct r as [res|msg].
    + destruct (IssueJWT auth _ _ _ _ _ _ _) as [token|e]; cbn [fst].
      * right. exists token, res. split; reflexivity.
      * left. exists StatusInternalServerError, "token_issue_failed".
        cbn. repeat split; [tauto | discriminate].
    + cbn [fst]. left.
      destruct (String.eqb msg "invalid_or_expired_nonce").
      * exists StatusUnauthorized, "invalid_or_expired_nonce".
        cbn. repeat split; [tauto | discriminate].
      * exists StatusInternalServerError, "auth_failed".
        cbn. repeat split; [tauto | discriminate].
  - apply orb_false_iff in Hsig as [Hc Hl].
    rewrite (Verify_unsigned auth h c req wt addr w Hp Hs Hwf Hc Hl).
    left. exists StatusUnauthorized, "invalid_signature".
    cbn. repeat split; [tauto | discriminate].
Qed.

(** X7.  Every answer of [Nonce] is one of its five error responses or a
    200, and every answer of [Me] is one of its two error responses or a
    200; neither ever carries a bearer token. *)
Theorem Nonce_and_Me_answers_enumerated (auth : AuthPkg)
    (github : GithubPkg) (uuid_Parse : string -> result UUID)
    (QueryRowScan : Env -> UUID -> Store -> option string * option string)
    {Req : Type} (h : AuthHandler) (cn : Ctx nonceRequest) (cm : Ctx Req)
    (w : World) :
  let rn := fst (run (Nonce auth h cn) w) in
  let rm := fst (run (Me github uuid_Parse QueryRowScan h cm) w) in
  ((exists code msg,
       rn = error_response code msg /\ In (code, msg) Nonce_errors)
   \/ status rn = StatusOK)
  /\ bearer_token rn = None
  /\ ((exists code msg,
          rm = error_response code msg /\ In (code, msg) Me_errors)
      \/ status rm = StatusOK)
  /\ bearer_token rm = None.
Proof.
  cbn zeta.
  assert (HN : ((exists code msg,
                    fst (run (Nonce auth h cn) w) = error_response code msg
                    /\ In (code, msg) Nonce_errors)
                \/ status (fst (run (Nonce auth h cn) w)) = StatusOK)
               /\ bearer_token (fst (run (Nonce auth h cn) w)) = None).
  { destruct (Nonce_inv auth h cn w)
      as [(code & msg & Hrun & Hin) | (req & wt & addr & Hp & Hwf)].
    - rewrite Hrun. cbn [fst]. split; [|reflexivity].
      left. exists code, msg. split; [reflexivity|].
      cbn in Hin. cbn. tauto.
    - rewrite (Nonce_run auth h cn req wt addr w Hp Hwf).
      destruct (CreateNonce auth _ _ _ _ _) as [r s].
      destruct r as [n|e]; cbn [fst].
      + split; [right; reflexivity | reflexivity].
      + split; [|reflexivity].
        left. exists StatusInternalServerError, "nonce_create_failed".
        split; [reflexivity | cbn; tauto]. }
  destruct HN as [HN1 HN2]. split; [exact HN1|]. split; [exact HN2|].
  destruct (db_missing h) eqn:Hp.
  { open_handler. rewrite Hp. cbn [fst]. split; [|reflexivity].
    left. exists StatusServiceUnavailable, "db_not_configured".
    split; [reflexivity | cbn; tauto]. }
  destruct (uuid_Parse (default "" (LocalUserID cm))) as [userID|e] eqn:Hu.
  - destruct (Me_run github uuid_Parse QueryRowScan h cm userID w Hp Hu)
      as (_ & Hst & profile & Hbody).
    split; [right; exact Hst|].
    unfold bearer_token. rewrite Hbody.
    destruct profile as [v|]; [rewrite lookup_insert_ne by discriminate|];
      reflexivity.
  - open_handler. rewrite Hp, Hu. cbn [fst]. split; [|reflexivity].
    left. exists StatusUnauthorized, "invalid_user".
    split; [reflexivity | cbn; tauto].
Qed.

(** X8.  [Verify] puts a bearer token in its answer only after the
    transaction succeeded: whenever the answer carries a token, the request
    was well-formed and signed, the transaction returned a result and the
    store is as the transaction left it, and the token is the one
    [IssueJWT] returned for the user and wallet of that result with a
    lifetime of fifteen minutes. *)
Theorem token_only_after_transaction (auth : AuthPkg) (h : AuthHandler)
    (c : Ctx verifyRequest) (w : World) (v : Value) :
  bearer_token (fst (run (Verify auth h c) w)) = Some v ->
  exists req wt addr res token,
    well_formed auth c req wt addr
    /\ signed_canonical auth wt addr req
       || signed_legacy auth wt addr req = true
    /\ auth.(ConsumeNonceAndUpsertUser) (Context c) wt addr (vr_Nonce req)
         (vr_PublicKey req) (store w)
       = (Ok res, store (snd (run (Verify auth h c) w)))
    /\ auth.(IssueJWT) (Context c) (JWTSecret (cfg h)) (ID (LoginUser res))
         (Role (LoginUser res)) (WalletType_ (Wallet res))
         (Address (Wallet res)) (15 * Minute) = Ok token
    /\ v = VToken token
    /\ status (fst (run (Verify auth h c) w)) = StatusOK.
Proof.
  intros Htok.
  destruct (Verify_inv auth h c w)
    as [(code & msg & extra & Hrun & _)
       | (req & wt & addr & Hp & Hs & Hwf & Hsig)].
  - rewrite Hrun in Htok. discriminate Htok.
  - exists req, wt, addr.
    rewrite (Verify_signed auth h c req wt addr w Hp Hs Hwf Hsig) in *.
    cbn zeta in *.
    destruct (ConsumeNonceAndUpsertUser auth _ _ _ _ _ _) as [r s].
    destruct r as [res|msg].
    + destruct (IssueJWT auth _ _ _ _ _ _ _) as [token|e] eqn:Hi.
      * exists res, token. cbn [fst snd store status] in *.
        assert (Hv : Some (VToken token) = Some v) by exact Htok.
        split; [exact Hwf|]. split; [exact Hsig|]. split; [reflexivity|].
        split; [exact Hi|]. split; [congruence | reflexivity].
      * discriminate Htok.
    + cbn [fst] in Htok.
      destruct (String.eqb msg "invalid_or_expired_nonce"); discriminate Htok.
Qed.

(** X9.  [Verify] makes at most one storage call, and it is the
    transaction: the calls it adds to the log either include no call that
    receives the pool, and then the store is unchanged, or include exactly
    one, the [ConsumeNonceAndUpsertUser] call for the request. *)
Theorem Verify_storage_is_one_transaction (auth : AuthPkg) (h : AuthHandler)
    (c : Ctx verifyRequest) (w : World) :
  let out := run (Verify auth h c) w in
  exists added,
    calls (snd out) = (calls w ++ added)%list
    /\ ((filter (fun k => uses_pool k = true) added = []
         /\ store (snd out) = store w)
        \/ (exists req wt addr,
              BodyParser c = Ok req
              /\ filter (fun k => uses_pool k = true) added =
                   [consume_call wt addr req])).
Proof.
  cbn zeta.
  destruct (Verify_inv auth h c w)
    as [(code & msg & extra & Hrun & _ & Hextra)
       | (req & wt & addr & Hp & Hs & Hwf & Hsig)].
  - rewrite Hrun. cbn [snd calls store]. exists extra.
    split; [reflexivity|]. left. split; [|reflexivity].
    clear Hrun. induction extra as [|k extra IH]; [reflexivity|].
    cbn in Hextra. apply andb_true_iff in Hextra as [Hk Hrest].
    destruct k; try discriminate Hk. cbn. exact (IH Hrest).
  - rewrite (Verify_signed auth h c req wt addr w Hp Hs Hwf Hsig). cbn zeta.
    assert (Htried : filter (fun k => uses_pool k = true)
                       (renderings_tried auth wt addr req) = []).
    { unfold renderings_tried.
      destruct (signed_canonical auth wt addr req); reflexivity. }
    destruct (ConsumeNonceAndUpsertUser auth _ _ _ _ _ _) as [r s].
    destruct r as [res|msg].
    + destruct (IssueJWT auth _ _ _ _ _ _ _) as [token|e];
        cbn [snd calls store];
        (eexists; split; [reflexivity|]; right; exists req, wt, addr;
         split; [apply Hwf|]; rewrite filter_app, Htried; reflexivity).
    + cbn [snd calls store].
      eexists; split; [reflexivity|]. right. exists req, wt, addr.
      split; [apply Hwf|]. rewrite filter_app, Htried. reflexivity.
Qed.

(** X10.  When the user id among the locals does not parse as a UUID (an
    absent local is read as the empty string), [Me] answers
    [invalid_user] (401) and leaves the world as it was: no vault lookup,
    no provider call, no query. *)
Theorem unparsable_user_is_invalid_user (github : GithubPkg)
    (uuid_Parse : string -> result UUID)
    (QueryRowScan : Env -> UUID -> Store -> option string * option string)
    {Req : Type} (h : AuthHandler) (c : Ctx Req) (w : World) (e : string) :
  has_pool h ->
  uuid_Parse (default "" (LocalUserID c)) = Err e ->
  run (Me github uuid_Parse QueryRowScan h c) w =
    (error_response StatusUnauthorized "invalid_user", w).
Proof.
  unfold has_pool. intros Hp Hu. open_handler. rewrite Hp, Hu. reflexivity.
Qed.

(** X11.  Once the user id parsed, [Me] first asks the vault for that user
    with the configured key; it calls the provider only when the vault
    answered, and with the access token the vault returned; it queries the
    cached row exactly when the vault or the provider failed.  It makes no
    other call, and the store is unchanged. *)
Theorem Me_calls_in_order (github : GithubPkg)
    (uuid_Parse : string -> result UUID)
    (QueryRowScan : Env -> UUID -> Store -> option string * option string)
    {Req : Type} (h : AuthHandler) (c : Ctx Req) (userID : UUID) (w : World) :
  has_pool h ->
  uuid_Parse (default "" (LocalUserID c)) = Ok userID ->
  let key := TokenEncKeyB64 (cfg h) in
  let out := run (Me github uuid_Parse QueryRowScan h c) w in
  let vault := github.(GetLinkedAccount) (Context c) userID key (store w) in
  store (snd out) = store w
  /\ calls (snd out) =
       (calls w
        ++ CallGetLinkedAccount userID key
           :: match vault with
              | Err _ => [ CallQueryRow userID ]
              | Ok la =>
                  CallGetUser (AccessToken la)
                  :: match (github.(NewClient)).(GetUser) (Context c)
                             (AccessToken la) with
                     | Ok _ => []
                     | Err _ => [ CallQueryRow userID ]
                     end
              end)%list
  /\ (In (CallQueryRow userID) (drop (length (calls w)) (calls (snd out)))
      <-> github_unavailable github (Context c) userID key (store w)).
Proof.
  intros Hp Hu key out vault. subst key out vault.
  destruct (Me_run github uuid_Parse QueryRowScan h c userID w Hp Hu)
    as (Hworld & _ & _).
  cbn zeta in Hworld. rewrite Hworld. cbn [store calls snd].
  split; [reflexivity|]. split; [reflexivity|].
  rewrite drop_app_length. unfold Me_calls, github_unavailable.
  destruct (GetLinkedAccount github _ _ _ _) as [la|e] eqn:Hvault.
  - destruct (GetUser _ _ _) as [u|e'] eqn:Hprov.
    + split.
      * intros [H | [H | []]]; discriminate H.
      * intros [[e He] | (la' & e & Hla & He)]; [discriminate He|].
        injection Hla as <-. congruence.
    + split.
      * intros _. right. exists la, e'. split; [reflexivity | exact Hprov].
      * intros _. cbn. tauto.
  - split.
    + intros _. left. exists e. reflexivity.
    + intros _. cbn. tauto.
Qed.

(** X12.  Once the user id parsed, [Me] answers 200 on every path; the
    body holds the [id] string as the locals gave it and the [role], and no
    key other than [id], [role] and [github]. *)
Theorem Me_answers_200 (github : GithubPkg)
    (uuid_Parse : string -> result UUID)
    (QueryRowScan : Env -> UUID -> Store -> option string * option string)
    {Req : Type} (h : AuthHandler) (c : Ctx Req) (userID : UUID) (w : World) :
  has_pool h ->
  uuid_Parse (default "" (LocalUserID c)) = Ok userID ->
  let r := fst (run (Me github uuid_Parse QueryRowScan h c) w) in
  status r = StatusOK
  /\ body r !! "id" = Some (VString (default "" (LocalUserID c)))
  /\ body r !! "role" = Some (VString (default "" (LocalRole c)))
  /\ (forall k, is_Some (body r !! k) ->
                k = "id" \/ k = "role" \/ k = "github").
Proof.
  intros Hp Hu r. subst r.
  destruct (Me_run github uuid_Parse QueryRowScan h c userID w Hp Hu)
    as (_ & Hst & profile & Hbody).
  cbn zeta in Hst, Hbody. rewrite Hbody.
  assert (Hid : forall k, is_Some (identity_fields c !! k) ->
                          k = "id" \/ k = "role").
  { intros k [v Hv]. unfold identity_fields, fiber_Map in Hv. cbn in Hv.
    destruct (decide (k = "id")) as [->|Hne1]; [left; reflexivity|].
    destruct (decide (k = "role")) as [->|Hne2]; [right; reflexivity|].
    rewrite lookup_insert_ne in Hv by congruence.
    rewrite lookup_insert_ne in Hv by congruence.
    rewrite lookup_empty in Hv. discriminate Hv. }
  split; [exact Hst|].
  destruct profile as [v|].
  - split; [rewrite lookup_insert_ne by discriminate; reflexivity|].
    split; [rewrite lookup_insert_ne by discriminate; reflexivity|].
    intros k Hk.
    destruct (decide (k = "github")) as [->|Hne]; [tauto|].
    rewrite lookup_insert_ne in Hk by congruence.
    destruct (Hid k Hk); tauto.
  - split; [reflexivity|]. split; [reflexivity|].
    intros k Hk. destruct (Hid k Hk); tauto.
Qed.

(** ** Friendly error messages *)

Lemma prefix_app (p s : string) :
  String.prefix p s = true <-> exists rest, s = p ++ rest.
Proof.
  revert s. induction p as [|a p IH]; intros s.
  - split; [intros _; exists s; reflexivity | intros _; destruct s; reflexivity].
  - destruct s as [|b s]; cbn.
    + split; [discriminate | intros [rest H]; discriminate H].
    + destruct (ascii_dec a b) as [->|Hne].
      * rewrite IH. split; intros [rest H]; exists rest.
        -- rewrite H. reflexivity.
        -- injection H as H. exact H.
      * split; [discriminate|]. intros [rest H]. injection H as H1 H2.
        congruence.
Qed.

Lemma includes_occurs (s sub : string) :
  errorHandler.includes s sub = true <-> errorHandler.occurs_in sub s.
Proof.
  unfold errorHandler.occurs_in. split.
  - induction s as [|c s IH]; intros H;
      cbn [errorHandler.includes] in H; apply orb_true_iff in H.
    + destruct H as [H|H]; [|discriminate H].
      apply prefix_app in H as [rest ->]. exists "", rest. reflexivity.
    + destruct H as [H|H].
      * apply prefix_app in H as [rest ->]. exists "", rest. reflexivity.
      * destruct (IH H) as (before & after & ->).
        exists (String c before), after. reflexivity.
  - intros (before & after & ->).
    induction before as [|c before IH].
    + assert (H : String.prefix sub ("" ++ sub ++ after) = true)
        by (apply prefix_app; exists after; reflexivity).
      change ("" ++ sub ++ after) with (sub ++ after) in *.
      destruct (sub ++ after); cbn [errorHandler.includes];
        rewrite H; reflexivity.
    + change (String c before ++ sub ++ after)
        with (String c (before ++ sub ++ after)).
      cbn [errorHandler.includes]. rewrite IH. apply orb_true_r.
Qed.

Lemma includes_absent (s sub : string) :
  errorHandler.includes s sub = false <-> ~ errorHandler.occurs_in sub s.
Proof.
  rewrite <- includes_occurs.
  destruct (errorHandler.includes s sub); split; congruence.
Qed.

(** The function on an argument whose message is the string [text]: it
    returns, and what it returns is decided by the tests on [text]. *)
Lemma friendly_of_text (e : errorHandler.JsValue) (text : string) :
  errorHandler.message_of e = Some text ->
  errorHandler.getUserFriendlyError e =
    errorHandler.Returns
      (if errorHandler.includes text "Network error"
          || errorHandler.includes text "fetch"
          || errorHandler.includes text "Failed to fetch"
          || errorHandler.includes text "Unable to connect"
       then "Unable to connect to the server. Please check your internet connection and try again."
       else if errorHandler.includes text "Authentication failed"
               || errorHandler.includes text "Unauthorized"
               || errorHandler.includes text "401"
       then "Your session has expired. Please sign in again."
       else if errorHandler.includes text "500"
               || errorHandler.includes text "Internal Server Error"
               || errorHandler.includes text "server error"
       then "Our servers are experiencing issues. Please try again in a few moments."
       else if errorHandler.includes text "404"
               || errorHandler.includes text "Not Found"
               || errorHandler.includes text "not found"
       then "The requested resource could not be found."
       else if errorHandler.includes text "timeout"
               || errorHandler.includes text "Timeout"
               || errorHandler.includes text "timed out"
       then "The request took too long. Please try again."
       else if errorHandler.includes text "Invalid response"
               || errorHandler.includes text "Invalid response format"
       then "We received an unexpected response from the server. Please try again."
       else if errorHandler.includes text "API request failed"
               || errorHandler.includes text "request failed"
       then "Unable to complete your request. Please try again."
       else "Something went wrong. Please try again later.").
Proof.
  intros He.
  assert (Hm : errorHandler.getUserFriendlyError e
               = errorHandler.getUserFriendlyError (errorHandler.Thrown text))
    by (destruct e; cbn [errorHandler.message_of] in He;
        first [discriminate He | injection He as ->; reflexivity]).
  rewrite Hm.
  cbv beta iota zeta delta
    [errorHandler.getUserFriendlyError errorHandler.errorMessage_of
     errorHandler.test errorHandler.or_else errorHandler.if_return].
  ask_in_order ltac:(fun k => destruct (errorHandler.includes text k))
    ltac:(reflexivity).
Qed.

Lemma first_answer_none (answers : string -> option bool)
    (keys : list string) :
  errorHandler.first_answer answers keys = None
  <-> errorHandler.throws_at answers keys.
Proof.
  unfold errorHandler.throws_at.
  induction keys as [|k keys IH]; cbn [errorHandler.first_answer].
  - split; [discriminate|].
    intros (before & k & after & H & _). destruct before; discriminate H.
  - destruct (answers k) as [[|]|] eqn:Hk.
    + split; [discriminate|].
      intros (before & k' & after & H & Hb & Hn).
      destruct before as [|b before]; injection H as H1 H2; subst.
      * congruence.
      * inversion Hb; congruence.
    + rewrite IH. split.
      * intros (before & k' & after & H & Hb & Hn).
        exists (k :: before), k', after. subst keys.
        split; [reflexivity|]. split; [constructor; assumption | exact Hn].
      * intros (before & k' & after & H & Hb & Hn).
        destruct before as [|b before]; injection H as H1 H2; subst.
        -- congruence.
        -- exists before, k', after. inversion Hb.
           split; [reflexivity|]. split; assumption.
    + split; [|reflexivity]. intros _. exists [], k, keys.
      split; [reflexivity|]. split; [constructor | exact Hk].
Qed.

(** On an [Error] whose message is not a string the function throws
    exactly when the first call of [includes] that does not answer
    [false] throws. *)
Lemma friendly_of_answers (answers : string -> option bool) :
  errorHandler.getUserFriendlyError (errorHandler.ErrorWith answers)
    = errorHandler.Throws
  <-> errorHandler.first_answer answers
        (errorHandler.network_keywords ++ errorHandler.other_keywords)
      = None.
Proof.
  cbv beta iota zeta delta
    [errorHandler.getUserFriendlyError errorHandler.errorMessage_of
     errorHandler.test errorHandler.or_else errorHandler.if_return
     errorHandler.first_answer errorHandler.network_keywords
     errorHandler.other_keywords app].
  ask_in_order ltac:(fun k => destruct (answers k) as [[|]|])
    ltac:(split; intros H; first [reflexivity | discriminate H]).
Qed.

(** X13.  The text of the error itself is never shown: whenever the
    function returns, it returns one of nine fixed texts, and the short
    "Something went wrong. Please try again." exactly on a falsy argument.
    It returns on every falsy argument and on every argument whose message
    is a string.  It throws on the arguments it cannot read, and on an
    [Error] whose message is not a string when a call of [includes] throws
    after all the calls before it answered [false]; on no other. *)
Theorem friendly_error_is_a_fixed_text (e : errorHandler.JsValue) :
  (forall text,
     errorHandler.getUserFriendlyError e = errorHandler.Returns text ->
     In text errorHandler.friendly_messages)
  /\ (errorHandler.getUserFriendlyError e
        = errorHandler.Returns "Something went wrong. Please try again."
      <-> e = errorHandler.Falsy)
  /\ (e = errorHandler.Falsy \/ is_Some (errorHandler.message_of e) ->
      exists text,
        errorHandler.getUserFriendlyError e = errorHandler.Returns text)
  /\ (errorHandler.getUserFriendlyError e = errorHandler.Throws
      <-> e = errorHandler.Unreadable
          \/ exists answers,
               e = errorHandler.ErrorWith answers
               /\ errorHandler.throws_at answers
                    (errorHandler.network_keywords
                     ++ errorHandler.other_keywords)%list).
Proof.
  assert (Htext : forall e' text,
             errorHandler.message_of e' = Some text ->
             (forall t,
                errorHandler.getUserFriendlyError e' = errorHandler.Returns t ->
                In t errorHandler.friendly_messages)
             /\ (errorHandler.getUserFriendlyError e'
                   = errorHandler.Returns
                       "Something went wrong. Please try again."
                 -> False)
             /\ (exists t,
                   errorHandler.getUserFriendlyError e'
                   = errorHandler.Returns t)
             /\ errorHandler.getUserFriendlyError e' <> errorHandler.Throws).
  { intros e' text He'. rewrite (friendly_of_text e' text He').
    split; [|split; [|split]].
    - intros t [= <-]. split_tests; cbn; tauto.
    - split_tests; discriminate.
    - eexists. reflexivity.
    - discriminate. }
  destruct e as [|m|answers|m|].
  - split; [intros text [= <-]; cbn; tauto|].
    split; [split; reflexivity|].
    split; [intros _; eexists; reflexivity|].
    split; [discriminate|]. intros [H|(a & H & _)]; discriminate H.
  - destruct (Htext (errorHandler.ErrorObject m) m eq_refl)
      as (H1 & H2 & H3 & H4).
    split; [exact H1|]. split; [split; [intros H; destruct (H2 H) | discriminate]|].
    split; [intros _; exact H3|].
    split; [intros H; destruct (H4 H)|].
    intros [H|(a & H & _)]; discriminate H.
  - split; [|split; [|split]].
    + cbv beta iota zeta delta
        [errorHandler.getUserFriendlyError errorHandler.errorMessage_of
         errorHandler.test errorHandler.or_else errorHandler.if_return].
      ask_in_order ltac:(fun k => destruct (answers k) as [[|]|])
        ltac:(intros text H;
              first [discriminate H | injection H as <-; cbn; tauto]).
    + split; [|discriminate].
      cbv beta iota zeta delta
        [errorHandler.getUserFriendlyError errorHandler.errorMessage_of
         errorHandler.test errorHandler.or_else errorHandler.if_return].
      ask_in_order ltac:(fun k => destruct (answers k) as [[|]|])
        ltac:(intros H; discriminate H).
    + intros [H|[x H]]; discriminate H.
    + rewrite friendly_of_answers, first_answer_none. split.
      * intros H. right. exists answers. split; [reflexivity | exact H].
      * intros [H|(a & H & Ha)]; [discriminate H|].
        injection H as <-. exact Ha.
  - destruct (Htext (errorHandler.Thrown m) m eq_refl)
      as (H1 & H2 & H3 & H4).
    split; [exact H1|]. split; [split; [intros H; destruct (H2 H) | discriminate]|].
    split; [intros _; exact H3|].
    split; [intros H; destruct (H4 H)|].
    intros [H|(a & H & _)]; discriminate H.
  - split; [intros text H; discriminate H|].
    split; [split; discriminate|].
    split; [intros [H|[x H]]; discriminate H|].
    split; [intros _; left; reflexivity | reflexivity].
Qed.

(** X14.  The network test comes first: a text in which "Network error",
    "fetch", "Failed to fetch" or "Unable to connect" occurs anywhere is
    answered with the connection message, whatever else (a 401, a 500, a
    timeout) it mentions. *)
Theorem network_keyword_wins (e : errorHandler.JsValue) (text kw : string) :
  errorHandler.message_of e = Some text ->
  In kw errorHandler.network_keywords ->
  errorHandler.occurs_in kw text ->
  errorHandler.getUserFriendlyError e
  = errorHandler.Returns
      "Unable to connect to the server. Please check your internet connection and try again.".
Proof.
  intros He Hkw Hocc. rewrite (friendly_of_text e text He).
  apply includes_occurs in Hocc. cbn in Hkw.
  destruct Hkw as [<-|[<-|[<-|[<-|[]]]]]; rewrite Hocc;
    rewrite ?orb_true_r; reflexivity.
Qed.

(** X15.  A text that mentions "Authentication failed", "Unauthorized" or
    "401" and none of the network keywords is answered with the
    session-expired message, also when it mentions a server error, a 404
    or a timeout as well. *)
Theorem session_keyword_is_second (e : errorHandler.JsValue)
    (text kw : string) :
  errorHandler.message_of e = Some text ->
  (forall n, In n errorHandler.network_keywords ->
             ~ errorHandler.occurs_in n text) ->
  In kw [ "Authentication failed"; "Unauthorized"; "401" ] ->
  errorHandler.occurs_in kw text ->
  errorHandler.getUserFriendlyError e
  = errorHandler.Returns "Your session has expired. Please sign in again.".
Proof.
  intros He Hnet Hkw Hocc. rewrite (friendly_of_text e text He).
  apply includes_occurs in Hocc.
  assert (H1 : errorHandler.includes text "Network error" = false)
    by (apply includes_absent, Hnet; cbn; tauto).
  assert (H2 : errorHandler.includes text "fetch" = false)
    by (apply includes_absent, Hnet; cbn; tauto).
  assert (H3 : errorHandler.includes text "Failed to fetch" = false)
    by (apply includes_absent, Hnet; cbn; tauto).
  assert (H4 : errorHandler.includes text "Unable to connect" = false)
    by (apply includes_absent, Hnet; cbn; tauto).
  rewrite H1, H2, H3, H4.
  cbn [orb].
  destruct Hkw as [<-|[<-|[<-|[]]]]; rewrite Hocc;
    rewrite ?orb_true_r; reflexivity.
Qed.

(** X16.  For a truthy argument the answer is the generic "Something went
    wrong. Please try again later." exactly when none of the twenty
    substrings the function looks for occurs in the text. *)
Theorem unrecognized_text_gets_generic_answer (e : errorHandler.JsValue)
    (text : string) :
  errorHandler.message_of e = Some text ->
  (errorHandler.getUserFriendlyError e
     = errorHandler.Returns "Something went wrong. Please try again later."
   <-> forall kw,
         In kw (errorHandler.network_keywords
                ++ errorHandler.other_keywords)%list ->
         ~ errorHandler.occurs_in kw text).
Proof.
  intros He. rewrite (friendly_of_text e text He). split.
  - split_tests; try discriminate. intros _ kw Hkw.
    repeat match goal with
           | H : (_ || _) = false |- _ =>
               apply orb_false_iff in H; destruct H
           end.
    apply includes_absent. cbn in Hkw.
    repeat (destruct Hkw as [<-|Hkw]; [assumption|]). destruct Hkw.
  - intros Hnone.
    repeat match goal with
           | |- context [errorHandler.includes text ?kw] =>
               let H := fresh in
               assert (H : errorHandler.includes text kw = false)
                 by (apply includes_absent, Hnone; cbn; tauto);
               rewrite H; clear H
           end.
    reflexivity.
Qed.

(** ** The profile form *)

Lemma split_from_step (b : bool) (u : N) (s : list N) :
  ProfileTab.split_from b (u :: s) =
    if ProfileTab.is_space u
    then if b then ProfileTab.split_from true s
         else [] :: ProfileTab.split_from true s
    else match ProfileTab.split_from false s with
         | part :: parts => (u :: part) :: parts
         | [] => [[u]]
         end.
Proof. reflexivity. Qed.

Lemma split_from_cons (b : bool) (s : list N) :
  exists part parts, ProfileTab.split_from b s = part :: parts.
Proof.
  revert b. induction s as [|u s IH]; intros b; cbn.
  - eauto.
  - destruct (ProfileTab.is_space u).
    + destruct b; [apply IH | eauto].
    + destruct (IH false) as (part & parts & ->). eauto.
Qed.

Lemma split_from_spaceless (b : bool) (s : list N) :
  Forall ProfileTab.spaceless (ProfileTab.split_from b s).
Proof.
  revert b. induction s as [|u s IH]; intros b; cbn.
  - repeat constructor.
  - destruct (ProfileTab.is_space u) eqn:Hu.
    + destruct b; [apply IH|]. constructor; [constructor | apply IH].
    + specialize (IH false).
      destruct (ProfileTab.split_from false s) as [|part parts].
      * repeat constructor. exact Hu.
      * inversion IH; subst. constructor; [|assumption].
        constructor; assumption.
Qed.

(** The first part of a split is the text before the first white space. *)
Lemma split_from_head (s part : list N) (parts : list (list N)) :
  ProfileTab.split_from false s = part :: parts ->
  exists tail,
    s = (part ++ tail)%list
    /\ (tail = [] \/ exists u rest, tail = u :: rest
                                   /\ ProfileTab.is_space u = true).
Proof.
  revert part parts. induction s as [|u s IH]; intros part parts; cbn.
  - intros [= <- <-]. exists []. split; [reflexivity | left; reflexivity].
  - destruct (ProfileTab.is_space u) eqn:Hu.
    + intros [= <- <-]. exists (u :: s). split; [reflexivity|].
      right. eauto.
    + destruct (ProfileTab.split_from false s) as [|p ps] eqn:Hs.
      * intros [= <- <-]. destruct (split_from_cons false s) as (p & ps & H).
        congruence.
      * intros [= <- <-]. destruct (IH p ps eq_refl) as (tail & -> & Ht).
        exists tail. split; [reflexivity | exact Ht].
Qed.

Lemma trimStart_decompose (s : list N) :
  exists spaces,
    s = (spaces ++ ProfileTab.trimStart s)%list
    /\ ProfileTab.blank spaces
    /\ (ProfileTab.trimStart s = []
        \/ ProfileTab.starts_with_text (ProfileTab.trimStart s) = true).
Proof.
  induction s as [|u s IH]; cbn.
  - exists []. repeat split; [constructor | left; reflexivity].
  - destruct (ProfileTab.is_space u) eqn:Hu.
    + destruct IH as (spaces & Hs & Hb & Hh).
      exists (u :: spaces). split; [cbn; congruence|].
      split; [constructor; assumption | exact Hh].
    + exists []. split; [reflexivity|]. split; [constructor|].
      right. cbn. rewrite Hu. reflexivity.
Qed.

Lemma ends_with_text_snoc (s : list N) (u : N) :
  ProfileTab.ends_with_text (s ++ [u]) = negb (ProfileTab.is_space u).
Proof.
  induction s as [|v s IH]; [reflexivity|].
  cbn [app ProfileTab.ends_with_text]. rewrite IH.
  destruct (s ++ [u])%list eqn:Hs; [|reflexivity].
  destruct s; discriminate Hs.
Qed.

(** [trim] leaves the text between the leading and the trailing white
    space. *)
Lemma trim_decompose (s : list N) :
  exists leading trailing,
    s = (leading ++ ProfileTab.trim s ++ trailing)%list
    /\ ProfileTab.blank leading /\ ProfileTab.blank trailing
    /\ (ProfileTab.trim s = []
        \/ (ProfileTab.starts_with_text (ProfileTab.trim s) = true
            /\ ProfileTab.ends_with_text (ProfileTab.trim s) = true)).
Proof.
  unfold ProfileTab.trim.
  destruct (trimStart_decompose s) as (leading & Hs & Hlead & Hhead).
  destruct (trimStart_decompose (rev (ProfileTab.trimStart s)))
    as (pre & Hr & Hpre & Hb).
  set (a := ProfileTab.trimStart s) in *.
  set (b := ProfileTab.trimStart (rev a)) in *.
  assert (Ha : a = (rev b ++ rev pre)%list).
  { rewrite <- rev_app_distr, <- Hr, rev_involutive. reflexivity. }
  exists leading, (rev pre).
  split; [rewrite <- Ha; exact Hs|].
  split; [exact Hlead|].
  split; [apply Forall_rev; exact Hpre|].
  destruct Hb as [Hb|Hb]; [left; rewrite Hb; reflexivity|].
  right. destruct b as [|u r] eqn:Hbeq; [discriminate Hb|].
  cbn in Hb. split.
  - destruct Hhead as [Hhead|Hhead].
    + rewrite Hhead in Ha. cbn in Ha.
      destruct (rev r ++ [u])%list eqn:Hx; [destruct (rev r); discriminate Hx|].
      cbn in Ha. discriminate Ha.
    + rewrite Ha in Hhead. cbn [rev] in *.
      destruct (rev r ++ [u])%list eqn:Hx; [destruct (rev r); discriminate Hx|].
      exact Hhead.
  - cbn [rev]. rewrite ends_with_text_snoc. exact Hb.
Qed.

Lemma blank_trimStart (s : list N) :
  ProfileTab.trimStart s = [] <-> ProfileTab.blank s.
Proof.
  induction s as [|u s IH]; cbn.
  - split; [constructor | reflexivity].
  - destruct (ProfileTab.is_space u) eqn:Hu.
    + rewrite IH. split; [constructor; assumption|].
      intros H. inversion H; assumption.
    + split; [discriminate|]. intros H. inversion H; congruence.
Qed.

Lemma blank_trim (s : list N) :
  ProfileTab.trim s = [] <-> ProfileTab.blank s.
Proof.
  destruct (trim_decompose s) as (leading & trailing & Hs & Hl & Ht & Hshape).
  split.
  - intros H. rewrite H in Hs. rewrite Hs. cbn.
    apply Forall_app; split; assumption.
  - intros Hb. destruct Hshape as [H|[Hstart _]]; [exact H|].
    exfalso. rewrite Hs in Hb.
    apply Forall_app in Hb as [_ Hb]. apply Forall_app in Hb as [Hb _].
    destruct (ProfileTab.trim s) as [|u r]; [discriminate Hstart|].
    inversion Hb; subst. cbn in Hstart.
    destruct (ProfileTab.is_space u); discriminate.
Qed.

(** A text that ends with text splits into words, but for the first part
    when it starts with white space. *)
Lemma split_from_words (s : list N) :
  ProfileTab.ends_with_text s = true ->
  Forall ProfileTab.word (ProfileTab.split_from true s)
  /\ exists part parts,
       ProfileTab.split_from false s = part :: parts
       /\ Forall ProfileTab.word parts
       /\ (ProfileTab.starts_with_text s = true -> ProfileTab.word part).
Proof.
  induction s as [|u s IH]; [discriminate|].
  intros Hend.
  destruct s as [|v s'].
  - cbn in Hend. cbn. destruct (ProfileTab.is_space u) eqn:Hu;
      [discriminate Hend|].
    assert (Hw : ProfileTab.word [u]).
    { split; [discriminate | repeat constructor; exact Hu]. }
    split; [constructor; [exact Hw | constructor]|].
    exists [u], []. split; [reflexivity|].
    split; [constructor | intros _; exact Hw].
  - assert (Hend' : ProfileTab.ends_with_text (v :: s') = true) by exact Hend.
    destruct (IH Hend') as (Htrue & part & parts & Hfalse & Hparts & Hpart).
    rewrite (split_from_step true u), (split_from_step false u).
    cbn [ProfileTab.starts_with_text].
    destruct (ProfileTab.is_space u) eqn:Hu.
    + split; [exact Htrue|].
      exists [], (ProfileTab.split_from true (v :: s')).
      split; [reflexivity|]. split; [exact Htrue | discriminate].
    + rewrite Hfalse.
      assert (Hw : ProfileTab.word (u :: part)).
      { split; [discriminate|]. constructor; [exact Hu|].
        pose proof (split_from_spaceless false (v :: s')) as Hsp.
        rewrite Hfalse in Hsp. inversion Hsp; assumption. }
      split; [constructor; assumption|].
      exists (u :: part), parts. repeat split; try assumption; apply Hw.
Qed.

(** The parts of a trimmed name are words, unless the name was blank and
    the only part is empty. *)
Lemma split_trim_words (s : list N) :
  (ProfileTab.blank s /\ ProfileTab.split (ProfileTab.trim s) = [[]])
  \/ (exists first rest,
        ProfileTab.split (ProfileTab.trim s) = first :: rest
        /\ Forall ProfileTab.word (first :: rest)).
Proof.
  destruct (trim_decompose s) as (_ & _ & _ & _ & _ & Hshape).
  destruct Hshape as [Hempty | [Hstart Hend]].
  - left. split; [apply blank_trim; exact Hempty|]. rewrite Hempty. reflexivity.
  - right. destruct (split_from_words _ Hend)
      as (_ & part & parts & Hsplit & Hparts & Hpart).
    exists part, parts. split; [exact Hsplit|].
    constructor; [apply Hpart; exact Hstart | exact Hparts].
Qed.

Lemma split_from_text (b : bool) (s : list N) :
  ProfileTab.starts_with_text s = true ->
  ProfileTab.split_from b s = ProfileTab.split_from false s.
Proof.
  destruct s as [|u s]; [discriminate|]. cbn.
  destruct (ProfileTab.is_space u); [discriminate | reflexivity].
Qed.

Lemma split_from_word_app (p s : list N) :
  ProfileTab.spaceless p ->
  ProfileTab.split_from false (p ++ s) =
    match ProfileTab.split_from false s with
    | q :: qs => (p ++ q)%list :: qs
    | [] => [p]
    end.
Proof.
  intros Hp. induction Hp as [|u p Hu Hp IH]; cbn [app].
  - destruct (split_from_cons false s) as (q & qs & ->). reflexivity.
  - cbn [ProfileTab.split_from]. rewrite Hu, IH.
    destruct (split_from_cons false s) as (q & qs & ->). reflexivity.
Qed.

Lemma join_starts_with_text (sep : list N) (parts : list (list N)) :
  parts <> [] -> Forall ProfileTab.word parts ->
  ProfileTab.starts_with_text (ProfileTab.join sep parts) = true.
Proof.
  intros Hne Hw. destruct parts as [|p rest]; [congruence|].
  inversion Hw as [|? ? [Hp Hsp] _]; subst.
  destruct p as [|u p]; [congruence|].
  inversion Hsp; subst.
  destruct rest; cbn; rewrite H1; reflexivity.
Qed.

(** Joining words with one space and splitting again gives the words. *)
Lemma split_join_words (parts : list (list N)) :
  parts <> [] -> Forall ProfileTab.word parts ->
  ProfileTab.split (ProfileTab.join (ProfileTab.units " ") parts) = parts.
Proof.
  unfold ProfileTab.split.
  induction parts as [|p rest IH]; [congruence|].
  intros _ Hw. inversion Hw as [|? ? [Hp Hsp] Hrest]; subst.
  destruct rest as [|q rest].
  - cbn. rewrite <- (app_nil_r p) at 1.
    rewrite (split_from_word_app p [] Hsp). cbn. rewrite app_nil_r.
    reflexivity.
  - change (ProfileTab.join (ProfileTab.units " ") (p :: q :: rest))
      with (p ++ 32%N :: ProfileTab.join (ProfileTab.units " ") (q :: rest))%list.
    rewrite (split_from_word_app p _ Hsp).
    cbn [ProfileTab.split_from].
    change (ProfileTab.is_space 32) with true. cbn iota.
    rewrite split_from_text
      by (apply join_starts_with_text; [discriminate | exact Hrest]).
    rewrite IH by (try discriminate; exact Hrest).
    rewrite app_nil_r. reflexivity.
Qed.

Lemma trim_prefix (s : list N) :
  exists trailing,
    ProfileTab.trimStart s = (ProfileTab.trim s ++ trailing)%list
    /\ ProfileTab.blank trailing.
Proof.
  unfold ProfileTab.trim.
  destruct (trimStart_decompose (rev (ProfileTab.trimStart s)))
    as (pre & Hr & Hpre & _).
  exists (rev pre). split; [|apply Forall_rev; exact Hpre].
  rewrite <- rev_app_distr, <- Hr, rev_involutive. reflexivity.
Qed.

(** The setters of the other fields leave the name fields, the user and
    the loading flag alone. *)
Lemma set_if_truthy_other (set : list N -> ProfileTab.State -> ProfileTab.State)
    (field : option (list N)) (st : ProfileTab.State) :
  (forall v s, ProfileTab.firstName (set v s) = ProfileTab.firstName s
               /\ ProfileTab.lastName (set v s) = ProfileTab.lastName s
               /\ ProfileTab.currentUser (set v s) = ProfileTab.currentUser s
               /\ ProfileTab.isLoading (set v s) = ProfileTab.isLoading s) ->
  ProfileTab.firstName (ProfileTab.set_if_truthy set field st)
    = ProfileTab.firstName st
  /\ ProfileTab.lastName (ProfileTab.set_if_truthy set field st)
     = ProfileTab.lastName st
  /\ ProfileTab.currentUser (ProfileTab.set_if_truthy set field st)
     = ProfileTab.currentUser st
  /\ ProfileTab.isLoading (ProfileTab.set_if_truthy set field st)
     = ProfileTab.isLoading st.
Proof.
  intros Hset. destruct field as [[|u rest]|]; cbn;
    [repeat split | apply Hset | repeat split].
Qed.

Lemma prefill_name_fields (user : ProfileTab.CurrentUser)
    (g : ProfileTab.Github) (nm : list N) (st : ProfileTab.State) :
  ProfileTab.github user = Some g ->
  ProfileTab.name g = Some nm -> nm <> [] ->
  ProfileTab.firstName (ProfileTab.prefill user st)
    = ProfileTab.firstName (ProfileTab.prefill_name nm st)
  /\ ProfileTab.lastName (ProfileTab.prefill user st)
     = ProfileTab.lastName (ProfileTab.prefill_name nm st).
Proof.
  intros Hg Hn Hne. unfold ProfileTab.prefill. rewrite Hg, Hn. cbn zeta.
  destruct nm as [|u rest]; [congruence|].
  cbn [ProfileTab.set_if_truthy].
  repeat match goal with
         | |- context [ProfileTab.set_if_truthy ?set ?f ?s] =>
             destruct (set_if_truthy_other set f s) as (-> & -> & _ & _);
             [intros v s0; repeat split|]
         end.
  split; reflexivity.
Qed.

(** X17.  When the GitHub name is set and not empty, the first-name field
    is prefilled with its first word: the text of the name after its
    leading white space, up to the next white space.  It holds no white
    space, and it is empty exactly when the name is all white space. *)
Theorem first_name_is_first_word (user : ProfileTab.CurrentUser)
    (g : ProfileTab.Github) (nm : list N) (st : ProfileTab.State) :
  ProfileTab.github user = Some g ->
  ProfileTab.name g = Some nm -> nm <> [] ->
  let first := ProfileTab.firstName (ProfileTab.prefill user st) in
  ProfileTab.spaceless first
  /\ (exists tail,
        ProfileTab.trimStart nm = (first ++ tail)%list
        /\ (tail = [] \/ exists u rest, tail = u :: rest
                                       /\ ProfileTab.is_space u = true))
  /\ (first = [] <-> ProfileTab.blank nm).
Proof.
  intros Hg Hn Hne first. subst first.
  destruct (prefill_name_fields user g nm st Hg Hn Hne) as [-> _].
  unfold ProfileTab.prefill_name, ProfileTab.split.
  destruct (split_from_cons false (ProfileTab.trim nm))
    as (part & parts & Hsplit).
  rewrite Hsplit. cbn zeta.
  assert (Hfirst : ProfileTab.firstName
                     match parts with
                     | [] => ProfileTab.setFirstName part st
                     | _ :: _ =>
                         ProfileTab.setLastName
                           (ProfileTab.join (ProfileTab.units " ") parts)
                           (ProfileTab.setFirstName part st)
                     end = part)
    by (destruct parts; reflexivity).
  rewrite Hfirst. split; [|split].
  - pose proof (split_from_spaceless false (ProfileTab.trim nm)) as H.
    rewrite Hsplit in H. inversion H; assumption.
  - destruct (split_from_head _ _ _ Hsplit) as (tail & Htrim & Htail).
    destruct (trim_prefix nm) as (trailing & Hstart & Hblank).
    exists (tail ++ trailing)%list. split.
    + rewrite Hstart, Htrim, <- app_assoc. reflexivity.
    + destruct Htail as [-> | (u & rest & -> & Hu)].
      * destruct trailing as [|u rest]; [left; reflexivity|].
        right. exists u, rest. split; [reflexivity|].
        inversion Hblank; assumption.
      * right. exists u, (rest ++ trailing)%list. split; [reflexivity|exact Hu].
  - destruct (split_trim_words nm)
      as [[Hblank Hone] | (first & rest & Hs & Hwords)].
    + unfold ProfileTab.split in Hone. rewrite Hone in Hsplit.
      injection Hsplit as <- <-. split; [intros _; exact Hblank | reflexivity].
    + unfold ProfileTab.split in Hs. rewrite Hs in Hsplit.
      injection Hsplit as <- <-.
      inversion Hwords as [|? ? [Hne' _] _]; subst.
      split; [congruence|].
      intros Hblank. apply blank_trim in Hblank.
      rewrite Hblank in Hs. cbn in Hs. congruence.
Qed.

(** X18.  With a name of a single word the last-name field is left as it
    was.  With more words it is prefilled with the remaining words joined
    by single spaces: splitting it again gives those words, and splitting
    first name, a space and last name gives back all words of the name,
    however much white space the name had between them. *)
Theorem last_name_is_the_other_words (user : ProfileTab.CurrentUser)
    (g : ProfileTab.Github) (nm : list N) (st : ProfileTab.State) :
  ProfileTab.github user = Some g ->
  ProfileTab.name g = Some nm -> nm <> [] ->
  let st' := ProfileTab.prefill user st in
  let parts := ProfileTab.split (ProfileTab.trim nm) in
  ((length parts <= 1)%nat ->
   ProfileTab.lastName st' = ProfileTab.lastName st)
  /\ ((1 < length parts)%nat ->
      ProfileTab.lastName st'
        = ProfileTab.join (ProfileTab.units " ") (tail parts)
      /\ ProfileTab.split (ProfileTab.lastName st') = tail parts
      /\ ProfileTab.split
           (ProfileTab.firstName st' ++ ProfileTab.units " "
            ++ ProfileTab.lastName st')%list = parts).
Proof.
  intros Hg Hn Hne st' parts. subst st' parts.
  destruct (prefill_name_fields user g nm st Hg Hn Hne) as [-> ->].
  unfold ProfileTab.prefill_name.
  destruct (split_trim_words nm)
    as [[_ Hone] | (first & rest & Hs & Hwords)].
  - rewrite Hone. cbn. split; [reflexivity | lia].
  - rewrite Hs. cbn zeta. inversion Hwords as [|? ? Hfirst Hrest]; subst.
    destruct rest as [|second rest].
    + cbn. split; [reflexivity | lia].
    + cbn [length tail ProfileTab.lastName ProfileTab.firstName
           ProfileTab.setLastName ProfileTab.setFirstName].
      split; [lia|]. intros _. split; [reflexivity|].
      split; [apply split_join_words; [discriminate | exact Hrest]|].
      apply (split_join_words (first :: second :: rest));
        [discriminate | exact Hwords].
Qed.

(** X19.  When [fetchUser] settles the loading flag is off, whether the
    request failed or not.  A failed request changes nothing else.  A
    successful one stores the user, and sets the location, website and bio
    fields to GitHub's value when that value is defined and not empty, and
    leaves them as they were otherwise: a typed value is never replaced by
    an empty one. *)
Theorem fetch_keeps_what_github_lacks (fetched : result ProfileTab.CurrentUser)
    (st : ProfileTab.State) :
  let st' := ProfileTab.fetchUser fetched st in
  let kept (field : option (list N)) (old : list N) :=
    match field with
    | Some (u :: rest) => u :: rest
    | Some [] | None => old
    end in
  ProfileTab.isLoading st' = false
  /\ (forall e, fetched = Err e ->
        st' = ProfileTab.setIsLoading false st)
  /\ (forall user, fetched = Ok user ->
        ProfileTab.currentUser st' = Some user
        /\ match ProfileTab.github user with
           | None =>
               st' = ProfileTab.setIsLoading false
                       (ProfileTab.setCurrentUser (Some user) st)
           | Some g =>
               ProfileTab.formLocation st'
                 = kept (ProfileTab.location g) (ProfileTab.formLocation st)
               /\ ProfileTab.formWebsite st'
                  = kept (ProfileTab.website g) (ProfileTab.formWebsite st)
               /\ ProfileTab.formBio st'
                  = kept (ProfileTab.bio g) (ProfileTab.formBio st)
           end).
Proof.
  cbn zeta. split; [reflexivity|]. split.
  - intros e ->. reflexivity.
  - intros user ->. unfold ProfileTab.fetchUser, ProfileTab.prefill.
    destruct (ProfileTab.github user) as [g|]; [|split; reflexivity].
    cbn zeta.
    destruct (ProfileTab.name g) as [[|n0 nrest]|];
      destruct (ProfileTab.location g) as [[|l0 lrest]|];
      destruct (ProfileTab.website g) as [[|w0 wrest]|];
      destruct (ProfileTab.bio g) as [[|b0 brest]|];
      cbn [ProfileTab.set_if_truthy];
      try (repeat split; reflexivity);
      unfold ProfileTab.prefill_name;
      (destruct (ProfileTab.split (ProfileTab.trim (n0 :: nrest)))
         as [|first [|second rest]]; repeat split; reflexivity).
Qed.

(** X20.  After [fetchUser] settles the account line is never the loading
    placeholder.  It reads "Not connected / Not connected" when the request
    failed with no user loaded before, or the user has no GitHub profile;
    with a profile it reads the login, " / ", and the email, or the
    login's noreply address when the email is undefined or empty. *)
Theorem account_line_after_fetch (fetched : result ProfileTab.CurrentUser)
    (st : ProfileTab.State) :
  let st' := ProfileTab.fetchUser fetched st in
  ProfileTab.accountLine st' <> None
  /\ (forall e, fetched = Err e -> ProfileTab.currentUser st = None ->
        ProfileTab.accountLine st'
          = Some (ProfileTab.units "Not connected / Not connected"))
  /\ (forall user, fetched = Ok user -> ProfileTab.github user = None ->
        ProfileTab.accountLine st'
          = Some (ProfileTab.units "Not connected / Not connected"))
  /\ (forall user g, fetched = Ok user -> ProfileTab.github user = Some g ->
        ProfileTab.accountLine st'
          = Some (ProfileTab.login g ++ ProfileTab.units " / "
                  ++ match ProfileTab.email g with
                     | Some (u :: rest) => u :: rest
                     | Some [] | None =>
                         ProfileTab.login g
                         ++ ProfileTab.units "@users.noreply.github.com"
                     end)%list).
Proof.
  cbn zeta.
  assert (Huser : forall user,
             ProfileTab.currentUser
               (ProfileTab.prefill user
                  (ProfileTab.setCurrentUser (Some user)
                     (ProfileTab.setIsLoading true st))) = Some user).
  { intros user. unfold ProfileTab.prefill.
    destruct (ProfileTab.github user) as [g|]; [|reflexivity]. cbn zeta.
    destruct (ProfileTab.name g) as [[|n0 nrest]|];
      destruct (ProfileTab.location g) as [[|l0 lrest]|];
      destruct (ProfileTab.website g) as [[|w0 wrest]|];
      destruct (ProfileTab.bio g) as [[|b0 brest]|];
      cbn [ProfileTab.set_if_truthy]; try reflexivity;
      unfold ProfileTab.prefill_name;
      (destruct (ProfileTab.split (ProfileTab.trim (n0 :: nrest)))
         as [|first [|second rest]]; reflexivity). }
  assert (Hline : forall user,
             fetched = Ok user ->
             ProfileTab.accountLine (ProfileTab.fetchUser fetched st) =
               match ProfileTab.github user with
               | Some g =>
                   Some (ProfileTab.login g ++ ProfileTab.units " / "
                         ++ match ProfileTab.email g with
                            | Some (u :: rest) => u :: rest
                            | Some [] | None =>
                                ProfileTab.login g
                                ++ ProfileTab.units "@users.noreply.github.com"
                            end)%list
               | None => Some (ProfileTab.units "Not connected / Not connected")
               end).
  { intros user ->. unfold ProfileTab.accountLine, ProfileTab.fetchUser.
    cbn [ProfileTab.isLoading ProfileTab.setIsLoading
         ProfileTab.currentUser].
    rewrite Huser. destruct user as [i r [g|]]; reflexivity. }
  split; [|split; [|split]].
  - destruct fetched as [user|e].
    + rewrite (Hline user eq_refl).
      destruct (ProfileTab.github user); discriminate.
    + unfold ProfileTab.accountLine. cbn.
      destruct (ProfileTab.currentUser st) as [[i r [g|]]|]; discriminate.
  - intros e -> Hnone. unfold ProfileTab.accountLine. cbn.
    rewrite Hnone. reflexivity.
  - intros user Hf Hg. rewrite (Hline user Hf), Hg. reflexivity.
  - intros user g Hf Hg. rewrite (Hline user Hf), Hg. reflexivity.
Qed.

(** ** The further results on concrete runs *)

(** A server started without a database turns the login down. *)
Lemma missing_pool_answers_503_witness :
  db_missing Cases.no_database = true
  /\ run (Verify (auth_model Scenario.primitives) Cases.no_database
            Scenario.login_request) Scenario.after_nonce
     = (error_response StatusServiceUnavailable "db_not_configured",
        Scenario.after_nonce).
Proof.
  assert (Hp : db_missing Cases.no_database = true) by reflexivity.
  split; [exact Hp|].
  destruct (missing_pool_answers_503 (auth_model Scenario.primitives)
              Scenario.github_up Scenario.uuid_Parse Scenario.QueryRowScan
              Cases.no_database (Scenario.nonce_request 0 "n1")
              Scenario.login_request Scenario.me_request
              Scenario.after_nonce Hp) as (_ & HV & _).
  exact HV.
Defined.

(** A server started without a secret turns the login down but still
    issues nonces. *)
Lemma missing_secret_stops_verify_only_witness :
  JWTSecret (cfg Cases.no_secret) = ""
  /\ run (Verify (auth_model Scenario.primitives) Cases.no_secret
            Scenario.login_request) Scenario.after_nonce
     = (error_response StatusServiceUnavailable "jwt_not_configured",
        Scenario.after_nonce)
  /\ status (fst (run (Nonce (auth_model Scenario.primitives)
                         (with_secret "s3cret" Cases.no_secret)
                         (Scenario.nonce_request 0 "n1")) Scenario.start))
     = status (fst (run (Nonce (auth_model Scenario.primitives)
                           Cases.no_secret
                           (Scenario.nonce_request 0 "n1")) Scenario.start)).
Proof.
  assert (Hp : has_pool Cases.no_secret) by reflexivity.
  assert (Hs : JWTSecret (cfg Cases.no_secret) = "") by reflexivity.
  split; [exact Hs|].
  destruct (missing_secret_stops_verify_only (auth_model Scenario.primitives)
              Scenario.github_up Scenario.uuid_Parse Scenario.QueryRowScan
              Cases.no_secret (Scenario.nonce_request 0 "n1")
              Scenario.login_request Scenario.me_request
              Scenario.after_nonce Hp Hs) as (HV & _).
  split; [exact HV|].
  destruct (missing_secret_stops_verify_only (auth_model Scenario.primitives)
              Scenario.github_up Scenario.uuid_Parse Scenario.QueryRowScan
              Cases.no_secret (Scenario.nonce_request 0 "n1")
              Scenario.login_request Scenario.me_request
              Scenario.start Hp Hs) as (_ & HN).
  destruct (HN "s3cret") as [HN' _]. rewrite HN'. reflexivity.
Defined.

(** A body that is cut short. *)
Lemma undecodable_body_is_invalid_json_witness :
  has_pool Scenario.handler
  /\ run (Verify (auth_model Scenario.primitives) Scenario.handler
            Cases.garbled) Scenario.after_nonce
     = (error_response StatusBadRequest "invalid_json", Scenario.after_nonce).
Proof.
  assert (Hp : has_pool Scenario.handler) by reflexivity.
  split; [exact Hp|].
  destruct (undecodable_body_is_invalid_json
              (auth_model Scenario.primitives) Scenario.github_up
              Scenario.uuid_Parse Scenario.QueryRowScan Scenario.handler
              Scenario.after_nonce Hp) as (_ & HV & _).
  apply (HV Cases.garbled "unexpected end of JSON input"); reflexivity.
Defined.

(** The nonce of the scenario: token [n1], expiring at 600000000000. *)
Lemma nonce_issued_with_ten_minutes_witness :
  nonce_well_formed (auth_model Scenario.primitives)
    (Scenario.nonce_request 0 "n1") Cases.evm_request EVM
    Scenario.evm_address
  /\ body (fst (run (Nonce (auth_model Scenario.primitives) Scenario.handler
                       (Scenario.nonce_request 0 "n1")) Scenario.start))
       !! "expires_at" = Some (VTime 600000000000).
Proof.
  assert (Hp : has_pool Scenario.handler) by reflexivity.
  assert (Hwf : nonce_well_formed (auth_model Scenario.primitives)
                  (Scenario.nonce_request 0 "n1") Cases.evm_request EVM
                  Scenario.evm_address)
    by (repeat split; vm_compute; reflexivity).
  split; [exact Hwf|].
  pose proof (nonce_issued_with_ten_minutes (auth_model Scenario.primitives)
                Scenario.handler (Scenario.nonce_request 0 "n1")
                Cases.evm_request EVM Scenario.evm_address Scenario.start
                Hp Hwf) as H.
  cbn zeta in H. destruct H as (_ & _ & H).
  change (fst (CreateNonce (auth_model Scenario.primitives)
                 (Context (Scenario.nonce_request 0 "n1")) EVM
                 Scenario.evm_address 600000000000 (store Scenario.start)))
    with (@Ok NonceRow
            {| NonceToken := "n1"; NonceWalletType := EVM;
               NonceAddress := Scenario.evm_address; CreatedAt := 0;
               ExpiresAt := 600000000000; Consumed := false |}) in H.
  destruct H as (_ & _ & _ & H & _). exact H.
Defined.

(** The message issued with [n1], signed, passes at the first check. *)
Lemma issued_message_is_checked_first_witness :
  signed_over (auth_model Scenario.primitives) EVM Scenario.evm_address
    Scenario.login_body_request (Scenario.canonical_message "n1") = true
  /\ fst (run (Verify (auth_model Scenario.primitives) Scenario.handler
                 Scenario.login_request) Scenario.after_nonce)
     <> error_response StatusUnauthorized "invalid_signature".
Proof.
  assert (Hsig : signed_over (auth_model Scenario.primitives) EVM
                   Scenario.evm_address Scenario.login_body_request
                   (Scenario.canonical_message "n1") = true)
    by (vm_compute; reflexivity).
  split; [exact Hsig|].
  assert (Hst : status (fst (run (Nonce (auth_model Scenario.primitives)
                   Scenario.handler (Scenario.nonce_request 0 "n1"))
                   Scenario.start)) = StatusOK) by (vm_compute; reflexivity).
  assert (Hn : body (fst (run (Nonce (auth_model Scenario.primitives)
                  Scenario.handler (Scenario.nonce_request 0 "n1"))
                  Scenario.start)) !! "nonce" = Some (VString "n1"))
    by (vm_compute; reflexivity).
  assert (Hm : body (fst (run (Nonce (auth_model Scenario.primitives)
                  Scenario.handler (Scenario.nonce_request 0 "n1"))
                  Scenario.start)) !! "message"
               = Some (VString (Scenario.canonical_message "n1")))
    by (vm_compute; reflexivity).
  assert (Hp : has_pool Scenario.handler) by reflexivity.
  assert (Hs : has_secret Scenario.handler) by reflexivity.
  assert (Hwf : well_formed (auth_model Scenario.primitives)
                  Scenario.login_request Scenario.login_body_request EVM
                  Scenario.evm_address)
    by (repeat split; vm_compute; reflexivity).
  pose proof (issued_message_is_checked_first
                (auth_model Scenario.primitives) Scenario.handler
                (Scenario.nonce_request 0 "n1") Scenario.start "n1"
                (Scenario.canonical_message "n1") Scenario.handler
                Scenario.login_request Scenario.login_body_request EVM
                Scenario.evm_address Scenario.after_nonce
                Hst Hn Hm Hp Hs Hwf eq_refl Hsig) as H.
  cbn zeta in H. destruct H as [_ H]. exact H.
Defined.

(** The token of the scenario's login came with a 200. *)
Lemma token_only_after_transaction_witness :
  is_Some (bearer_token
             (fst (run (Verify (auth_model Scenario.primitives)
                          Scenario.handler Scenario.login_request)
                     Scenario.after_nonce)))
  /\ status (fst (run (Verify (auth_model Scenario.primitives)
                         Scenario.handler Scenario.login_request)
                    Scenario.after_nonce)) = StatusOK.
Proof.
  assert (Htok : bearer_token
                   (fst (run (Verify (auth_model Scenario.primitives)
                                Scenario.handler Scenario.login_request)
                           Scenario.after_nonce))
                 = Some (VToken
                           {| ClaimUserID := 7%N; ClaimRole := "contributor";
                              ClaimWalletType := EVM;
                              ClaimAddress := Scenario.evm_address;
                              IssuedAt := 1000;
                              TokenExpiresAt := 900000001000;
                              TokenSignature := "signed-with:s3cret" |}))
    by (vm_compute; reflexivity).
  split; [rewrite Htok; eexists; reflexivity|].
  destruct (token_only_after_transaction (auth_model Scenario.primitives)
              Scenario.handler Scenario.login_request Scenario.after_nonce
              _ Htok)
    as (req & wt & addr & res & token & _ & _ & _ & _ & _ & Hst).
  exact Hst.
Defined.

(** A request without the user local. *)
Lemma unparsable_user_is_invalid_user_witness :
  Scenario.uuid_Parse (default "" (LocalUserID Cases.anonymous))
    = Err "invalid UUID"
  /\ run (Me Scenario.github_up Scenario.uuid_Parse Scenario.QueryRowScan
            Scenario.handler Cases.anonymous) Scenario.linked
     = (error_response StatusUnauthorized "invalid_user", Scenario.linked).
Proof.
  assert (Hu : Scenario.uuid_Parse (default "" (LocalUserID Cases.anonymous))
               = Err "invalid UUID") by (vm_compute; reflexivity).
  split; [exact Hu|].
  assert (Hp : has_pool Scenario.handler) by reflexivity.
  exact (unparsable_user_is_invalid_user Scenario.github_up
           Scenario.uuid_Parse Scenario.QueryRowScan Scenario.handler
           Cases.anonymous Scenario.linked "invalid UUID" Hp Hu).
Defined.

(** The provider is down: vault, provider, cached row, in that order. *)
Lemma Me_calls_in_order_witness :
  calls (snd (run (Me Scenario.github_down Scenario.uuid_Parse
                     Scenario.QueryRowScan Scenario.handler
                     Scenario.me_request) Scenario.linked))
  = [ CallGetLinkedAccount 7%N "k1"; CallGetUser "gho_token";
      CallQueryRow 7%N ].
Proof.
  assert (Hp : has_pool Scenario.handler) by reflexivity.
  assert (Hu : Scenario.uuid_Parse
                 (default "" (LocalUserID Scenario.me_request)) = Ok 7%N)
    by (vm_compute; reflexivity).
  pose proof (Me_calls_in_order Scenario.github_down Scenario.uuid_Parse
                Scenario.QueryRowScan Scenario.handler Scenario.me_request
                7%N Scenario.linked Hp Hu) as H.
  cbn zeta in H. destruct H as (_ & H & _). rewrite H.
  vm_compute. reflexivity.
Defined.

(** The provider is up: 200 with the id as the locals gave it. *)
Lemma Me_answers_200_witness :
  status (fst (run (Me Scenario.github_up Scenario.uuid_Parse
                      Scenario.QueryRowScan Scenario.handler
                      Scenario.me_request) Scenario.linked)) = StatusOK
  /\ body (fst (run (Me Scenario.github_up Scenario.uuid_Parse
                       Scenario.QueryRowScan Scenario.handler
                       Scenario.me_request) Scenario.linked)) !! "id"
     = Some (VString "00000000-0000-0000-0000-000000000007").
Proof.
  assert (Hp : has_pool Scenario.handler) by reflexivity.
  assert (Hu : Scenario.uuid_Parse
                 (default "" (LocalUserID Scenario.me_request)) = Ok 7%N)
    by (vm_compute; reflexivity).
  pose proof (Me_answers_200 Scenario.github_up Scenario.uuid_Parse
                Scenario.QueryRowScan Scenario.handler Scenario.me_request
                7%N Scenario.linked Hp Hu) as H.
  cbn zeta in H. destruct H as (Hst & Hid & _).
  split; [exact Hst | exact Hid].
Defined.

(** An [Error] whose message is undefined makes the function throw, at
    its first test. *)
Lemma friendly_error_is_a_fixed_text_witness :
  errorHandler.getUserFriendlyError Cases.undefined_message
  = errorHandler.Throws.
Proof.
  destruct (friendly_error_is_a_fixed_text Cases.undefined_message)
    as (_ & _ & _ & [_ H]).
  apply H. right. exists (fun _ => None). split; [reflexivity|].
  exists [], "Network error",
    (tail (errorHandler.network_keywords ++ errorHandler.other_keywords)).
  split; [reflexivity|]. split; [constructor | reflexivity].
Defined.

(** A failed fetch that also mentions a 401 is a connection problem. *)
Lemma network_keyword_wins_witness :
  errorHandler.occurs_in "fetch" "Failed to fetch: 401"
  /\ errorHandler.getUserFriendlyError
       (errorHandler.ErrorObject "Failed to fetch: 401")
     = errorHandler.Returns
         "Unable to connect to the server. Please check your internet connection and try again.".
Proof.
  assert (Hocc : errorHandler.occurs_in "fetch" "Failed to fetch: 401")
    by (exists "Failed to ", ": 401"; reflexivity).
  split; [exact Hocc|].
  apply (network_keyword_wins _ "Failed to fetch: 401" "fetch");
    [reflexivity | cbn; tauto | exact Hocc].
Defined.

(** A text with 401 inside a longer number and a 500 after it. *)
Lemma session_keyword_is_second_witness :
  errorHandler.occurs_in "401" "HTTP 14012 after 500"
  /\ errorHandler.getUserFriendlyError
       (errorHandler.Thrown "HTTP 14012 after 500")
     = errorHandler.Returns "Your session has expired. Please sign in again.".
Proof.
  assert (Hocc : errorHandler.occurs_in "401" "HTTP 14012 after 500")
    by (exists "HTTP 1", "2 after 500"; reflexivity).
  split; [exact Hocc|].
  apply (session_keyword_is_second _ "HTTP 14012 after 500" "401");
    [reflexivity | | cbn; tauto | exact Hocc].
  intros n Hn. apply includes_absent. cbn in Hn.
  destruct Hn as [<-|[<-|[<-|[<-|[]]]]]; vm_compute; reflexivity.
Defined.

(** A text with none of the keywords. *)
Lemma unrecognized_text_gets_generic_answer_witness :
  errorHandler.getUserFriendlyError (errorHandler.Thrown "ECONNRESET")
  = errorHandler.Returns "Something went wrong. Please try again later.".
Proof.
  apply (unrecognized_text_gets_generic_answer
           (errorHandler.Thrown "ECONNRESET") "ECONNRESET" eq_refl).
  intros kw Hkw. apply includes_absent. cbn in Hkw.
  repeat (destruct Hkw as [<-|Hkw]; [vm_compute; reflexivity|]).
  destruct Hkw.
Defined.

(** "  Ada   Lovelace King ": the first name is "Ada". *)
Lemma first_name_is_first_word_witness :
  Cases.spaced_name <> []
  /\ ProfileTab.firstName (ProfileTab.prefill Cases.ada Cases.typed_state)
     <> []
  /\ ProfileTab.spaceless
       (ProfileTab.firstName (ProfileTab.prefill Cases.ada Cases.typed_state)).
Proof.
  assert (Hne : Cases.spaced_name <> []) by (vm_compute; discriminate).
  split; [exact Hne|].
  destruct (first_name_is_first_word Cases.ada _ Cases.spaced_name
              Cases.typed_state eq_refl eq_refl Hne) as (Hsp & _ & Hblank).
  split; [|exact Hsp].
  vm_compute. discriminate.
Defined.

(** The same name: the last name is "Lovelace King", and first and last
    name split into the three words. *)
Lemma last_name_is_the_other_words_witness :
  Cases.spaced_name <> []
  /\ ProfileTab.split
       (ProfileTab.firstName (ProfileTab.prefill Cases.ada Cases.typed_state)
        ++ ProfileTab.units " "
        ++ ProfileTab.lastName
             (ProfileTab.prefill Cases.ada Cases.typed_state))%list
     = [ ProfileTab.units "Ada"; ProfileTab.units "Lovelace";
         ProfileTab.units "King" ].
Proof.
  assert (Hne : Cases.spaced_name <> []) by (vm_compute; discriminate).
  split; [exact Hne|].
  destruct (last_name_is_the_other_words Cases.ada _ Cases.spaced_name
              Cases.typed_state eq_refl eq_refl Hne) as (_ & H).
  assert (Hlen : (1 < length (ProfileTab.split
                                (ProfileTab.trim Cases.spaced_name)))%nat)
    by (vm_compute; lia).
  destruct (H Hlen) as (_ & _ & Hsplit). rewrite Hsplit.
  vm_compute. reflexivity.
Defined.
